(** * Smart-grid load forecasting: the feature pipeline, the temporal split,
      the prediction cache and the aggregation queries

    Shallow embedding of [ml/train_forecast_model.py] and [ml/serve_model.py].

    Numbers.  A Python/NumPy float is modelled by [pyfloat]: the rational
    value it denotes, or one of the three special values.  Arithmetic on
    finite values is exact (binary64 rounding of results is not modelled),
    and decimal literals such as [0.8] denote their decimal value.  The
    cut index of the split is checked against its binary64 computation in
    [Binary64].

    Data frames.  A frame is the list of its rows, in index order; a column
    (a pandas Series) is the list of its cells.  The pandas and scikit-learn
    functions the two scripts call are modelled by their documented
    behaviour at the arguments the scripts pass. *)

From Stdlib Require Import ZArith QArith Qabs Qround Lia Lqa String Ascii.
From Stdlib Require Import Sorting.Sorted.
From Stdlib Require Import PrimFloat FloatOps SpecFloat Uint63.
From stdpp Require Import base list strings gmap sorting.

Open Scope Z_scope.

(* ===================================================================== *)
(** * Floats *)
(* ===================================================================== *)

Module PyFloat.

Inductive pyfloat : Type :=
| Finite (q : Q)
| PosInf
| NegInf
| NaN.

Definition of_Z (z : Z) : pyfloat := Finite (inject_Z z).

(** [math.isnan], [math.isinf], [math.isfinite] *)
Definition isnan (x : pyfloat) : bool :=
  match x with NaN => true | _ => false end.

Definition isinf (x : pyfloat) : bool :=
  match x with PosInf | NegInf => true | _ => false end.

Definition isfinite (x : pyfloat) : bool :=
  match x with Finite _ => true | _ => false end.

Definition Qlt_bool (a b : Q) : bool := negb (Qle_bool b a).

(** [x < y]: every comparison with NaN is false. *)
Definition flt (x y : pyfloat) : bool :=
  match x, y with
  | NaN, _ | _, NaN => false
  | NegInf, NegInf => false
  | NegInf, _ => true
  | _, NegInf => false
  | PosInf, _ => false
  | Finite _, PosInf => true
  | Finite a, Finite b => Qlt_bool a b
  end.

(** [x <= y] *)
Definition fle (x y : pyfloat) : bool :=
  match x, y with
  | NaN, _ | _, NaN => false
  | NegInf, _ => true
  | _, NegInf => false
  | _, PosInf => true
  | PosInf, _ => false
  | Finite a, Finite b => Qle_bool a b
  end.

(** [x == y] *)
Definition feqb (x y : pyfloat) : bool :=
  match x, y with
  | Finite a, Finite b => Qeq_bool a b
  | PosInf, PosInf | NegInf, NegInf => true
  | _, _ => false
  end.

Definition fneg (x : pyfloat) : pyfloat :=
  match x with
  | Finite q => Finite (- q)
  | PosInf => NegInf
  | NegInf => PosInf
  | NaN => NaN
  end.

Definition fadd (x y : pyfloat) : pyfloat :=
  match x, y with
  | NaN, _ | _, NaN => NaN
  | PosInf, NegInf | NegInf, PosInf => NaN
  | PosInf, _ | _, PosInf => PosInf
  | NegInf, _ | _, NegInf => NegInf
  | Finite a, Finite b => Finite (a + b)
  end.

Definition fsub (x y : pyfloat) : pyfloat := fadd x (fneg y).

(** NumPy division: a nonzero value over zero is an infinity, zero over
    zero is NaN (signed zeros are not modelled: [0] is [+0.0]). *)
Definition fdiv (x y : pyfloat) : pyfloat :=
  match x, y with
  | NaN, _ | _, NaN => NaN
  | Finite a, Finite b =>
      if Qeq_bool b 0 then
        if Qeq_bool a 0 then NaN
        else if Qlt_bool 0 a then PosInf else NegInf
      else Finite (a / b)
  | Finite _, _ => Finite 0
  | PosInf, Finite b => if Qlt_bool b 0 then NegInf else PosInf
  | NegInf, Finite b => if Qlt_bool b 0 then PosInf else NegInf
  | _, _ => NaN
  end.

(** The rational value of a finite float. *)
Definition finite_value (x : pyfloat) : option Q :=
  match x with Finite q => Some q | _ => None end.

End PyFloat.
Export PyFloat.

(* ===================================================================== *)
(** * Python built-ins used by the scripts *)
(* ===================================================================== *)

Module Py.

(** Nearest integer, ties to the even one. *)
Definition round_half_even (q : Q) : Z :=
  let f := Qfloor q in
  match (q - inject_Z f ?= 1 # 2)%Q with
  | Lt => f
  | Gt => f + 1
  | Eq => if Z.even f then f else f + 1
  end.

(** [round(x, ndigits)] on a float: NaN and the infinities round to
    themselves, a finite value to the nearest multiple of
    [10^-ndigits], ties to even. *)
Definition round (x : pyfloat) (ndigits : nat) : pyfloat :=
  match x with
  | Finite q =>
      let scale := 10 ^ Z.of_nat ndigits in
      Finite (Qred (Qmake (round_half_even (q * inject_Z scale))
                          (Z.to_pos scale)))
  | _ => x
  end.

(** [int(n * f)] for a non-negative integer [n] and a finite float
    literal [f]: the product, truncated toward zero. *)
Definition int_of_product (n : Z) (f : Q) : Z :=
  let p := (inject_Z n * f)%Q in
  Z.quot (Qnum p) (Z.pos (Qden p)).

(** [max(a, b)]: the first argument unless the second is greater. *)
Definition max (a b : pyfloat) : pyfloat :=
  if flt a b then b else a.

(** [f"{h:02d}"] for [0 <= h < 100] *)
Definition digit (d : Z) : ascii :=
  ascii_of_nat (48 + Z.to_nat d).

Definition fmt_02d (h : Z) : string :=
  String (digit (h / 10)) (String (digit (h mod 10)) EmptyString).

End Py.

(* ===================================================================== *)
(** * serve_model.py: [safe_float] *)
(* ===================================================================== *)

(** The values [safe_float] is called with.  [PyNone] is Python's [None].
    [PyNum is_float x] is a number whose value as a float is [x];
    [is_float] tells whether it is an instance of [float] (a Python float,
    or a [numpy.float64], which derives from it) or not (a [numpy.float32],
    an integer). *)
Inductive pyval : Type :=
| PyNone
| PyNum (is_float : bool) (x : pyfloat).

Abbreviation PyFloat := (PyNum true).
Abbreviation NpFloat32 := (PyNum false).

(** [safe_float(val)]: the result is [None] (JSON null) or a Python float.

<<
    if val is None or (isinstance(val, float) and math.isnan(val)):
        return None
    return round(float(val), 4)
>> *)
Definition safe_float (val : pyval) : option pyfloat :=
  match val with
  | PyNone => None
  | PyNum is_float x =>
      if is_float && isnan x then None else Some (Py.round x 4)
  end.

(** A result of [safe_float], as a value: [None], or a Python float. *)
Definition returned (r : option pyfloat) : pyval :=
  match r with
  | None => PyNone
  | Some x => PyFloat x
  end.

(* ===================================================================== *)
(** * pandas: the Series and DataFrame operations the scripts call *)
(* ===================================================================== *)

Module Pandas.

(** ** [Series.shift(k)]
    Cell [i] receives the value of cell [i - k]; the first [k] cells
    are NaN. *)
Definition shift (k : nat) (s : list pyfloat) : list pyfloat :=
  take (length s) (replicate k NaN ++ s).

(** ** [Series.rolling(w)] with the default [min_periods = w]
    The window of cell [i] is the [w] cells ending at [i].  Infinite
    observations are turned into NaN before aggregating, and a window
    with fewer than [w] valid observations yields NaN.

    The aggregate of a window is taken exactly, from its observations.
    pandas keeps running binary64 sums instead, which an intermediate
    overflow turns into NaN for every later window: the model stands for
    series whose observations are small enough for that not to happen
    ([Spec.power_in_range]), and the theorems that depend on the value of
    a window assume it. *)
Definition window (w : nat) (s : list pyfloat) (i : nat) : option (list Q) :=
  if (i + 1 <? w)%nat then None
  else mapM finite_value (take w (drop (i + 1 - w) s)).

Definition rolling (w : nat) (agg : list Q → pyfloat) (s : list pyfloat)
  : list pyfloat :=
  imap (λ i _, match window w s i with
               | Some obs => agg obs
               | None => NaN
               end) s.

Definition Qsum (l : list Q) : Q := foldr Qplus 0%Q l.

Definition Qlen (l : list Q) : Q := inject_Z (Z.of_nat (length l)).

Definition Qmean (l : list Q) : Q := (Qsum l / Qlen l)%Q.

Definition Qsq (x : Q) : Q := (x * x)%Q.

(** Sample variance (denominator [n - 1]). *)
Definition Qvar (l : list Q) : Q :=
  (Qsum ((λ x, Qsq (x - Qmean l)) <$> l) / (Qlen l - 1))%Q.

Definition Qmax (a b : Q) : Q := if Qle_bool a b then b else a.

Definition agg_mean (obs : list Q) : pyfloat :=
  match obs with [] => NaN | _ => Finite (Qmean obs) end.

Definition agg_max (obs : list Q) : pyfloat :=
  match obs with [] => NaN | x :: r => Finite (foldl Qmax x r) end.

(** [.std()]: the sample standard deviation; [fsqrt] is the square root. *)
Definition agg_std (fsqrt : Q → Q) (obs : list Q) : pyfloat :=
  match obs with
  | [] | [_] => NaN
  | _ => Finite (fsqrt (Qvar obs))
  end.

(** ** [DataFrame.dropna()]
    Keeps, in order, the rows none of whose cells is NaN; [cells] lists
    the cells of a row. *)
Definition notna_row {A} (cells : A → list pyfloat) (r : A) : bool :=
  forallb (λ c, negb (isnan c)) (cells r).

Definition dropna {A} (cells : A → list pyfloat) (df : list A) : list A :=
  List.filter (notna_row cells) df.

(** ** [iloc[:k]] and [iloc[k:]] for [0 <= k] *)
Definition iloc_to {A} (k : Z) (df : list A) : list A := take (Z.to_nat k) df.
Definition iloc_from {A} (k : Z) (df : list A) : list A := drop (Z.to_nat k) df.

(** ** [DataFrame.tail(n)] *)
Definition tail {A} (n : nat) (df : list A) : list A :=
  drop (length df - n) df.

(** ** Stable sorting
    [kind="mergesort"] is a stable sort; it is modelled by insertion in
    front of the first element that is not smaller. *)
Fixpoint insert_sorted {A} (le : A → A → bool) (x : A) (l : list A) : list A :=
  match l with
  | [] => [x]
  | y :: l' => if le x y then x :: l else y :: insert_sorted le x l'
  end.

Definition stable_sort {A} (le : A → A → bool) (l : list A) : list A :=
  foldr (insert_sorted le) [] l.

(** ** [Series.median()] (NaN cells are skipped)
<<
    if n % 2: kth_smallest(a, n // 2)
    else:     (kth_smallest(a, n // 2) + kth_smallest(a, n // 2 - 1)) / 2
>> *)
Definition kth_smallest (a : list pyfloat) (k : nat) : pyfloat :=
  default NaN (stable_sort fle a !! k).

Definition median (s : list pyfloat) : pyfloat :=
  let a := List.filter (λ x, negb (isnan x)) s in
  let n := length a in
  if (n =? 0)%nat then NaN
  else if Nat.odd n then kth_smallest a (n / 2)
  else fdiv (fadd (kth_smallest a (n / 2)) (kth_smallest a (n / 2 - 1)))
            (of_Z 2).

(** ** [DataFrame.groupby(key)]: for each key, its rows in frame order *)
Definition groupby {A} (key : A → Z) (df : list A) : gmap Z (list A) :=
  foldr (λ r g, <[key r := r :: default [] (g !! key r)]> g) ∅ df.

(** ** [.reindex(index, fill_value)] followed by iteration: the entries
    in the order of [index], absent labels filled. *)
Definition reindex `{Countable K} {V} (index : list K) (fill : V)
    (s : gmap K V) : list (K * V) :=
  (λ k, (k, default fill (s !! k))) <$> index.

(** [k in s.index] and [s.loc[k]] on a reindexed series *)
Definition loc `{EqDecision K} {V} (k : K) (s : list (K * V)) : option V :=
  snd <$> List.find (λ p, bool_decide (p.1 = k)) s.

(** ** [pd.cut(x, bins, labels)] with the defaults [right=True],
    [include_lowest=False]
<<
    ids = bins.searchsorted(x, side="left")
    na_mask = isna(x) | (ids == len(bins)) | (ids == 0)
    result = labels[ids - 1], NaN where na_mask
>>
    On sorted [bins], [searchsorted(side="left")] is the number of bins
    strictly below [x]; NaN sorts after every bin. *)
Definition searchsorted_left (bins : list pyfloat) (x : pyfloat) : nat :=
  if isnan x then length bins
  else length (List.filter (λ b, flt b x) bins).

Definition cut (bins : list pyfloat) (labels : list string) (x : pyfloat)
  : option string :=
  let ids := searchsorted_left bins x in
  if isnan x || (ids =? length bins)%nat || (ids =? 0)%nat then None
  else labels !! (ids - 1)%nat.

(** ** [Series.value_counts()]: occurrences per label, NaN dropped *)
Definition value_counts (s : list (option string)) : gmap string nat :=
  foldr (λ c m, match c with
                | Some l => <[l := S (default 0%nat (m !! l))]> m
                | None => m
                end) ∅ s.

(** ** [DataFrame.nlargest(n, col)] with the default [keep="first"]
<<
    dropped = obj.dropna();  nan_index = obj.drop(dropped.index)
    arr = -dropped.values
    inds = arr.argsort(kind="mergesort")[:n]
    concat([dropped.iloc[inds], nan_index]).iloc[:n]
>>
    Rows travel with their position in the frame. *)
Definition indexed {A} (df : list A) : list (nat * A) :=
  imap (λ i r, (i, r)) df.

Definition by_descending {A} (col : A → pyfloat) (a b : nat * A) : bool :=
  fle (fneg (col a.2)) (fneg (col b.2)).

Definition nlargest_index {A} (n : nat) (col : A → pyfloat) (df : list A)
  : list (nat * A) :=
  let obj := indexed df in
  let dropped := List.filter (λ ir, negb (isnan (col ir.2))) obj in
  let nan_index := List.filter (λ ir, isnan (col ir.2)) obj in
  let by_arr := stable_sort (by_descending col) dropped in
  take n (by_arr ++ nan_index).

Definition nlargest {A} (n : nat) (col : A → pyfloat) (df : list A) : list A :=
  snd <$> nlargest_index n col df.

(** ** [DataFrame.groupby(key)] followed by [reset_index()] and
    [sort_values(key)]: the groups in ascending order of their key, each
    with its rows in frame order. *)
Definition groupby_sorted {A K} `{EqDecision K} (le : K → K → bool)
    (key : A → K) (df : list A) : list (K * list A) :=
  (λ k, (k, List.filter (λ r, bool_decide (key r = k)) df))
    <$> stable_sort le (remove_dups (key <$> df)).

(** ** [Series.mean()], [Series.max()], [Series.min()] (NaN cells are
    skipped; an empty or all-NaN series gives NaN)
    The maximum and the minimum are cells of the series.  The mean is the
    exact one: the binary64 mean can differ from it in its last places,
    and so, after rounding to 4 decimals, in the last decimal. *)
Definition notna_values (s : list pyfloat) : list pyfloat :=
  List.filter (λ x, negb (isnan x)) s.

Definition fsum (s : list pyfloat) : pyfloat := foldr fadd (of_Z 0) s.

Definition mean (s : list pyfloat) : pyfloat :=
  match notna_values s with
  | [] => NaN
  | a => fdiv (fsum a) (of_Z (Z.of_nat (length a)))
  end.

Definition fmax (a b : pyfloat) : pyfloat := if flt a b then b else a.
Definition fmin (a b : pyfloat) : pyfloat := if flt b a then b else a.

Definition max (s : list pyfloat) : pyfloat :=
  match notna_values s with
  | [] => NaN
  | x :: a => foldl fmax x a
  end.

Definition min (s : list pyfloat) : pyfloat :=
  match notna_values s with
  | [] => NaN
  | x :: a => foldl fmin x a
  end.

End Pandas.

(* ===================================================================== *)
(** * scikit-learn: the split and the metrics the scripts call *)
(* ===================================================================== *)

Module Sklearn.

(** A call either returns or raises [ValueError]. *)
Inductive outcome (A : Type) : Type :=
| Ok (a : A)
| ValueError.
Arguments Ok {A} a.
Arguments ValueError {A}.

Definition bind {A B} (o : outcome A) (k : A → outcome B) : outcome B :=
  match o with Ok a => k a | ValueError => ValueError end.

(** ** [train_test_split(X, test_size=t, shuffle=False)] ([train_size] is
    [None])
<<
    if test_size <= 0 or test_size >= 1: raise ValueError
    n_test  = ceil(test_size * n_samples)
    n_train = n_samples - n_test
    if n_train == 0: raise ValueError
    train = arange(n_train); test = arange(n_train, n_train + n_test)
>> *)
Definition train_test_split {A} (test_size : Q) (X : list A)
  : outcome (list A * list A) :=
  let n_samples := Z.of_nat (length X) in
  if Qle_bool test_size 0 || Qle_bool 1 test_size then ValueError
  else
    let n_test := Qceiling (test_size * inject_Z n_samples) in
    let n_train := n_samples - n_test in
    if n_train =? 0 then ValueError
    else Ok (take (Z.to_nat n_train) X,
             take (Z.to_nat n_test) (drop (Z.to_nat n_train) X)).

(** ** Input validation shared by the regression metrics: both arrays
    non-empty, of one length, every value finite. *)
Definition check_reg_targets (y_true y_pred : list pyfloat)
  : outcome (list Q * list Q) :=
  match mapM finite_value y_true, mapM finite_value y_pred with
  | Some a, Some p =>
      if (length a =? length p)%nat && negb (length a =? 0)%nat
      then Ok (a, p) else ValueError
  | _, _ => ValueError
  end.

Definition Qabs_diff (ap : Q * Q) : Q := Qabs (ap.1 - ap.2).
Definition Qsq_diff (ap : Q * Q) : Q := Pandas.Qsq (ap.1 - ap.2).

(** [mean_absolute_error], [mean_squared_error] *)
Definition mean_absolute_error (y_true y_pred : list pyfloat) : outcome pyfloat :=
  bind (check_reg_targets y_true y_pred) (λ '(a, p),
    Ok (Finite (Pandas.Qmean (Qabs_diff <$> zip a p)))).

Definition mean_squared_error (y_true y_pred : list pyfloat) : outcome pyfloat :=
  bind (check_reg_targets y_true y_pred) (λ '(a, p),
    Ok (Finite (Pandas.Qmean (Qsq_diff <$> zip a p)))).

(** Residual and total sums of squares. *)
Definition SS_res (a p : list Q) : Q := Pandas.Qsum (Qsq_diff <$> zip a p).
Definition SS_tot (a : list Q) : Q :=
  Pandas.Qsum ((λ x, Pandas.Qsq (x - Pandas.Qmean a)) <$> a).

(** ** [r2_score(y_true, y_pred)]
<<
    if n_samples < 2: return nan
    numerator = ((y_true - y_pred) ** 2).sum()
    denominator = ((y_true - average(y_true)) ** 2).sum()
    score = 1 - numerator / denominator     where denominator != 0
    score = 0.0    where numerator != 0 and denominator == 0
    score = 1.0    where both are 0
>> *)
Definition r2_score (y_true y_pred : list pyfloat) : outcome pyfloat :=
  bind (check_reg_targets y_true y_pred) (λ '(a, p),
    if (length a <? 2)%nat then Ok NaN
    else
      let numerator := SS_res a p in
      let denominator := SS_tot a in
      if negb (Qeq_bool denominator 0)
      then Ok (Finite (1 - numerator / denominator))
      else if negb (Qeq_bool numerator 0) then Ok (Finite 0)
      else Ok (Finite 1)).

End Sklearn.
Export Sklearn (outcome, Ok, ValueError).

(* ===================================================================== *)
(** * Data model *)
(* ===================================================================== *)

(** A parsed [Timestamp] cell, through the accessors the scripts read
    ([.dt.hour], [.dt.dayofweek], [.dt.month], [.dt.date], [strftime]). *)
Record timestamp : Type := {
  dt_year : Z;
  dt_month : Z;
  dt_day : Z;
  dt_hour : Z;
  dt_minute : Z;
  dt_dayofweek : Z
}.

(** One row of [smart_grid_dataset.csv].  [other_columns] are the cells of
    the columns the scripts never read; NaN is a missing cell. *)
Record Reading : Type := {
  Timestamp : timestamp;
  Voltage_V : pyfloat;
  Current_A : pyfloat;
  Reactive_Power_kVAR : pyfloat;
  Power_Factor : pyfloat;
  Power_Consumption_kW : pyfloat;
  other_columns : list pyfloat
}.

(** One row of the frame after the feature columns are added. *)
Record Row : Type := {
  reading : Reading;
  hour : Z;
  dayofweek : Z;
  month : Z;
  is_weekend : Z;
  power_lag_1 : pyfloat;
  power_lag_2 : pyfloat;
  power_lag_4 : pyfloat;
  power_roll_mean_1h : pyfloat;
  power_roll_std_1h : pyfloat;
  power_roll_max_1h : pyfloat
}.

(** One row of [df_test] once [predicted_kw] is attached. *)
Record PredRow : Type := {
  row : Row;
  predicted_kw : pyfloat
}.

Definition raw_cells (r : Reading) : list pyfloat :=
  [Voltage_V r; Current_A r; Reactive_Power_kVAR r; Power_Factor r;
   Power_Consumption_kW r] ++ other_columns r.

(** The float cells of a row (the integer time columns are never NaN). *)
Definition row_cells (r : Row) : list pyfloat :=
  raw_cells (reading r) ++
  [power_lag_1 r; power_lag_2 r; power_lag_4 r;
   power_roll_mean_1h r; power_roll_std_1h r; power_roll_max_1h r].

(* ===================================================================== *)
(** * Feature engineering (both scripts run the same statements) *)
(* ===================================================================== *)

(** [df["dayofweek"].isin([5, 6]).astype(int)] *)
Definition isin_5_6 (d : Z) : Z :=
  if (d =? 5) || (d =? 6) then 1 else 0.

(** The frame is taken after [sort_values("Timestamp").reset_index()]:
    [df] is the list of readings in timestamp order.
<<
    df["hour"]       = df["Timestamp"].dt.hour
    df["dayofweek"]  = df["Timestamp"].dt.dayofweek
    df["month"]      = df["Timestamp"].dt.month
    df["is_weekend"] = df["dayofweek"].isin([5, 6]).astype(int)
    df["power_lag_1"] = df["Power Consumption (kW)"].shift(1)
    df["power_lag_2"] = df["Power Consumption (kW)"].shift(2)
    df["power_lag_4"] = df["Power Consumption (kW)"].shift(4)
    df["power_roll_mean_1h"] = df["Power Consumption (kW)"].rolling(4).mean()
    df["power_roll_std_1h"]  = df["Power Consumption (kW)"].rolling(4).std()
    df["power_roll_max_1h"]  = df["Power Consumption (kW)"].rolling(4).max()
    df.dropna(inplace=True)
>> *)
Definition add_features (fsqrt : Q → Q) (df : list Reading) : list Row :=
  let power := Power_Consumption_kW <$> df in
  let lag_1 := Pandas.shift 1 power in
  let lag_2 := Pandas.shift 2 power in
  let lag_4 := Pandas.shift 4 power in
  let roll_mean := Pandas.rolling 4 Pandas.agg_mean power in
  let roll_std := Pandas.rolling 4 (Pandas.agg_std fsqrt) power in
  let roll_max := Pandas.rolling 4 Pandas.agg_max power in
  let cell (col : list pyfloat) (i : nat) := default NaN (col !! i) in
  imap (λ i r,
    {| reading := r;
       hour := dt_hour (Timestamp r);
       dayofweek := dt_dayofweek (Timestamp r);
       month := dt_month (Timestamp r);
       is_weekend := isin_5_6 (dt_dayofweek (Timestamp r));
       power_lag_1 := cell lag_1 i;
       power_lag_2 := cell lag_2 i;
       power_lag_4 := cell lag_4 i;
       power_roll_mean_1h := cell roll_mean i;
       power_roll_std_1h := cell roll_std i;
       power_roll_max_1h := cell roll_max i |}) df.

Definition feature_engineering (fsqrt : Q → Q) (df : list Reading) : list Row :=
  Pandas.dropna row_cells (add_features fsqrt df).

(* ===================================================================== *)
(** * train_forecast_model.py *)
(* ===================================================================== *)

Module Train.

(** [df] after section 2 of the script. *)
Definition df := feature_engineering.

(** [train_test_split(X, y, test_size=0.2, shuffle=False)]: [X] and [y]
    are columns of one frame, so the frame's rows are split. *)
Definition split (df : list Row) : outcome (list Row * list Row) :=
  Sklearn.train_test_split (2 # 10) df.

(** ** Efficiency analysis: the share of low power factors
<<
    LOW_PF_THRESHOLD = 0.85
    df["Low_PF_Flag"] = df["Power Factor"] < LOW_PF_THRESHOLD
    low_pf_pct = (df["Low_PF_Flag"].sum() / len(df)) * 100
>> *)
Definition LOW_PF_THRESHOLD : pyfloat := Finite (85 # 100).

Definition Low_PF_Flag (r : Row) : bool :=
  flt (Power_Factor (reading r)) LOW_PF_THRESHOLD.

Definition low_pf_pct (df : list Row) : pyfloat :=
  let flagged := Z.of_nat (length (List.filter Low_PF_Flag df)) in
  match fdiv (of_Z flagged) (of_Z (Z.of_nat (length df))) with
  | Finite q => Finite (q * 100)
  | PosInf => PosInf
  | NegInf => NegInf
  | NaN => NaN
  end.

End Train.

(* ===================================================================== *)
(** * serve_model.py *)
(* ===================================================================== *)

Module Serve.

(** [df_raw] after the feature-engineering block. *)
Definition df_raw := feature_engineering.

(** ** The 80/20 split
<<
    split_idx = int(len(df_raw) * 0.8)
    df_train = df_raw.iloc[:split_idx]
    df_test  = df_raw.iloc[split_idx:].copy()
>> *)
Definition split_idx {A} (df_raw : list A) : Z :=
  Py.int_of_product (Z.of_nat (length df_raw)) (8 # 10).

Definition df_train {A} (df_raw : list A) : list A :=
  Pandas.iloc_to (split_idx df_raw) df_raw.

Definition df_test {A} (df_raw : list A) : list A :=
  Pandas.iloc_from (split_idx df_raw) df_raw.

(** The three statements as one step of the start-up sequence.  None of
    them can raise, whatever the length of [df_raw]. *)
Definition split {A} (df_raw : list A) : outcome (list A * list A) :=
  Ok (df_train df_raw, df_test df_raw).

(** ** The prediction cache
<<
    y_pred_all = model.predict(X_test)
    df_test["predicted_kw"] = y_pred_all
    MAE_VAL  = float(mean_absolute_error(y_test, y_pred_all))
    RMSE_VAL = float(math.sqrt(mean_squared_error(y_test, y_pred_all)))
    R2_VAL   = float(max(0.0, r2_score(y_test, y_pred_all)))
>>
    [model] maps the feature columns of a row to its prediction. *)
Definition predict (model : Row → pyfloat) (test : list Row) : list PredRow :=
  (λ r, {| row := r; predicted_kw := model r |}) <$> test.

Definition actual_kw (r : PredRow) : pyfloat :=
  Power_Consumption_kW (reading (row r)).

Definition y_test (table : list PredRow) : list pyfloat := actual_kw <$> table.
Definition y_pred_all (table : list PredRow) : list pyfloat :=
  predicted_kw <$> table.

Definition sqrt_float (fsqrt : Q → Q) (x : pyfloat) : pyfloat :=
  match x with Finite q => Finite (fsqrt q) | _ => x end.

Definition MAE_VAL (table : list PredRow) : outcome pyfloat :=
  Sklearn.mean_absolute_error (y_test table) (y_pred_all table).

Definition RMSE_VAL (fsqrt : Q → Q) (table : list PredRow) : outcome pyfloat :=
  Sklearn.bind (Sklearn.mean_squared_error (y_test table) (y_pred_all table))
               (λ m, Ok (sqrt_float fsqrt m)).

Definition R2_VAL (table : list PredRow) : outcome pyfloat :=
  Sklearn.bind (Sklearn.r2_score (y_test table) (y_pred_all table))
               (λ r, Ok (Py.max (of_Z 0) r)).

(** Every actual and every predicted value of the table is a finite
    number. *)
Definition table_finite (table : list PredRow) : bool :=
  forallb (λ r, isfinite (actual_kw r) && isfinite (predicted_kw r)) table.

(** What the module holds once it has been imported without an error. *)
Record Cache : Type := {
  cache_train : list Row;
  cache_test : list PredRow;
  cache_mae : pyfloat;
  cache_rmse : pyfloat;
  cache_r2 : pyfloat
}.

Definition startup (fsqrt : Q → Q) (model : Row → pyfloat) (csv : list Reading)
  : outcome Cache :=
  let frame := df_raw fsqrt csv in
  Sklearn.bind (split frame) (λ '(train, test),
  let table := predict model test in
  Sklearn.bind (MAE_VAL table) (λ mae,
  Sklearn.bind (RMSE_VAL fsqrt table) (λ rmse,
  Sklearn.bind (R2_VAL table) (λ r2,
    Ok {| cache_train := train;
          cache_test := table;
          cache_mae := mae;
          cache_rmse := rmse;
          cache_r2 := r2 |})))).

(** ["r2": round(R2_VAL, 4)] in [modelStats] *)
Definition modelStats_r2 (r2_val : pyfloat) : pyfloat := Py.round r2_val 4.

(** ** [/forecast]: the next-day profile
<<
    tomorrow_dow = (datetime.now().weekday() + 1) % 7
    dow_rows = df_test[df_test["dayofweek"] == tomorrow_dow]
    if dow_rows.empty:
        dow_rows = df_test  # fallback
    dow_hourly = (dow_rows.groupby("hour")
                  .agg(predicted=("predicted_kw", "median"))
                  .reindex(range(24)))
    CONFIDENCE_BASE = 88
    for h in range(24):
        pred = dow_hourly.loc[h, "predicted"] if h in dow_hourly.index else None
        forecastTomorrow.append({
            "hour": h, "label": f"{h:02d}:00",
            "predicted": safe_float(pred)
                if pred is not None and not math.isnan(float(pred)) else 0,
            "confidence": CONFIDENCE_BASE + (h % 4) })
>>
    [now_weekday] is [datetime.now().weekday()].  [safe_float] is reached
    with a [pred] that is not NaN, where the class of [pred] makes no
    difference to it. *)
Record TomorrowEntry : Type := {
  te_hour : Z;
  te_label : string;
  te_predicted : option pyfloat;
  te_confidence : Z
}.

Definition tomorrow_dow (now_weekday : Z) : Z := (now_weekday + 1) mod 7.

Definition dow_rows (now_weekday : Z) (df_test : list PredRow) : list PredRow :=
  let matching :=
    List.filter (λ r, dayofweek (row r) =? tomorrow_dow now_weekday) df_test in
  match matching with
  | [] => df_test
  | _ => matching
  end.

Definition hour_of (r : PredRow) : Z := hour (row r).

Definition dow_hourly (now_weekday : Z) (df_test : list PredRow)
  : list (Z * pyfloat) :=
  Pandas.reindex (seqZ 0 24) NaN
    ((λ g, Pandas.median (predicted_kw <$> g))
       <$> Pandas.groupby hour_of (dow_rows now_weekday df_test)).

Definition CONFIDENCE_BASE : Z := 88.

Definition label (h : Z) : string := (Py.fmt_02d h ++ ":00")%string.

Definition tomorrow_entry (hourly : list (Z * pyfloat)) (h : Z) : TomorrowEntry :=
  let pred := Pandas.loc h hourly in
  {| te_hour := h;
     te_label := label h;
     te_predicted :=
       match pred with
       | Some p => if negb (isnan p) then safe_float (PyFloat p)
                   else Some (of_Z 0)
       | None => Some (of_Z 0)
       end;
     te_confidence := CONFIDENCE_BASE + h mod 4 |}.

Definition forecastTomorrow (now_weekday : Z) (df_test : list PredRow)
  : list TomorrowEntry :=
  tomorrow_entry (dow_hourly now_weekday df_test) <$> seqZ 0 24.

(** ** [/peak]: the histogram
<<
    bins   = [0, 2, 4, 6, 8, 10, 12, float("inf")]
    labels = ["0-2 kW","2-4 kW","4-6 kW","6-8 kW","8-10 kW","10-12 kW","12+ kW"]
    pred_series = pd.cut(df_work["predicted_kw"], bins=bins, labels=labels)
    hist_counts = pred_series.value_counts().reindex(labels, fill_value=0)
    histogram = [{"range": lbl, "count": int(cnt)}
                 for lbl, cnt in hist_counts.items()]
>> *)
Definition bins : list pyfloat :=
  [of_Z 0; of_Z 2; of_Z 4; of_Z 6; of_Z 8; of_Z 10; of_Z 12; PosInf].

Definition labels : list string :=
  ["0-2 kW"; "2-4 kW"; "4-6 kW"; "6-8 kW"; "8-10 kW"; "10-12 kW"; "12+ kW"]%string.

Record HistEntry : Type := { range : string; count : Z }.

Definition pred_series (df_work : list PredRow) : list (option string) :=
  (λ r, Pandas.cut bins labels (predicted_kw r)) <$> df_work.

Definition hist_counts (df_work : list PredRow) : list (string * nat) :=
  Pandas.reindex labels 0%nat (Pandas.value_counts (pred_series df_work)).

Definition histogram (df_work : list PredRow) : list HistEntry :=
  (λ '(lbl, cnt), {| range := lbl; count := Z.of_nat cnt |})
    <$> hist_counts df_work.

(** ** [/peak]: the ten largest predictions
<<
    top10_df = df_work.nlargest(10, "predicted_kw")[[...]]
    top10 = [{"time": row["Timestamp"].strftime("%Y-%m-%d %H:%M"),
              "actualKW":    safe_float(row["Power Consumption (kW)"]),
              "predictedKW": safe_float(row["predicted_kw"]),
              "voltage":     safe_float(row["Voltage (V)"]),
              "current":     safe_float(row["Current (A)"]),
              "powerFactor": safe_float(row["Power Factor"])}
             for _, row in top10_df.iterrows()]
>>
    [time] keeps the timestamp itself; its rendering as text is not
    modelled.  The frame has a [Timestamp] column, so [iterrows()] yields
    rows of dtype object, whose numeric cells are Python floats. *)
Record Top10Entry : Type := {
  time : timestamp;
  actualKW : option pyfloat;
  predictedKW : option pyfloat;
  voltage : option pyfloat;
  current : option pyfloat;
  powerFactor : option pyfloat
}.

Definition top10_df (df_work : list PredRow) : list PredRow :=
  Pandas.nlargest 10 predicted_kw df_work.

Definition top10_entry (r : PredRow) : Top10Entry :=
  {| time := Timestamp (reading (row r));
     actualKW := safe_float (PyFloat (actual_kw r));
     predictedKW := safe_float (PyFloat (predicted_kw r));
     voltage := safe_float (PyFloat (Voltage_V (reading (row r))));
     current := safe_float (PyFloat (Current_A (reading (row r))));
     powerFactor := safe_float (PyFloat (Power_Factor (reading (row r)))) |}.

Definition top10 (df_work : list PredRow) : list Top10Entry :=
  top10_entry <$> top10_df df_work.

(** ** Feature importance
<<
    feat_imp = [{"feature": feat, "importance": float(imp)}
                for feat, imp in sorted(zip(FEATURES, model.feature_importances_),
                                        key=lambda x: x[1], reverse=True)]
>>
    [sorted(..., reverse=True)] is stable: pairs with equal keys keep their
    order.  The importances of the fitted model are finite numbers. *)
Definition FEATURES : list string :=
  ["Voltage (V)"; "Current (A)"; "Reactive Power (kVAR)"; "Power Factor";
   "hour"; "dayofweek"; "month"; "is_weekend";
   "power_lag_1"; "power_lag_2"; "power_lag_4";
   "power_roll_mean_1h"; "power_roll_std_1h"; "power_roll_max_1h"]%string.

Definition by_importance_desc (a b : string * Q) : bool := Qle_bool b.2 a.2.

Definition feat_imp (feature_importances : list Q) : list (string * Q) :=
  Pandas.stable_sort by_importance_desc (zip FEATURES feature_importances).

(** ** [/health] and the sizes in [modelStats] *)
Definition testRows {A} (df_raw : list A) : nat := length (df_test df_raw).
Definition trainSize {A} (df_raw : list A) : nat := length (df_train df_raw).
Definition testSize {A} (df_raw : list A) : nat := length (df_test df_raw).

(** ** [/forecast]: today's hourly profile
<<
    recent_96 = df_test.tail(96).copy()
    recent_96["hour_slot"] = recent_96["hour"]
    hourly = (recent_96.groupby("hour_slot")
              .agg(actual=("Power Consumption (kW)", "mean"),
                   predicted=("predicted_kw", "mean"))
              .reindex(range(24)))
    for h in range(24):
        row = hourly.loc[h] if h in hourly.index else None
        forecast24h.append({
            "hour": h, "label": f"{h:02d}:00",
            "actual":    safe_float(row["actual"])    if row is not None else None,
            "predicted": safe_float(row["predicted"]) if row is not None else None })
>> *)
Record TodayEntry : Type := {
  fe_hour : Z;
  fe_label : string;
  fe_actual : option pyfloat;
  fe_predicted : option pyfloat
}.

Definition recent_96 (df_test : list PredRow) : list PredRow :=
  Pandas.tail 96 df_test.

Definition hourly (df_test : list PredRow) : list (Z * (pyfloat * pyfloat)) :=
  Pandas.reindex (seqZ 0 24) (NaN, NaN)
    ((λ g, (Pandas.mean (actual_kw <$> g), Pandas.mean (predicted_kw <$> g)))
       <$> Pandas.groupby hour_of (recent_96 df_test)).

Definition today_entry (hourly : list (Z * (pyfloat * pyfloat))) (h : Z)
  : TodayEntry :=
  let row := Pandas.loc h hourly in
  {| fe_hour := h;
     fe_label := label h;
     fe_actual := match row with
                  | Some r => safe_float (PyFloat r.1)
                  | None => None
                  end;
     fe_predicted := match row with
                     | Some r => safe_float (PyFloat r.2)
                     | None => None
                     end |}.

Definition forecast24h (df_test : list PredRow) : list TodayEntry :=
  today_entry (hourly df_test) <$> seqZ 0 24.

(** ** [/forecast]: the 7-day forecast
<<
    for i in range(1, 8):
        day = datetime.now() + timedelta(days=i)
        dow  = day.weekday()
        is_weekend = dow >= 5
        label = ["Mon","Tue","Wed","Thu","Fri","Sat","Sun"][dow]
        day_rows = df_test[df_test["dayofweek"] == dow]
        if day_rows.empty:
            peak_pred = 0.0
            avg_pred  = 0.0
        else:
            peak_pred = float(day_rows["predicted_kw"].max())
            avg_pred  = float(day_rows["predicted_kw"].mean())
        weeklyForecast.append({
            "date": day.strftime("%Y-%m-%d"), "dayLabel": label,
            "peakPredicted": safe_float(peak_pred),
            "avgPredicted":  safe_float(avg_pred),
            "isWeekend": is_weekend })
>>
    [now_weekday] is [datetime.now().weekday()], between 0 and 6; the day
    [i] days later has weekday [(now_weekday + i) mod 7].  An entry keeps
    the number of days ahead in place of the rendered date. *)
Record WeekEntry : Type := {
  wf_days_ahead : Z;
  wf_dayLabel : string;
  wf_peakPredicted : option pyfloat;
  wf_avgPredicted : option pyfloat;
  wf_isWeekend : bool
}.

Definition day_names : list string :=
  ["Mon"; "Tue"; "Wed"; "Thu"; "Fri"; "Sat"; "Sun"]%string.

Definition weekday_after (now_weekday i : Z) : Z := (now_weekday + i) mod 7.

Definition day_rows (dow : Z) (df_test : list PredRow) : list PredRow :=
  List.filter (λ r, dayofweek (row r) =? dow) df_test.

Definition week_entry (now_weekday : Z) (df_test : list PredRow) (i : Z)
  : WeekEntry :=
  let dow := weekday_after now_weekday i in
  let rows := day_rows dow df_test in
  let peak_pred := match rows with
                   | [] => of_Z 0
                   | _ => Pandas.max (predicted_kw <$> rows)
                   end in
  let avg_pred := match rows with
                  | [] => of_Z 0
                  | _ => Pandas.mean (predicted_kw <$> rows)
                  end in
  {| wf_days_ahead := i;
     wf_dayLabel := default EmptyString (day_names !! Z.to_nat dow);
     wf_peakPredicted := safe_float (PyFloat peak_pred);
     wf_avgPredicted := safe_float (PyFloat avg_pred);
     wf_isWeekend := 5 <=? dow |}.

Definition weeklyForecast (now_weekday : Z) (df_test : list PredRow)
  : list WeekEntry :=
  week_entry now_weekday df_test <$> seqZ 1 7.

(** ** [/peak]: the overall statistics
<<
    pred_vals = df_work["predicted_kw"]
    stats = {"maxPredKW": safe_float(pred_vals.max()),
             "avgPredKW": safe_float(pred_vals.mean()),
             "minPredKW": safe_float(pred_vals.min()),
             "maxActKW":  safe_float(df_work["Power Consumption (kW)"].max()),
             "avgActKW":  safe_float(df_work["Power Consumption (kW)"].mean())}
>>
    [pred_vals.max()] and the like are NumPy scalars of the dtype of the
    prediction column: [pred_is_float] tells whether that is float64 (it is
    float32 for the predictions of an [XGBRegressor]). *)
Record Stats : Type := {
  maxPredKW : option pyfloat;
  avgPredKW : option pyfloat;
  minPredKW : option pyfloat;
  maxActKW : option pyfloat;
  avgActKW : option pyfloat
}.

Definition stats (pred_is_float : bool) (df_work : list PredRow) : Stats :=
  let pred_vals := predicted_kw <$> df_work in
  let act_vals := actual_kw <$> df_work in
  {| maxPredKW := safe_float (PyNum pred_is_float (Pandas.max pred_vals));
     avgPredKW := safe_float (PyNum pred_is_float (Pandas.mean pred_vals));
     minPredKW := safe_float (PyNum pred_is_float (Pandas.min pred_vals));
     maxActKW := safe_float (PyFloat (Pandas.max act_vals));
     avgActKW := safe_float (PyFloat (Pandas.mean act_vals)) |}.

(** ** [/peak]: the daily peak table
<<
    df_work["date"] = df_work["Timestamp"].dt.date
    daily = (df_work.groupby("date")
             .agg(peakKW=    ("Power Consumption (kW)", "max"),
                  peakPredKW=("predicted_kw", "max"),
                  avgKW=     ("Power Consumption (kW)", "mean"),
                  avgPredKW= ("predicted_kw", "mean"))
             .reset_index().sort_values("date"))
    daily_30 = daily.tail(30)
    daily_peak_list = [{"date": str(row["date"]),
                        "peakKW": safe_float(row["peakKW"]), ...}
                       for _, row in daily_30.iterrows()]
>>
    A date is the triple (year, month, day), ordered as dates are; an
    entry keeps the date itself in place of its text.  With the [date]
    column the rows that [iterrows()] yields are of dtype object, and
    their numeric cells Python floats. *)
Definition date_of (r : PredRow) : Z * Z * Z :=
  let ts := Timestamp (reading (row r)) in (dt_year ts, dt_month ts, dt_day ts).

Definition date_leb (a b : Z * Z * Z) : bool :=
  let '(y1, m1, d1) := a in
  let '(y2, m2, d2) := b in
  (y1 <? y2) || ((y1 =? y2) && ((m1 <? m2) || ((m1 =? m2) && (d1 <=? d2)))).

Record DailyEntry : Type := {
  dp_date : Z * Z * Z;
  dp_peakKW : option pyfloat;
  dp_peakPredKW : option pyfloat;
  dp_avgKW : option pyfloat;
  dp_avgPredKW : option pyfloat
}.

Definition daily (df_work : list PredRow) : list (Z * Z * Z * list PredRow) :=
  Pandas.groupby_sorted date_leb date_of df_work.

Definition daily_30 (df_work : list PredRow) : list (Z * Z * Z * list PredRow) :=
  Pandas.tail 30 (daily df_work).

Definition daily_entry (dg : Z * Z * Z * list PredRow) : DailyEntry :=
  {| dp_date := dg.1;
     dp_peakKW := safe_float (PyFloat (Pandas.max (actual_kw <$> dg.2)));
     dp_peakPredKW := safe_float (PyFloat (Pandas.max (predicted_kw <$> dg.2)));
     dp_avgKW := safe_float (PyFloat (Pandas.mean (actual_kw <$> dg.2)));
     dp_avgPredKW := safe_float (PyFloat (Pandas.mean (predicted_kw <$> dg.2))) |}.

Definition daily_peak_list (df_work : list PredRow) : list DailyEntry :=
  daily_entry <$> daily_30 df_work.

(** ** The two responses
<<
    return jsonify({
        "forecast24h":      forecast24h,
        "forecastTomorrow": forecastTomorrow,
        "modelStats": {
            "mae":       round(MAE_VAL, 4),
            "rmse":      round(RMSE_VAL, 4),
            "r2":        round(R2_VAL, 4),
            "trainSize": len(df_train),
            "testSize":  len(df_test),
            "algorithm": "Gradient Boosted Regression (XGBoost)",
            "features":  len(FEATURES),
            "nEstimators":    300,
            "learningRate":   0.05,
        },
        "featureImportance": feat_imp,
        "weeklyForecast":    weeklyForecast,
    })
>>
    [feature_importances] is [model.feature_importances_]. *)
Record ModelStats : Type := {
  ms_mae : pyfloat;
  ms_rmse : pyfloat;
  ms_r2 : pyfloat;
  ms_trainSize : nat;
  ms_testSize : nat;
  ms_algorithm : string;
  ms_features : nat;
  ms_nEstimators : Z;
  ms_learningRate : pyfloat
}.

Definition modelStats (c : Cache) : ModelStats :=
  {| ms_mae := Py.round (cache_mae c) 4;
     ms_rmse := Py.round (cache_rmse c) 4;
     ms_r2 := modelStats_r2 (cache_r2 c);
     ms_trainSize := length (cache_train c);
     ms_testSize := length (cache_test c);
     ms_algorithm := "Gradient Boosted Regression (XGBoost)";
     ms_features := length FEATURES;
     ms_nEstimators := 300;
     ms_learningRate := Finite (5 # 100) |}.

Record ForecastResponse : Type := {
  fr_forecast24h : list TodayEntry;
  fr_forecastTomorrow : list TomorrowEntry;
  fr_modelStats : ModelStats;
  fr_featureImportance : list (string * Q);
  fr_weeklyForecast : list WeekEntry
}.

Definition forecast (c : Cache) (now_weekday : Z) (feature_importances : list Q)
  : ForecastResponse :=
  {| fr_forecast24h := forecast24h (cache_test c);
     fr_forecastTomorrow := forecastTomorrow now_weekday (cache_test c);
     fr_modelStats := modelStats c;
     fr_featureImportance := feat_imp feature_importances;
     fr_weeklyForecast := weeklyForecast now_weekday (cache_test c) |}.

(**
<<
    df_work = df_test.copy()
    ...
    return jsonify({"dailyPeak": daily_peak_list, "stats": stats,
                    "histogram": histogram, "top10": top10})
>> *)
Record PeakResponse : Type := {
  pr_dailyPeak : list DailyEntry;
  pr_stats : Stats;
  pr_histogram : list HistEntry;
  pr_top10 : list Top10Entry
}.

Definition peak (pred_is_float : bool) (c : Cache) : PeakResponse :=
  let df_work := cache_test c in
  {| pr_dailyPeak := daily_peak_list df_work;
     pr_stats := stats pred_is_float df_work;
     pr_histogram := histogram df_work;
     pr_top10 := top10 df_work |}.

End Serve.

(* ===================================================================== *)
(** * The specification's formulas, for comparison with the code *)
(* ===================================================================== *)

Module Spec.

(** [r2 = 1 − SS_res/SS_tot] as the specification writes it, evaluated
    with float division: over [SS_tot = 0] it is [-inf] when
    [SS_res > 0] and NaN when [SS_res = 0]. *)
Definition r2_formula (actual predicted : list pyfloat) : pyfloat :=
  match mapM finite_value actual, mapM finite_value predicted with
  | Some a, Some p =>
      fsub (of_Z 1)
           (fdiv (Finite (Sklearn.SS_res a p)) (Finite (Sklearn.SS_tot a)))
  | _, _ => NaN
  end.

(** A raw reading without missing values: none of its cells is NaN. *)
Definition reading_present (r : Reading) : bool :=
  forallb (λ c, negb (isnan c)) (raw_cells r).

(** The power reading is a finite number of magnitude at most [1e150].
    The sums and the sums of squares that pandas accumulates over a
    rolling window then stay inside the range of binary64. *)
Definition power_in_range (r : Reading) : bool :=
  match Power_Consumption_kW r with
  | Finite q => Qle_bool (Qabs q) (inject_Z (10 ^ 150))
  | _ => false
  end.

(** [floor(len × 0.8)] *)
Definition cut (len : nat) : Z :=
  Qfloor (inject_Z (Z.of_nat len) * (8 # 10)).

(** Bucket [i] of the histogram, [i = 0 .. 6], between [bins[i]] and
    [bins[i+1]]: once as the half-open interval closed on the left that the
    specification names, once closed on the right. *)
Definition bin (i : nat) : pyfloat := default NaN (Serve.bins !! i).

Definition bucket_closed_open (i : nat) (x : pyfloat) : bool :=
  fle (bin i) x && flt x (bin (S i)).

Definition bucket_open_closed (i : nat) (x : pyfloat) : bool :=
  flt (bin i) x && fle x (bin (S i)).

(** How many rows of the table have their prediction in a given set. *)
Definition count_pred (P : pyfloat → bool) (table : list PredRow) : Z :=
  Z.of_nat (length (List.filter (λ r, P (predicted_kw r)) table)).

(** The order a stable sort by [le] produces from a list that was in the
    order [before]: ascending by [le], equal elements as they were. *)
Definition stable_order {A} (le : A → A → bool) (before : A → A → Prop)
    (x y : A) : Prop :=
  le x y = true ∧ (le y x = true → before x y).

(** Row [a] stands before row [b] in the table. *)
Definition position_before {A} (a b : nat * A) : Prop := (a.1 < b.1)%nat.

(** Row [a] ranks before row [b] (each with its position in the table):
    its prediction is larger, or the predictions are equal and it comes
    first in the table. *)
Definition ranks_before (a b : nat * PredRow) : Prop :=
  flt (predicted_kw b.2) (predicted_kw a.2) = true ∨
  (feqb (predicted_kw a.2) (predicted_kw b.2) = true ∧ (a.1 < b.1)%nat).


(** [x] is not above [y]. *)
Definition ascending (x y : pyfloat) : Prop := fle x y = true.

(** [m] is a median of the values [l]: at least half of them are not
    above [m], and at least half of them are not below [m]. *)
Definition is_median (m : pyfloat) (l : list pyfloat) : Prop :=
  (length l ≤ 2 * length (List.filter (λ x, fle x m) l))%nat ∧
  (length l ≤ 2 * length (List.filter (λ x, fle m x) l))%nat.

(** The rows the next-day profile is computed from: those of tomorrow's
    weekday, or the whole table when there is none. *)
Definition is_tomorrow (now_weekday : Z) (r : PredRow) : bool :=
  dayofweek (row r) =? (now_weekday + 1) mod 7.

Definition selected (now_weekday : Z) (table : list PredRow) : list PredRow :=
  if existsb (is_tomorrow now_weekday) table
  then List.filter (is_tomorrow now_weekday) table
  else table.

(** The predictions of the selected rows at hour [h]. *)
Definition values_at (now_weekday : Z) (table : list PredRow) (h : Z)
  : list pyfloat :=
  predicted_kw <$> List.filter (λ r, hour (row r) =? h) (selected now_weekday table).

(** Feature [a] is listed before feature [b] in [FEATURES]. *)
Definition listed_before (a b : string * Q) : Prop :=
  ∃ i j : nat, (i < j)%nat ∧
    Serve.FEATURES !! i = Some a.1 ∧ Serve.FEATURES !! j = Some b.1.

(** Entry [a] of the importance list may stand before entry [b]: its
    importance is not smaller, and with equal importances it is listed
    first in [FEATURES]. *)
Definition importance_order (a b : string * Q) : Prop :=
  (b.2 <= a.2)%Q ∧ ((a.2 == b.2)%Q → listed_before a b).

(** The rows of hour [h] among the last 96 rows of the table. *)
Definition recent_at (table : list PredRow) (h : Z) : list PredRow :=
  List.filter (λ r, hour (row r) =? h) (drop (length table - 96) table).

(** The rows of the table that fall on weekday [dow]. *)
Definition rows_on (table : list PredRow) (dow : Z) : list PredRow :=
  List.filter (λ r, dayofweek (row r) =? dow) table.

(** Date [a] is earlier than date [b]. *)
Definition date_before (a b : Z * Z * Z) : Prop :=
  Serve.date_leb a b = true ∧ a ≠ b.

(** The dates of the table, each once, in ascending order. *)
Definition sorted_dates (table : list PredRow) : list (Z * Z * Z) :=
  Pandas.stable_sort Serve.date_leb (remove_dups (Serve.date_of <$> table)).

(** The rows of the table on date [d]. *)
Definition rows_of_date (table : list PredRow) (d : Z * Z * Z) : list PredRow :=
  List.filter (λ r, bool_decide (Serve.date_of r = d)) table.

(** How many rows of the table [pd.cut] labels with [l]. *)
Definition label_count (l : string) (table : list PredRow) : nat :=
  length (List.filter
            (λ r, bool_decide (Pandas.cut Serve.bins Serve.labels (predicted_kw r)
                               = Some l)) table).

(** The sum of the counts of a histogram. *)
Definition total (h : list Serve.HistEntry) : Z :=
  foldr (λ e s, Serve.count e + s) 0 h.

(** The float-valued fields of the two responses, each a number or null
    ([None]); the other numbers of a response are integers.  The feature
    importances are listed apart. *)
Definition today_floats (e : Serve.TodayEntry) : list (option pyfloat) :=
  [Serve.fe_actual e; Serve.fe_predicted e].

Definition week_floats (e : Serve.WeekEntry) : list (option pyfloat) :=
  [Serve.wf_peakPredicted e; Serve.wf_avgPredicted e].

Definition model_stats_floats (m : Serve.ModelStats) : list (option pyfloat) :=
  [Some (Serve.ms_mae m); Some (Serve.ms_rmse m); Some (Serve.ms_r2 m);
   Some (Serve.ms_learningRate m)].

Definition forecast_floats (r : Serve.ForecastResponse) : list (option pyfloat) :=
  (Serve.fr_forecast24h r ≫= today_floats) ++
  (Serve.te_predicted <$> Serve.fr_forecastTomorrow r) ++
  model_stats_floats (Serve.fr_modelStats r) ++
  (Serve.fr_weeklyForecast r ≫= week_floats).

Definition importances (r : Serve.ForecastResponse) : list Q :=
  snd <$> Serve.fr_featureImportance r.

Definition daily_floats (e : Serve.DailyEntry) : list (option pyfloat) :=
  [Serve.dp_peakKW e; Serve.dp_peakPredKW e; Serve.dp_avgKW e; Serve.dp_avgPredKW e].

Definition stats_floats (s : Serve.Stats) : list (option pyfloat) :=
  [Serve.maxPredKW s; Serve.avgPredKW s; Serve.minPredKW s;
   Serve.maxActKW s; Serve.avgActKW s].

Definition top10_floats (e : Serve.Top10Entry) : list (option pyfloat) :=
  [Serve.actualKW e; Serve.predictedKW e; Serve.voltage e; Serve.current e;
   Serve.powerFactor e].

Definition peak_floats (r : Serve.PeakResponse) : list (option pyfloat) :=
  (Serve.pr_dailyPeak r ≫= daily_floats) ++
  stats_floats (Serve.pr_stats r) ++
  (Serve.pr_top10 r ≫= top10_floats).

(** A finite number with at most 4 decimals: a multiple of 0.0001. *)
Definition four_decimals (q : Q) : Prop := ∃ n : Z, (q == n # 10000)%Q.

(** A value of a response that is null, an infinity, or a finite number
    with at most 4 decimals. *)
Definition null_infinite_or_rounded (v : option pyfloat) : Prop :=
  match v with
  | None => True
  | Some (Finite q) => four_decimals q
  | Some NaN => False
  | Some _ => True
  end.

End Spec.

(* ===================================================================== *)
(** * Sample data *)
(* ===================================================================== *)

Module Example.

(** Square root to eight decimals. *)
Definition sqrt8 (q : Q) : Q :=
  Z.sqrt (Qnum q * 10 ^ 16 / Z.pos (Qden q)) # 10 ^ 8.

(** Reading number [i] of a series that starts on a Monday at 00:00,
    one reading every 15 minutes, with power [p] kW. *)
Definition reading_at (i : nat) (p : Q) : Reading :=
  let m := 15 * Z.of_nat i in
  {| Timestamp := {| dt_year := 2024; dt_month := 1;
                     dt_day := 1 + m / 1440;
                     dt_hour := (m / 60) mod 24;
                     dt_minute := m mod 60;
                     dt_dayofweek := (m / 1440) mod 7 |};
     Voltage_V := of_Z 230;
     Current_A := of_Z 5;
     Reactive_Power_kVAR := Finite (1 # 2);
     Power_Factor := Finite (9 # 10);
     Power_Consumption_kW := Finite p;
     other_columns := [of_Z 50; of_Z 21] |}.

(** Twenty readings with power 1.0, 2.0, ..., 20.0 kW. *)
Definition csv20 : list Reading :=
  imap (λ i p, reading_at i (inject_Z p)) (seqZ 1 20).

Definition frame20 : list Row := feature_engineering sqrt8 csv20.

(** Reading [r] with the power [p]. *)
Definition with_power (p : pyfloat) (r : Reading) : Reading :=
  {| Timestamp := Timestamp r;
     Voltage_V := Voltage_V r;
     Current_A := Current_A r;
     Reactive_Power_kVAR := Reactive_Power_kVAR r;
     Power_Factor := Power_Factor r;
     Power_Consumption_kW := p;
     other_columns := other_columns r |}.

(** The first twelve readings, the power of reading 5 infinite: every
    cell holds a value. *)
Definition csv_inf : list Reading :=
  imap (λ i r, if (i =? 5)%nat then with_power PosInf r else r) (take 12 csv20).

(** The first seven readings: three rows are left after the warm-up. *)
Definition csv7 : list Reading := take 7 csv20.

Definition frame7 : list Row := feature_engineering sqrt8 csv7.

(** Importances of the fourteen features; they add up to 1. *)
Definition importances : list Q :=
  [123456 # 1000000; 3 # 10; 0; 1 # 10; 0; 0; 0; 0;
   2 # 10; 1 # 10; 1 # 10; 0; 0; 76544 # 1000000]%Q.

(** A stand-in model: the lag-1 power plus 0.25 kW. *)
Definition lag_model (r : Row) : pyfloat :=
  fadd (power_lag_1 r) (Finite (1 # 4)).

(** A cached row with weekday [d], hour [h], actual [a], predicted [p]. *)
Definition cached (i : nat) (d h : Z) (a p : Q) : PredRow :=
  let r := reading_at i a in
  {| row := {| reading := r; hour := h; dayofweek := d; month := 1;
               is_weekend := isin_5_6 d;
               power_lag_1 := Finite a; power_lag_2 := Finite a;
               power_lag_4 := Finite a; power_roll_mean_1h := Finite a;
               power_roll_std_1h := Finite 0;
               power_roll_max_1h := Finite a |};
     predicted_kw := Finite p |}.

(** actual = [1,1,1,1], predicted = [5,5,5,5] *)
Definition flat_table : list PredRow :=
  [cached 0 0 0 1 5; cached 1 0 0 1 5; cached 2 0 0 1 5; cached 3 0 0 1 5].

(** A table with ties, two weekdays and a gap at most hours. *)
Definition small_table : list PredRow :=
  [cached 0 1 0 3 2; cached 1 1 0 4 5; cached 2 1 1 6 7; cached 3 2 0 5 5;
   cached 4 1 0 1 (1 # 3); cached 5 2 4 2 3; cached 6 1 0 2 3;
   cached 7 1 1 8 7; cached 8 2 4 9 13; cached 9 1 0 3 0;
   cached 10 2 7 2 5; cached 11 1 1 7 (21 # 10)].

End Example.

(* ===================================================================== *)
(** * The split index in binary64 arithmetic *)
(* ===================================================================== *)

Module Binary64.

(** [float(n)] for a length [n] *)
Definition float_of_len (n : Z) : float := PrimFloat.of_uint63 (Uint63.of_Z n).

(** The integer part of a finite float, as [int(x)] truncates it. *)
Definition int_of_float (x : float) : Z :=
  match Prim2SF x with
  | S754_finite s m e =>
      let v := if 0 <=? e then Z.pos m * 2 ^ e else Z.pos m / 2 ^ (- e) in
      if s then - v else v
  | _ => 0
  end.

(** [math.ceil(x)] of a finite float *)
Definition ceil_of_float (x : float) : Z :=
  match Prim2SF x with
  | S754_finite s m e =>
      if 0 <=? e then (if s then - (Z.pos m * 2 ^ e) else Z.pos m * 2 ^ e)
      else if s then - (Z.pos m / 2 ^ (- e))
      else - ((- Z.pos m) / 2 ^ (- e))
  | _ => 0
  end.

(** [int(len(df_raw) * 0.8)] with the product rounded as binary64 rounds
    it; [0x1.999999999999ap-1] is the binary64 value of the literal [0.8]. *)
Definition split_idx (n : Z) : Z :=
  int_of_float (PrimFloat.mul (float_of_len n) 0x1.999999999999ap-1%float).

(** [ceil(test_size * n_samples)] of [train_test_split] at [test_size=0.2];
    [0x1.999999999999ap-3] is the binary64 value of the literal [0.2]. *)
Definition n_test (n : Z) : Z :=
  ceil_of_float (PrimFloat.mul 0x1.999999999999ap-3%float (float_of_len n)).

(** Both agree with exact arithmetic on the [k] lengths from [n] on. *)
Fixpoint agree_from (k : nat) (n : Z) : bool :=
  match k with
  | O => true
  | S k' => (split_idx n =? 4 * n / 5) && (n_test n =? n - 4 * n / 5)
            && agree_from k' (n + 1)
  end.

End Binary64.

(* ===================================================================== *)
(** * Properties *)
(* ===================================================================== *)

Import Serve.

(** ** Comparison of floats *)

Lemma Qlt_bool_iff (a b : Q) : Qlt_bool a b = true ↔ (a < b)%Q.
Proof.
  unfold Qlt_bool. rewrite negb_true_iff.
  split; intros H.
  - apply Qnot_le_lt. intros Hle. apply Qle_bool_iff in Hle. congruence.
  - destruct (Qle_bool b a) eqn:E; [|done].
    apply Qle_bool_iff in E. exfalso. by apply (Qlt_not_le a b).
Qed.

Lemma Qlt_bool_false_iff (a b : Q) : Qlt_bool a b = false ↔ (b <= a)%Q.
Proof.
  unfold Qlt_bool. rewrite negb_false_iff. apply Qle_bool_iff.
Qed.

Lemma Qle_bool_false_iff (a b : Q) : Qle_bool a b = false ↔ (b < a)%Q.
Proof.
  rewrite <- Qlt_bool_iff. unfold Qlt_bool.
  destruct (Qle_bool a b); simpl; intuition congruence.
Qed.

(** ** Rounding *)

Lemma round_half_even_floor (q : Q) :
  Py.round_half_even q = Qfloor q ∨ Py.round_half_even q = Qfloor q + 1.
Proof.
  unfold Py.round_half_even.
  destruct (_ ?= _)%Q; [destruct (Z.even _)|..]; auto.
Qed.

Lemma round_half_even_near (q : Q) :
  (Qabs (q - inject_Z (Py.round_half_even q)) <= 1 # 2)%Q.
Proof.
  pose proof (Qfloor_le q) as Hlo. pose proof (Qlt_floor q) as Hhi.
  rewrite inject_Z_plus in Hhi. change (inject_Z 1) with 1%Q in Hhi.
  unfold Py.round_half_even.
  destruct (_ ?= _)%Q eqn:E.
  - apply Qeq_alt in E.
    destruct (Z.even _);
      [|rewrite inject_Z_plus; change (inject_Z 1) with 1%Q];
      apply Qabs_Qle_condition; split; lra.
  - apply Qlt_alt in E. apply Qabs_Qle_condition; split; lra.
  - apply Qgt_alt in E. rewrite inject_Z_plus. change (inject_Z 1) with 1%Q.
    apply Qabs_Qle_condition; split; lra.
Qed.

Lemma Qfloor_lt_cases (a b : Q) :
  (a <= b)%Q → Qfloor a < Qfloor b ∨ Qfloor a = Qfloor b.
Proof.
  intros H. pose proof (Qfloor_resp_le _ _ H). lia.
Qed.

Lemma round_half_even_mono (a b : Q) :
  (a <= b)%Q → Py.round_half_even a <= Py.round_half_even b.
Proof.
  intros Hab.
  destruct (Qfloor_lt_cases a b Hab) as [Hlt | Heq].
  - destruct (round_half_even_floor a) as [-> | ->];
    destruct (round_half_even_floor b) as [-> | ->]; lia.
  - unfold Py.round_half_even. rewrite Heq.
    destruct (a - _ ?= _)%Q eqn:Ea; destruct (b - _ ?= _)%Q eqn:Eb;
      try destruct (Z.even _); try lia;
      repeat match goal with
             | H : (_ ?= _)%Q = Eq |- _ => apply Qeq_alt in H
             | H : (_ ?= _)%Q = Lt |- _ => apply Qlt_alt in H
             | H : (_ ?= _)%Q = Gt |- _ => apply Qgt_alt in H
             end; exfalso; lra.
Qed.

Lemma round4_near (q : Q) :
  ∃ n : Z, Py.round (Finite q) 4 = Finite (Qred (n # 10000)) ∧
           (Qabs (q - (n # 10000)) <= 1 # 20000)%Q.
Proof.
  exists (Py.round_half_even (q * inject_Z 10000)). split; [done|].
  pose proof (round_half_even_near (q * inject_Z 10000)) as H.
  set (n := Py.round_half_even _) in *.
  apply Qabs_Qle_condition in H as [H1 H2].
  assert (Hn : (n # 10000 == inject_Z n / inject_Z 10000)%Q).
  { rewrite Qmake_Qdiv. reflexivity. }
  assert (Hq : (q == q * inject_Z 10000 / inject_Z 10000)%Q) by (field; done).
  apply Qabs_Qle_condition. rewrite Hn.
  assert (Hd : (inject_Z n / inject_Z 10000 == inject_Z n * (1 # 10000))%Q)
    by (field; done).
  rewrite Hd.
  change (inject_Z 10000) with (10000 # 1)%Q in *.
  split; lra.
Qed.

(** ** The next-day profile: confidence *)

Lemma forecastTomorrow_lookup (now_weekday : Z) (t : list PredRow) (h : Z) :
  0 <= h < 24 →
  forecastTomorrow now_weekday t !! Z.to_nat h
  = Some (tomorrow_entry (dow_hourly now_weekday t) h).
Proof.
  intros Hh. unfold forecastTomorrow.
  rewrite list_lookup_fmap.
  rewrite (lookup_seqZ_lt 0 24 (Z.to_nat h)) by lia.
  simpl. f_equal. f_equal. lia.
Qed.

(** C10.  Whatever the cached table and the current weekday, entry [h] of
    the next-day profile ([0 <= h < 24]) has confidence [88 + (h mod 4)],
    which lies in [88, 91]: the value depends on [h] alone. *)
Theorem forecastTomorrow_confidence (now_weekday : Z) (t : list PredRow) (h : Z) :
  0 <= h < 24 →
  ∃ e : TomorrowEntry,
    forecastTomorrow now_weekday t !! Z.to_nat h = Some e ∧
    te_hour e = h ∧
    te_confidence e = 88 + h mod 4 ∧
    88 <= te_confidence e <= 91.
Proof.
  intros Hh. eexists. split; [by apply forecastTomorrow_lookup|].
  simpl. unfold CONFIDENCE_BASE.
  pose proof (Z.mod_pos_bound h 4). lia.
Qed.

Lemma forecastTomorrow_confidence_witness :
  ∃ e : TomorrowEntry,
    forecastTomorrow 3 Example.small_table !! Z.to_nat 14 = Some e ∧
    te_hour e = 14 ∧
    te_confidence e = 88 + 14 mod 4 ∧
    88 <= te_confidence e <= 91.
Proof. apply (forecastTomorrow_confidence 3 Example.small_table 14). lia. Defined.

(** ** The temporal split *)

Lemma split_idx_div {A} (df : list A) :
  split_idx df = 4 * Z.of_nat (length df) / 5.
Proof.
  unfold split_idx, Py.int_of_product. simpl.
  rewrite Z.quot_div_nonneg by lia.
  change (Z.pos (1 * 10)%positive) with (2 * 5).
  replace (Z.of_nat (length df) * 8) with (2 * (4 * Z.of_nat (length df))) by lia.
  by rewrite Z.div_mul_cancel_l.
Qed.

Lemma spec_cut_div (len : nat) : Spec.cut len = 4 * Z.of_nat len / 5.
Proof.
  unfold Spec.cut, Qfloor. simpl.
  change (Z.pos (1 * 10)%positive) with (2 * 5).
  replace (Z.of_nat len * 8) with (2 * (4 * Z.of_nat len)) by lia.
  by rewrite Z.div_mul_cancel_l.
Qed.

Lemma split_idx_bounds {A} (df : list A) :
  0 <= split_idx df <= Z.of_nat (length df).
Proof. rewrite split_idx_div. Z.div_mod_to_equations. lia. Qed.

(** C6.  For a feature sequence of at least 10 rows the cut index is
    [floor(len × 0.8)], [df_train] is the prefix up to the cut, [df_test]
    the suffix from the cut, the two lengths add up to [len] and the train
    length is [floor(0.8 × len)]. *)
Theorem split_prefix_suffix {A} (features : list A) :
  (10 ≤ length features)%nat →
  split_idx features = Spec.cut (length features) ∧
  df_train features = take (Z.to_nat (Spec.cut (length features))) features ∧
  df_test features = drop (Z.to_nat (Spec.cut (length features))) features ∧
  df_train features ++ df_test features = features ∧
  (length (df_train features) + length (df_test features))%nat = length features ∧
  Z.of_nat (length (df_train features)) = Spec.cut (length features).
Proof.
  intros _.
  assert (Hc : split_idx features = Spec.cut (length features))
    by (by rewrite split_idx_div, spec_cut_div).
  pose proof (split_idx_bounds features) as Hb.
  unfold df_train, df_test, Pandas.iloc_to, Pandas.iloc_from.
  rewrite Hc in *.
  repeat split.
  - apply take_drop.
  - rewrite length_take, length_drop. lia.
  - rewrite length_take. lia.
Qed.

Lemma split_prefix_suffix_witness :
  split_idx Example.frame20 = Spec.cut (length Example.frame20) ∧
  df_train Example.frame20
  = take (Z.to_nat (Spec.cut (length Example.frame20))) Example.frame20 ∧
  df_test Example.frame20
  = drop (Z.to_nat (Spec.cut (length Example.frame20))) Example.frame20 ∧
  df_train Example.frame20 ++ df_test Example.frame20 = Example.frame20 ∧
  (length (df_train Example.frame20) + length (df_test Example.frame20))%nat
  = length Example.frame20 ∧
  Z.of_nat (length (df_train Example.frame20))
  = Spec.cut (length Example.frame20).
Proof.
  apply (split_prefix_suffix Example.frame20). vm_compute. lia.
Defined.

Lemma train_n_test (n : Z) :
  0 <= n → Qceiling ((2 # 10) * inject_Z n) = n - 4 * n / 5.
Proof.
  intros Hn. unfold Qceiling, Qfloor. simpl.
  rewrite Pos.mul_1_r.
  Z.div_mod_to_equations. lia.
Qed.

Lemma train_split_cases (df : list Row) :
  Train.split df =
  if 4 * Z.of_nat (length df) / 5 =? 0 then ValueError
  else Ok (df_train df, df_test df).
Proof.
  unfold Train.split, Sklearn.train_test_split.
  change (Qle_bool (2 # 10) 0 || Qle_bool 1 (2 # 10)) with false.
  cbv iota. cbv zeta.
  rewrite train_n_test by lia.
  replace (Z.of_nat (length df) - (Z.of_nat (length df) - 4 * Z.of_nat (length df) / 5))
    with (4 * Z.of_nat (length df) / 5) by lia.
  destruct (_ =? 0); [done|].
  unfold df_train, df_test, Pandas.iloc_to, Pandas.iloc_from.
  rewrite split_idx_div.
  f_equal. f_equal.
  apply take_ge. rewrite length_drop.
  Z.div_mod_to_equations. lia.
Qed.

Lemma train_split_short (df : list Row) :
  Train.split df = ValueError ↔ (length df ≤ 1)%nat.
Proof.
  rewrite train_split_cases.
  destruct (_ =? 0) eqn:E.
  - apply Z.eqb_eq in E. split; [intros _|done].
    revert E. Z.div_mod_to_equations. lia.
  - apply Z.eqb_neq in E. split; [done|]. intros H. exfalso. apply E.
    Z.div_mod_to_equations. lia.
Qed.

(** C2.  Whenever the training script's [train_test_split(test_size=0.2,
    shuffle=False)] produces a split of a frame, that split is the serving
    script's: the same train rows in the same order, the same test rows in
    the same order, hence the same cut index and the same two lengths.  It
    produces one for every frame of two rows or more (on a shorter frame it
    raises, and there is nothing to compare). *)
Theorem train_serve_same_partition (df : list Row) :
  ((2 ≤ length df)%nat → Train.split df = Ok (df_train df, df_test df)) ∧
  (∀ X_train X_test : list Row,
      Train.split df = Ok (X_train, X_test) →
      X_train = df_train df ∧
      X_test = df_test df ∧
      Z.of_nat (length X_train) = split_idx df ∧
      length X_test = length (df_test df) ∧
      X_train ++ X_test = df).
Proof.
  assert (Hok : (2 ≤ length df)%nat → Train.split df = Ok (df_train df, df_test df)).
  { intros Hlen. rewrite train_split_cases.
    destruct (_ =? 0) eqn:E; [|done].
    apply Z.eqb_eq in E. exfalso. revert E. Z.div_mod_to_equations. lia. }
  split; [done|].
  intros X_train X_test H.
  rewrite train_split_cases in H.
  destruct (_ =? 0); [discriminate|].
  injection H as <- <-.
  pose proof (split_idx_bounds df).
  unfold df_train, df_test, Pandas.iloc_to, Pandas.iloc_from.
  repeat split.
  - rewrite length_take. lia.
  - apply take_drop.
Qed.

Lemma train_serve_same_partition_witness :
  Train.split Example.frame20
  = Ok (df_train Example.frame20, df_test Example.frame20).
Proof.
  apply (proj1 (train_serve_same_partition Example.frame20)).
  vm_compute. lia.
Defined.

(** C4 (as amended).  The serving split validates nothing: its fraction is
    the constant 0.8, and for a frame of any length, also below 10, it
    returns the prefix up to [floor(0.8 × len)] and the suffix from there
    without raising.  The training split raises only when its train part
    would be empty, that is on a frame of one row or none. *)
Theorem split_accepts_every_length (df : list Row) :
  Serve.split df
  = Ok (take (Z.to_nat (Spec.cut (length df))) df,
        drop (Z.to_nat (Spec.cut (length df))) df) ∧
  (Train.split df = ValueError ↔ (length df ≤ 1)%nat).
Proof.
  split; [|apply train_split_short].
  unfold Serve.split, df_train, df_test, Pandas.iloc_to, Pandas.iloc_from.
  by rewrite split_idx_div, spec_cut_div.
Qed.

(** C4, counterexample.  Seven readings leave a frame of three rows, which
    is below 10; the serving split accepts it, and so does the whole
    start-up: a cache is built from it. *)
Lemma short_frame_not_rejected :
  (length Example.frame7 < 10)%nat ∧
  Serve.split Example.frame7 ≠ ValueError ∧
  ∃ c : Cache,
    startup Example.sqrt8 Example.lag_model Example.csv7 = Ok c ∧
    length (cache_train c) = 2%nat ∧ length (cache_test c) = 1%nat.
Proof.
  split; [vm_compute; lia|]. split; [discriminate|].
  eexists. split; [vm_compute; reflexivity|]. split; reflexivity.
Qed.

(** ** The prediction cache and its metrics *)

Lemma finite_value_Some (x : pyfloat) (q : Q) :
  finite_value x = Some q ↔ x = Finite q.
Proof. destruct x; simpl; split; congruence. Qed.

Lemma mapM_finite_value_Some (l : list pyfloat) (qs : list Q) :
  mapM finite_value l = Some qs ↔ l = Finite <$> qs.
Proof.
  rewrite mapM_Some. split.
  - induction 1 as [|x q l qs Hx _ IH]; [done|].
    apply finite_value_Some in Hx. simpl. by rewrite Hx, IH.
  - intros ->. induction qs; constructor; done.
Qed.

Lemma mapM_finite_value_fmap (f : PredRow → pyfloat) (t : list PredRow) :
  forallb (λ r, isfinite (f r)) t = true →
  ∃ qs : list Q, mapM finite_value (f <$> t) = Some qs ∧ length qs = length t.
Proof.
  intros H.
  destruct (mapM_is_Some_2 finite_value (f <$> t)) as [qs Hqs].
  - apply Forall_fmap, Forall_forall. intros r Hr.
    rewrite forallb_forall in H. apply list_elem_of_In in Hr.
    specialize (H r Hr). simpl. destruct (f r); try discriminate. by eexists.
  - exists qs. split; [done|].
    apply length_mapM in Hqs. by rewrite length_fmap in Hqs.
Qed.

Lemma mapM_finite_value_forallb (f : PredRow → pyfloat) (t : list PredRow) (qs : list Q) :
  mapM finite_value (f <$> t) = Some qs →
  forallb (λ r, isfinite (f r)) t = true.
Proof.
  intros H. apply forallb_forall. intros r Hr.
  assert (His : is_Some (mapM finite_value (f <$> t))) by by eexists.
  apply mapM_is_Some_1 in His. rewrite Forall_fmap, Forall_forall in His.
  apply list_elem_of_In in Hr. destruct (His r Hr) as [q Hq]. simpl in Hq.
  by destruct (f r).
Qed.

Lemma forallb_and_split {A} (f g : A → bool) (l : list A) :
  forallb (λ x, f x && g x) l = forallb f l && forallb g l.
Proof.
  induction l as [|x l IH]; simpl; [done|]. rewrite IH.
  destruct (f x), (g x), (forallb f l), (forallb g l); reflexivity.
Qed.

Lemma check_reg_targets_ok (t : list PredRow) :
  t ≠ [] → table_finite t = true →
  ∃ a p : list Q,
    mapM finite_value (y_test t) = Some a ∧
    mapM finite_value (y_pred_all t) = Some p ∧
    Sklearn.check_reg_targets (y_test t) (y_pred_all t) = Ok (a, p).
Proof.
  intros Hne Hfin. unfold table_finite in Hfin.
  rewrite forallb_and_split in Hfin. apply andb_true_iff in Hfin as [Ha Hp].
  destruct (mapM_finite_value_fmap actual_kw t Ha) as (a & Ea & La).
  destruct (mapM_finite_value_fmap predicted_kw t Hp) as (p & Ep & Lp).
  exists a, p. unfold Sklearn.check_reg_targets, y_test, y_pred_all.
  rewrite Ea, Ep. repeat split.
  rewrite La, Lp, Nat.eqb_refl.
  destruct t; [done|]. reflexivity.
Qed.

Lemma check_reg_targets_inv (t : list PredRow) (a p : list Q) :
  Sklearn.check_reg_targets (y_test t) (y_pred_all t) = Ok (a, p) →
  mapM finite_value (y_test t) = Some a ∧
  mapM finite_value (y_pred_all t) = Some p ∧
  t ≠ [] ∧ table_finite t = true.
Proof.
  unfold Sklearn.check_reg_targets, y_test, y_pred_all.
  destruct (mapM finite_value (actual_kw <$> t)) as [a'|] eqn:Ea; [|discriminate].
  destruct (mapM finite_value (predicted_kw <$> t)) as [p'|] eqn:Ep; [|discriminate].
  destruct (_ && _) eqn:E; [|discriminate].
  intros [= <- <-]. repeat split.
  - intros ->. simpl in Ea. injection Ea as <-.
    apply andb_true_iff in E as [_ E]. discriminate.
  - unfold table_finite. rewrite forallb_and_split.
    apply andb_true_iff. split; by eapply mapM_finite_value_forallb.
Qed.

Lemma round_half_even_0 : Py.round_half_even 0 = 0.
Proof. reflexivity. Qed.

Lemma round4_nonneg (q : Q) :
  (0 <= q)%Q →
  fle (of_Z 0) (Py.round (Finite q) 4) = true ∧
  flt (Py.round (Finite q) 4) (of_Z 0) = false.
Proof.
  intros Hq. simpl.
  assert (H0 : (0 <= q * inject_Z 10000)%Q).
  { change (inject_Z 10000) with (10000 # 1)%Q. lra. }
  pose proof (round_half_even_mono _ _ H0) as Hn.
  rewrite round_half_even_0 in Hn.
  set (n := Py.round_half_even _) in *.
  assert (Hr : (0 <= Qred (n # 10000))%Q).
  { rewrite Qred_correct. unfold Qle. simpl. lia. }
  split.
  - by apply Qle_bool_iff.
  - by apply Qlt_bool_false_iff.
Qed.

Lemma R2_VAL_inv (table : list PredRow) (r2 : pyfloat) :
  R2_VAL table = Ok r2 →
  r2 = of_Z 0 ∨
  (∃ q : Q, r2 = Finite q ∧ (0 < q)%Q ∧
            flt (Spec.r2_formula (y_test table) (y_pred_all table)) (of_Z 0) = false).
Proof.
  unfold R2_VAL, Sklearn.r2_score, Sklearn.bind.
  destruct (Sklearn.check_reg_targets _ _) as [[a p]|] eqn:Ec; [|discriminate].
  apply check_reg_targets_inv in Ec as (Ea & Ep & _ & _).
  unfold Spec.r2_formula. rewrite Ea, Ep.
  destruct (_ <? 2)%nat.
  { intros [= <-]. by left. }
  unfold fdiv.
  destruct (Qeq_bool (Sklearn.SS_tot a) 0) eqn:Ed; simpl.
  - destruct (Qeq_bool (Sklearn.SS_res a p) 0) eqn:En; simpl.
    + intros [= <-]. right. exists 1%Q. repeat split.
    + intros [= <-]. by left.
  - unfold Py.max. simpl.
    destruct (Qlt_bool (inject_Z 0) _) eqn:El; intros [= <-].
    + right. eexists. split; [reflexivity|].
      apply Qlt_bool_iff in El. split; [exact El|].
      apply Qlt_bool_false_iff.
      change (inject_Z 0) with 0%Q in *. unfold Qminus in El.
      change (inject_Z 1) with 1%Q. lra.
    + by left.
Qed.

(** C8.  The reported r2 is never negative, and it is 0.0 whenever
    [1 − SS_res/SS_tot] is negative, as for actual = [1,1,1,1] and
    predicted = [5,5,5,5] ([SS_tot = 0], [SS_res = 64]).  The metric is
    computed for every non-empty table of finite values. *)
Theorem r2_clamped_at_zero (table : list PredRow) :
  (table ≠ [] → table_finite table = true → ∃ r2 : pyfloat, R2_VAL table = Ok r2) ∧
  (∀ r2 : pyfloat,
      R2_VAL table = Ok r2 →
      fle (of_Z 0) r2 = true ∧
      fle (of_Z 0) (modelStats_r2 r2) = true ∧
      flt (modelStats_r2 r2) (of_Z 0) = false ∧
      (flt (Spec.r2_formula (y_test table) (y_pred_all table)) (of_Z 0) = true →
       r2 = of_Z 0 ∧ modelStats_r2 r2 = of_Z 0)).
Proof.
  split.
  - intros Hne Hfin.
    destruct (check_reg_targets_ok table Hne Hfin) as (a & p & _ & _ & Hc).
    unfold R2_VAL, Sklearn.r2_score, Sklearn.bind. rewrite Hc.
    destruct (_ <? 2)%nat; [by eexists|].
    destruct (negb _); [by eexists|].
    destruct (negb _); by eexists.
  - intros r2 H. apply R2_VAL_inv in H as [-> | (q & -> & Hq & Hf)].
    + repeat split.
    + unfold modelStats_r2.
      destruct (round4_nonneg q) as [H1 H2]; [lra|].
      repeat split; try done.
      * apply Qle_bool_iff. change (inject_Z 0) with 0%Q. lra.
      * rewrite Hf in *. discriminate.
      * rewrite Hf in *. discriminate.
Qed.

Lemma r2_clamped_at_zero_witness :
  flt (Spec.r2_formula (y_test Example.flat_table) (y_pred_all Example.flat_table))
      (of_Z 0) = true ∧
  R2_VAL Example.flat_table = Ok (of_Z 0) ∧
  modelStats_r2 (of_Z 0) = of_Z 0.
Proof.
  assert (Hneg : flt (Spec.r2_formula (y_test Example.flat_table)
                        (y_pred_all Example.flat_table)) (of_Z 0) = true)
    by (vm_compute; reflexivity).
  assert (Hr : R2_VAL Example.flat_table = Ok (of_Z 0))
    by (vm_compute; reflexivity).
  split; [exact Hneg|]. split; [exact Hr|].
  exact (proj2 (proj2 (proj2 (proj2 (proj2 (r2_clamped_at_zero Example.flat_table)
                                       (of_Z 0) Hr))) Hneg)).
Defined.

(** ** The histogram of [/peak] *)

Ltac split_Qbool :=
  repeat match goal with
  | |- context [Qlt_bool ?a ?b] =>
      let E := fresh "E" in
      destruct (Qlt_bool a b) eqn:E;
      [apply Qlt_bool_iff in E | apply Qlt_bool_false_iff in E];
      try (exfalso; lra)
  | |- context [Qle_bool ?a ?b] =>
      let E := fresh "E" in
      destruct (Qle_bool a b) eqn:E;
      [apply Qle_bool_iff in E | apply Qle_bool_false_iff in E];
      try (exfalso; lra)
  end.

Ltac decide_labels :=
  repeat match goal with
  | |- context [bool_decide (Some ?a = Some ?b)] =>
      first [ rewrite (bool_decide_eq_true_2 (Some a = Some b)) by reflexivity
            | rewrite (bool_decide_eq_false_2 (Some a = Some b)) by discriminate ]
  end.

Lemma value_counts_lookup (s : list (option string)) (l : string) :
  default 0%nat (Pandas.value_counts s !! l)
  = length (List.filter (λ c, bool_decide (c = Some l)) s).
Proof.
  induction s as [|c s IH]; [done|].
  simpl. destruct c as [l'|].
  - destruct (decide (l' = l)) as [->|Hne].
    + rewrite lookup_insert_eq. simpl. rewrite bool_decide_eq_true_2 by done.
      simpl. by rewrite IH.
    + rewrite lookup_insert_ne by done.
      rewrite bool_decide_eq_false_2 by congruence. done.
  - rewrite bool_decide_eq_false_2 by done. done.
Qed.

Lemma filter_fmap_length {A B} (f : A → B) (P : B → bool) (l : list A) :
  length (List.filter P (f <$> l)) = length (List.filter (λ x, P (f x)) l).
Proof.
  induction l as [|x l IH]; [done|]. rewrite fmap_cons. simpl.
  destruct (P (f x)); simpl; by rewrite IH.
Qed.

Lemma filter_ext_length {A} (P Q : A → bool) (l : list A) :
  (∀ x, P x = Q x) → length (List.filter P l) = length (List.filter Q l).
Proof.
  intros H. induction l as [|x l IH]; [done|]. simpl.
  rewrite H. destruct (Q x); simpl; by rewrite IH.
Qed.

(** The label [pd.cut] gives to a value is that of the interval, closed
    on the right, that holds it. *)
Lemma cut_open_closed (i : nat) (x : pyfloat) :
  (i < 7)%nat →
  bool_decide (Pandas.cut bins labels x = labels !! i)
  = Spec.bucket_open_closed i x.
Proof.
  intros Hi.
  assert (Hcases : (i = 0 ∨ i = 1 ∨ i = 2 ∨ i = 3 ∨ i = 4 ∨ i = 5 ∨ i = 6)%nat)
    by lia.
  destruct Hcases as [-> | [-> | [-> | [-> | [-> | [-> | ->]]]]]];
    (destruct x as [q| | |]; [|reflexivity..]);
    unfold Spec.bucket_open_closed, Spec.bin, Pandas.cut,
      Pandas.searchsorted_left, bins, of_Z, inject_Z;
    simpl; split_Qbool; reflexivity.
Qed.

Lemma cut_positive (x : pyfloat) :
  match Pandas.cut bins labels x with Some _ => true | None => false end
  = flt (of_Z 0) x.
Proof.
  destruct x as [q| | |]; [|reflexivity..].
  unfold Pandas.cut, Pandas.searchsorted_left, bins, of_Z, inject_Z.
  simpl. split_Qbool; reflexivity.
Qed.

Lemma cut_label (x : pyfloat) (l : string) :
  Pandas.cut bins labels x = Some l → l ∈ labels.
Proof.
  unfold Pandas.cut. destruct (_ || _); [discriminate|].
  apply list_elem_of_lookup_2.
Qed.

Lemma hist_counts_eq (t : list PredRow) :
  hist_counts t = (λ l, (l, Spec.label_count l t)) <$> labels.
Proof.
  unfold hist_counts, Pandas.reindex.
  apply list_fmap_ext. intros _ l _. f_equal.
  rewrite value_counts_lookup. unfold pred_series.
  by rewrite filter_fmap_length.
Qed.

Lemma histogram_eq (t : list PredRow) :
  histogram t
  = (λ l, {| range := l; count := Z.of_nat (Spec.label_count l t) |}) <$> labels.
Proof.
  unfold histogram. rewrite hist_counts_eq, <- list_fmap_compose. done.
Qed.

Lemma label_count_bucket (i : nat) (l : string) (t : list PredRow) :
  labels !! i = Some l →
  Z.of_nat (Spec.label_count l t) = Spec.count_pred (Spec.bucket_open_closed i) t.
Proof.
  intros Hl. unfold Spec.label_count, Spec.count_pred. f_equal.
  apply filter_ext_length. intros r.
  rewrite <- cut_open_closed, Hl; [done|].
  apply lookup_lt_Some in Hl. simpl in Hl. lia.
Qed.

Lemma total_histogram_cons (r : PredRow) (t : list PredRow) :
  Spec.total (histogram (r :: t))
  = (if flt (of_Z 0) (predicted_kw r) then 1 else 0) + Spec.total (histogram t).
Proof.
  rewrite !histogram_eq.
  pose proof (cut_positive (predicted_kw r)) as Hp.
  unfold Spec.total, labels, Spec.label_count.
  cbn [fmap list_fmap foldr count List.filter].
  rewrite <- Hp. clear Hp.
  destruct (Pandas.cut bins labels (predicted_kw r)) as [l|] eqn:E.
  - apply cut_label in E. unfold labels in E.
    repeat (apply elem_of_cons in E as [-> | E];
            [decide_labels; cbn [length]; lia|]).
    by apply elem_of_nil in E.
  - rewrite !bool_decide_eq_false_2 by done. lia.
Qed.

Lemma total_histogram (t : list PredRow) :
  Spec.total (histogram t) = Spec.count_pred (flt (of_Z 0)) t.
Proof.
  unfold Spec.count_pred.
  induction t as [|r t IH]; [done|].
  rewrite total_histogram_cons, IH. cbn [List.filter].
  destruct (flt (of_Z 0) (predicted_kw r)); cbn [length]; lia.
Qed.

(** C1 (as amended).  For every cached table the histogram reports the
    seven buckets in the fixed order of [labels], zero counts included;
    bucket [i] counts the predictions in the interval closed on the right,
    (0,2], (2,4], (4,6], (6,8], (8,10], (10,12], (12,inf] kW, so that a
    prediction of exactly 2.0 is counted in "0-2 kW"; and the counts add up
    to the number of rows whose prediction is greater than 0. *)
Theorem histogram_open_closed (table : list PredRow) :
  range <$> histogram table = labels ∧
  count <$> histogram table
  = (λ i, Spec.count_pred (Spec.bucket_open_closed i) table) <$> seq 0 7 ∧
  Spec.bucket_open_closed 0 (of_Z 2) = true ∧
  Spec.bucket_open_closed 1 (of_Z 2) = false ∧
  Spec.total (histogram table) = Spec.count_pred (flt (of_Z 0)) table.
Proof.
  split; [|split; [|split; [|split]]].
  - rewrite histogram_eq, <- list_fmap_compose. apply list_fmap_id.
  - rewrite histogram_eq. unfold labels.
    cbn [fmap list_fmap seq count].
    rewrite (label_count_bucket 0 _ table eq_refl),
      (label_count_bucket 1 _ table eq_refl),
      (label_count_bucket 2 _ table eq_refl),
      (label_count_bucket 3 _ table eq_refl),
      (label_count_bucket 4 _ table eq_refl),
      (label_count_bucket 5 _ table eq_refl),
      (label_count_bucket 6 _ table eq_refl).
    reflexivity.
  - reflexivity.
  - reflexivity.
  - apply total_histogram.
Qed.

(** C1, counterexample.  A table of one row predicted at exactly 2.0 kW:
    2.0 lies in [2,4), yet the row is counted in "0-2 kW" and "2-4 kW"
    stays at 0.  A table of one row predicted at 0.0 kW: 0.0 lies in
    [0,2), yet no bucket counts the row and the counts add up to 0. *)
Lemma histogram_not_closed_open :
  Spec.bucket_closed_open 1 (of_Z 2) = true ∧
  histogram [Example.cached 0 0 0 2 2]
  = [ {| range := "0-2 kW"; count := 1 |}; {| range := "2-4 kW"; count := 0 |};
      {| range := "4-6 kW"; count := 0 |}; {| range := "6-8 kW"; count := 0 |};
      {| range := "8-10 kW"; count := 0 |}; {| range := "10-12 kW"; count := 0 |};
      {| range := "12+ kW"; count := 0 |} ] ∧
  Spec.bucket_closed_open 0 (of_Z 0) = true ∧
  Spec.total (histogram [Example.cached 0 0 0 1 0]) = 0 ∧
  Spec.total (histogram [Example.cached 0 0 0 1 0])
  ≠ Z.of_nat (length [Example.cached 0 0 0 1 0]).
Proof. repeat split; try reflexivity. discriminate. Qed.

(** ** Feature engineering *)

Lemma shift_lookup_lt (k : nat) (s : list pyfloat) (i : nat) :
  (i < k)%nat → (i < length s)%nat → Pandas.shift k s !! i = Some NaN.
Proof.
  intros Hk Hs. unfold Pandas.shift.
  rewrite lookup_take_lt by done.
  rewrite lookup_app_l by (by rewrite length_replicate).
  by apply lookup_replicate_2.
Qed.

Lemma shift_lookup_ge (k : nat) (s : list pyfloat) (i : nat) :
  (k ≤ i)%nat → (i < length s)%nat → Pandas.shift k s !! i = s !! (i - k)%nat.
Proof.
  intros Hk Hs. unfold Pandas.shift.
  rewrite lookup_take_lt by done.
  rewrite lookup_app_r by (by rewrite length_replicate).
  by rewrite length_replicate.
Qed.

Lemma rolling_lookup (w : nat) (agg : list Q → pyfloat) (s : list pyfloat) (i : nat) :
  (i < length s)%nat →
  Pandas.rolling w agg s !! i
  = Some (match Pandas.window w s i with Some obs => agg obs | None => NaN end).
Proof.
  intros Hi. unfold Pandas.rolling. rewrite list_lookup_imap.
  destruct (lookup_lt_is_Some_2 s i Hi) as [x ->]. done.
Qed.

Lemma window_warm_up (w : nat) (s : list pyfloat) (i : nat) :
  (i + 1 < w)%nat → Pandas.window w s i = None.
Proof.
  intros H. unfold Pandas.window.
  by rewrite (proj2 (Nat.ltb_lt _ _) H).
Qed.

Lemma window_complete (w : nat) (s : list pyfloat) (i : nat) :
  Forall (λ x, isfinite x = true) s →
  (w ≤ i + 1)%nat → (i < length s)%nat →
  ∃ obs : list Q, Pandas.window w s i = Some obs ∧ length obs = w.
Proof.
  intros Hfin Hw Hi. unfold Pandas.window.
  rewrite (proj2 (Nat.ltb_ge _ _) Hw).
  destruct (mapM_is_Some_2 finite_value (take w (drop (i + 1 - w) s))) as [obs Hobs].
  - apply Forall_take, Forall_drop.
    eapply Forall_impl; [exact Hfin|].
    intros [q| | |] Hx; try discriminate. by eexists.
  - exists obs. split; [done|].
    apply length_mapM in Hobs. rewrite <- Hobs, length_take, length_drop. lia.
Qed.

Lemma agg_mean_notna (obs : list Q) :
  (0 < length obs)%nat → isnan (Pandas.agg_mean obs) = false.
Proof. destruct obs; simpl; [lia|done]. Qed.

Lemma agg_max_notna (obs : list Q) :
  (0 < length obs)%nat → isnan (Pandas.agg_max obs) = false.
Proof. destruct obs; simpl; [lia|done]. Qed.

Lemma agg_std_notna (fsqrt : Q → Q) (obs : list Q) :
  (1 < length obs)%nat → isnan (Pandas.agg_std fsqrt obs) = false.
Proof. destruct obs as [|x [|y obs]]; simpl; [lia|lia|done]. Qed.

Lemma filter_imap_drop {A B} (f : nat → A → B) (P : B → bool) (k : nat) (l : list A) :
  (∀ i x, l !! i = Some x → P (f i x) = (k <=? i)%nat) →
  List.filter P (imap f l) = drop k (imap f l).
Proof.
  revert f k. induction l as [|x l IH]; intros f k H.
  - by destruct k.
  - cbn [imap List.filter].
    rewrite (H 0%nat x eq_refl).
    destruct k as [|k]; cbn [Nat.leb drop].
    + f_equal. rewrite (IH _ 0%nat); [done|].
      intros i y Hy. unfold compose. by rewrite (H (S i) y Hy).
    + apply IH. intros i y Hy. unfold compose. by rewrite (H (S i) y Hy).
Qed.

Lemma fmap_imap_id {A B} (f : nat → A → B) (g : B → A) (l : list A) :
  (∀ i x, g (f i x) = x) → g <$> imap f l = l.
Proof.
  intros H. revert f H. induction l as [|x l IH]; intros f H; [done|].
  cbn [imap]. rewrite fmap_cons, H. f_equal. apply IH. intros i y. apply H.
Qed.

Section Features.

Variable fsqrt : Q → Q.

Lemma add_features_reading (df : list Reading) :
  reading <$> add_features fsqrt df = df.
Proof. unfold add_features. by apply fmap_imap_id. Qed.

Lemma add_features_length (df : list Reading) :
  length (add_features fsqrt df) = length df.
Proof. unfold add_features. apply length_imap. Qed.

Lemma power_finite (df : list Reading) :
  forallb Spec.power_in_range df = true →
  Forall (λ x, isfinite x = true) (Power_Consumption_kW <$> df).
Proof.
  intros H. apply Forall_fmap, Forall_forall. intros r Hr.
  rewrite forallb_forall in H. apply list_elem_of_In in Hr.
  specialize (H r Hr). unfold Spec.power_in_range in H. unfold compose.
  by destruct (Power_Consumption_kW r).
Qed.

Lemma lag_cell (df : list Reading) (k i : nat) :
  forallb Spec.power_in_range df = true →
  (i < length df)%nat →
  isnan (default NaN (Pandas.shift k (Power_Consumption_kW <$> df) !! i))
  = (i <? k)%nat.
Proof.
  intros Hdf Hi.
  assert (Hlen : (i < length (Power_Consumption_kW <$> df))%nat)
    by (by rewrite length_fmap).
  destruct (Nat.ltb_spec i k) as [Hlt | Hge].
  - by rewrite shift_lookup_lt.
  - rewrite shift_lookup_ge by done.
    destruct (lookup_lt_is_Some_2 (Power_Consumption_kW <$> df) (i - k)) as [x Hx];
      [lia|].
    rewrite Hx. simpl.
    pose proof (power_finite df Hdf) as Hfin.
    rewrite Forall_lookup in Hfin. specialize (Hfin _ _ Hx).
    by destruct x.
Qed.

Lemma roll_cell (df : list Reading) (agg : list Q → pyfloat) (i : nat) :
  (∀ obs : list Q, length obs = 4%nat → isnan (agg obs) = false) →
  forallb Spec.power_in_range df = true →
  (i < length df)%nat →
  isnan (default NaN (Pandas.rolling 4 agg (Power_Consumption_kW <$> df) !! i))
  = (i <? 3)%nat.
Proof.
  intros Hagg Hdf Hi.
  assert (Hlen : (i < length (Power_Consumption_kW <$> df))%nat)
    by (by rewrite length_fmap).
  rewrite rolling_lookup by done. simpl.
  destruct (Nat.ltb_spec i 3) as [Hlt | Hge].
  - rewrite window_warm_up by lia. done.
  - destruct (window_complete 4 (Power_Consumption_kW <$> df) i)
      as (obs & -> & Hobs); [by apply power_finite|lia|done|].
    by apply Hagg.
Qed.

Lemma row_kept (df : list Reading) (i : nat) (r : Row) :
  forallb Spec.reading_present df = true →
  forallb Spec.power_in_range df = true →
  add_features fsqrt df !! i = Some r →
  Pandas.notna_row row_cells r = (4 <=? i)%nat.
Proof.
  intros Hdf Hpw Hr.
  assert (Hi : (i < length df)%nat).
  { apply lookup_lt_Some in Hr. by rewrite add_features_length in Hr. }
  unfold add_features in Hr. rewrite list_lookup_imap in Hr.
  destruct (df !! i) as [x|] eqn:Hx; [|discriminate].
  injection Hr as <-.
  unfold Pandas.notna_row, row_cells. rewrite forallb_app.
  cbn [reading power_lag_1 power_lag_2 power_lag_4 power_roll_mean_1h
       power_roll_std_1h power_roll_max_1h forallb].
  assert (Hraw : forallb (λ c, negb (isnan c)) (raw_cells x) = true).
  { rewrite forallb_forall in Hdf.
    apply list_elem_of_lookup_2, list_elem_of_In in Hx.
    by specialize (Hdf x Hx). }
  rewrite Hraw, !lag_cell by done.
  rewrite (roll_cell df Pandas.agg_mean),
          (roll_cell df (Pandas.agg_std fsqrt)),
          (roll_cell df Pandas.agg_max); try done.
  - destruct (Nat.leb_spec 4 i), (Nat.ltb_spec i 1), (Nat.ltb_spec i 2),
      (Nat.ltb_spec i 4), (Nat.ltb_spec i 3); simpl; try done; lia.
  - intros obs Hobs. apply agg_max_notna. lia.
  - intros obs Hobs. apply agg_std_notna. lia.
  - intros obs Hobs. apply agg_mean_notna. lia.
Qed.

Lemma feature_engineering_drop (raw : list Reading) :
  forallb Spec.reading_present raw = true →
  forallb Spec.power_in_range raw = true →
  feature_engineering fsqrt raw = drop 4 (add_features fsqrt raw).
Proof.
  intros Hraw Hpw. unfold feature_engineering, Pandas.dropna.
  pose proof (row_kept raw) as Hkept.
  unfold add_features in *. cbv zeta in *.
  apply filter_imap_drop. intros i x Hx.
  apply (Hkept i); [done|done|].
  rewrite list_lookup_imap, Hx. reflexivity.
Qed.

(** C7 (as amended).  For a raw series of at least 5 readings without
    missing values whose power readings are all finite, of magnitude at
    most 1e150, feature engineering drops exactly the first 4 rows, those
    of the warm-up of the lag-4 and rolling columns, and keeps the others
    in their order: it returns [len(raw) − 4] rows.  Both scripts run
    it. *)
Theorem feature_engineering_drops_warm_up (raw : list Reading) :
  (5 ≤ length raw)%nat →
  forallb Spec.reading_present raw = true →
  forallb Spec.power_in_range raw = true →
  feature_engineering fsqrt raw = drop 4 (add_features fsqrt raw) ∧
  reading <$> feature_engineering fsqrt raw = drop 4 raw ∧
  length (feature_engineering fsqrt raw) = (length raw - 4)%nat ∧
  Train.df fsqrt raw = feature_engineering fsqrt raw ∧
  Serve.df_raw fsqrt raw = feature_engineering fsqrt raw.
Proof.
  intros _ Hraw Hpw.
  assert (H : feature_engineering fsqrt raw = drop 4 (add_features fsqrt raw))
    by (by apply feature_engineering_drop).
  split; [exact H|]. split; [|split; [|split; reflexivity]]; rewrite H.
  - by rewrite fmap_drop, add_features_reading.
  - by rewrite length_drop, add_features_length.
Qed.

End Features.

Lemma feature_engineering_drops_warm_up_witness :
  feature_engineering Example.sqrt8 Example.csv20
  = drop 4 (add_features Example.sqrt8 Example.csv20) ∧
  reading <$> feature_engineering Example.sqrt8 Example.csv20
  = drop 4 Example.csv20 ∧
  length (feature_engineering Example.sqrt8 Example.csv20)
  = (length Example.csv20 - 4)%nat ∧
  Train.df Example.sqrt8 Example.csv20
  = feature_engineering Example.sqrt8 Example.csv20 ∧
  Serve.df_raw Example.sqrt8 Example.csv20
  = feature_engineering Example.sqrt8 Example.csv20.
Proof.
  apply (feature_engineering_drops_warm_up Example.sqrt8 Example.csv20).
  - vm_compute. lia.
  - vm_compute. reflexivity.
  - vm_compute. reflexivity.
Defined.

(** C7, counterexample.  Twelve readings, none with a missing cell, the
    power of reading 5 infinite: [rolling] treats the infinite observation
    as missing, the four windows that contain it are NaN, and 8 rows are
    dropped, not 4.  The rows kept are readings 4, 9, 10 and 11. *)
Lemma infinite_reading_drops_more :
  (5 ≤ length Example.csv_inf)%nat ∧
  forallb Spec.reading_present Example.csv_inf = true ∧
  length Example.csv_inf = 12%nat ∧
  length (feature_engineering Example.sqrt8 Example.csv_inf) = 4%nat ∧
  length (feature_engineering Example.sqrt8 Example.csv_inf)
  ≠ (length Example.csv_inf - 4)%nat ∧
  reading <$> feature_engineering Example.sqrt8 Example.csv_inf
  = drop 4 (take 5 Example.csv_inf) ++ drop 9 Example.csv_inf.
Proof.
  split; [vm_compute; lia|]. split; [vm_compute; reflexivity|].
  split; [vm_compute; reflexivity|]. split; [vm_compute; reflexivity|].
  split; [vm_compute; lia|]. vm_compute. reflexivity.
Qed.

(** ** Stable sorting *)

Section Sorting.

Context {A : Type} (le : A → A → bool) (dom : A → Prop).

Hypothesis le_total : ∀ x y, dom x → dom y → le x y = true ∨ le y x = true.
Hypothesis le_trans : ∀ x y z, le x y = true → le y z = true → le x z = true.

Lemma insert_sorted_perm (x : A) (l : list A) :
  Pandas.insert_sorted le x l ≡ₚ x :: l.
Proof.
  induction l as [|y l IH]; simpl; [done|].
  destruct (le x y); [done|].
  rewrite IH. apply perm_swap.
Qed.

Lemma stable_sort_perm (l : list A) : Pandas.stable_sort le l ≡ₚ l.
Proof.
  induction l as [|x l IH]; simpl; [done|].
  unfold Pandas.stable_sort in *. simpl.
  by rewrite insert_sorted_perm, IH.
Qed.


Variable before : A → A → Prop.

Lemma insert_sorted_stable (x : A) (l : list A) :
  dom x → Forall dom l → Forall (before x) l →
  StronglySorted (Spec.stable_order le before) l →
  StronglySorted (Spec.stable_order le before) (Pandas.insert_sorted le x l).
Proof.
  intros Hx Hdom Hbef Hs.
  induction l as [|y l IH]; simpl.
  - repeat constructor.
  - apply StronglySorted_cons in Hs as [Hy Hs].
    apply Forall_cons in Hdom as [Hdy Hdom].
    apply Forall_cons in Hbef as [Hby Hbef].
    destruct (le x y) eqn:E.
    + apply StronglySorted_cons. split.
      * constructor; [by split|].
        rewrite Forall_forall in Hy, Hbef |- *. intros z Hz. split.
        -- apply (le_trans x y z); [done|]. by apply Hy.
        -- intros _. by apply Hbef.
      * by apply StronglySorted_cons.
    + apply StronglySorted_cons. split; [|by apply IH].
      rewrite insert_sorted_perm. constructor; [|done].
      split; [|congruence].
      destruct (le_total x y Hx Hdy); congruence.
Qed.

Lemma stable_sort_stable (l : list A) :
  Forall dom l → StronglySorted before l →
  StronglySorted (Spec.stable_order le before) (Pandas.stable_sort le l).
Proof.
  intros Hdom Hs. induction l as [|x l IH].
  - constructor.
  - apply StronglySorted_cons in Hs as [Hx Hs].
    apply Forall_cons in Hdom as [Hdx Hdom].
    change (Pandas.stable_sort le (x :: l))
      with (Pandas.insert_sorted le x (Pandas.stable_sort le l)).
    apply insert_sorted_stable; [done|..].
    + by rewrite stable_sort_perm.
    + by rewrite stable_sort_perm.
    + by apply IH.
Qed.

End Sorting.

(** ** The order of floats *)

Lemma fle_total (x y : pyfloat) :
  isnan x = false → isnan y = false → fle x y = true ∨ fle y x = true.
Proof.
  destruct x as [a| | |], y as [b| | |]; simpl; intros; try discriminate; auto.
  destruct (Qle_bool a b) eqn:E; [by left|right].
  apply Qle_bool_false_iff in E. apply Qle_bool_iff. lra.
Qed.

Lemma fle_trans (x y z : pyfloat) :
  fle x y = true → fle y z = true → fle x z = true.
Proof.
  destruct x as [a| | |], y as [b| | |], z as [c| | |]; simpl;
    intros H1 H2; try discriminate; try done.
  apply Qle_bool_iff in H1, H2. apply Qle_bool_iff. lra.
Qed.

Lemma fle_fneg (x y : pyfloat) : fle (fneg x) (fneg y) = fle y x.
Proof.
  destruct x as [a| | |], y as [b| | |]; simpl; try done.
  destruct (Qle_bool b a) eqn:E.
  - apply Qle_bool_iff in E. apply Qle_bool_iff. lra.
  - apply Qle_bool_false_iff in E. apply Qle_bool_false_iff. lra.
Qed.

Lemma flt_fle_false (x y : pyfloat) :
  isnan x = false → isnan y = false → flt x y = negb (fle y x).
Proof.
  destruct x as [a| | |], y as [b| | |]; simpl; intros; try discriminate; done.
Qed.

Lemma feqb_fle (x y : pyfloat) :
  fle x y = true → fle y x = true → feqb x y = true.
Proof.
  destruct x as [a| | |], y as [b| | |]; simpl; intros H1 H2;
    try discriminate; try done.
  apply Qle_bool_iff in H1, H2. apply Qeq_bool_iff. lra.
Qed.

(** ** The ten largest predictions of [/peak] *)

Lemma StronglySorted_fmap_dom {A B} (f : A → B) (R : relation A) (R' : relation B)
    (dom : A → Prop) (l : list A) :
  Forall dom l →
  (∀ x y, dom x → dom y → R x y → R' (f x) (f y)) →
  StronglySorted R l → StronglySorted R' (f <$> l).
Proof.
  intros Hdom HR Hs. induction Hs as [|x l Hs IH Hx]; [constructor|].
  apply Forall_cons in Hdom as [Hdx Hdom].
  rewrite fmap_cons. constructor; [by apply IH|].
  apply Forall_fmap. rewrite Forall_forall in Hx, Hdom |- *.
  intros y Hy. simpl. apply HR; auto.
Qed.

Lemma round4_mono (x y : pyfloat) :
  isfinite x = true → isfinite y = true →
  fle x y = true → fle (Py.round x 4) (Py.round y 4) = true.
Proof.
  destruct x as [a| | |], y as [b| | |]; try discriminate.
  intros _ _ H. simpl in *. apply Qle_bool_iff in H. apply Qle_bool_iff.
  assert (Hm : (a * inject_Z 10000 <= b * inject_Z 10000)%Q).
  { change (inject_Z 10000) with (10000 # 1)%Q. lra. }
  apply round_half_even_mono in Hm.
  rewrite !Qred_correct. unfold Qle. simpl.
  change (10 ^ Z.of_nat 4) with 10000.
  change (Z.pos (10 * (10 * (10 * (10 * 1))))) with 10000. lia.
Qed.

Section Indexed.

Context {A : Type}.

Lemma indexed_lookup (l : list A) (i : nat) :
  Pandas.indexed l !! i = (λ r, (i, r)) <$> l !! i.
Proof. unfold Pandas.indexed. by rewrite list_lookup_imap. Qed.

Lemma elem_of_indexed (l : list A) (i : nat) (r : A) :
  (i, r) ∈ Pandas.indexed l ↔ l !! i = Some r.
Proof.
  rewrite list_elem_of_lookup. split.
  - intros [j Hj]. rewrite indexed_lookup in Hj.
    destruct (l !! j) eqn:E; simpl in Hj; [|discriminate].
    by injection Hj as <- <-.
  - intros H. exists i. by rewrite indexed_lookup, H.
Qed.


Lemma indexed_snd (l : list A) : snd <$> Pandas.indexed l = l.
Proof. unfold Pandas.indexed. by apply fmap_imap_id. Qed.

Lemma indexed_increasing (l : list A) :
  StronglySorted (λ a b : nat * A, (a.1 < b.1)%nat) (Pandas.indexed l).
Proof.
  assert (H : ∀ k (l : list A),
             StronglySorted (λ a b : nat * A, (a.1 < b.1)%nat)
               (imap (λ i r, (k + i, r)%nat) l)).
  { clear l. intros k l. revert k. induction l as [|x l IH]; intros k.
    - constructor.
    - cbn [imap]. constructor.
      + rewrite (imap_ext _ (λ i r, (S k + i, r)%nat)); [apply IH|].
        intros i y _. simpl. f_equal. lia.
      + apply Forall_forall. intros [j y] Hj.
        apply list_elem_of_lookup in Hj as [i Hi].
        rewrite list_lookup_imap in Hi.
        destruct (l !! i); simpl in Hi; [|discriminate].
        injection Hi as <- <-. simpl. lia. }
  apply (H 0%nat).
Qed.

End Indexed.

Lemma filter_all {A} (f : A → bool) (l : list A) :
  Forall (λ x, f x = true) l → List.filter f l = l.
Proof. induction 1 as [|x l Hx _ IH]; [done|]. simpl. by rewrite Hx, IH. Qed.

Lemma filter_none {A} (f : A → bool) (l : list A) :
  Forall (λ x, f x = false) l → List.filter f l = [].
Proof. induction 1 as [|x l Hx _ IH]; [done|]. simpl. by rewrite Hx. Qed.

Section Nlargest.

Context {A : Type} (col : A → pyfloat).

Lemma indexed_notna (df : list A) :
  Forall (λ r, isnan (col r) = false) df →
  Forall (λ a : nat * A, isnan (col a.2) = false) (Pandas.indexed df).
Proof.
  intros Hdf. apply Forall_forall. intros [i r] Hir.
  apply elem_of_indexed in Hir.
  rewrite Forall_lookup in Hdf. by eapply Hdf.
Qed.

Lemma nlargest_index_notna (n : nat) (df : list A) :
  Forall (λ r, isnan (col r) = false) df →
  Pandas.nlargest_index n col df
  = take n (Pandas.stable_sort (Pandas.by_descending col) (Pandas.indexed df)).
Proof.
  intros Hdf. apply indexed_notna in Hdf.
  unfold Pandas.nlargest_index. cbv zeta.
  rewrite filter_all, filter_none, app_nil_r; [done|done|].
  eapply Forall_impl; [exact Hdf|]. intros a Ha. simpl in *. by rewrite Ha.
Qed.

Lemma sorted_by_col (df : list A) :
  Forall (λ r, isnan (col r) = false) df →
  StronglySorted (Spec.stable_order (Pandas.by_descending col) Spec.position_before)
    (Pandas.stable_sort (Pandas.by_descending col) (Pandas.indexed df)).
Proof.
  intros Hdf.
  apply (stable_sort_stable (Pandas.by_descending col)
           (λ a : nat * A, isnan (col a.2) = false)).
  - intros x y Hx Hy. unfold Pandas.by_descending. rewrite !fle_fneg.
    destruct (fle_total (col x.2) (col y.2) Hx Hy); auto.
  - intros x y z. unfold Pandas.by_descending. apply fle_trans.
  - by apply indexed_notna.
  - apply indexed_increasing.
Qed.

End Nlargest.

Lemma stable_order_ranks_before (a b : nat * PredRow) :
  isnan (predicted_kw a.2) = false → isnan (predicted_kw b.2) = false →
  Spec.stable_order (Pandas.by_descending predicted_kw) Spec.position_before a b →
  Spec.ranks_before a b.
Proof.
  intros Ha Hb [H1 H2]. unfold Pandas.by_descending in *. rewrite fle_fneg in *.
  unfold Spec.ranks_before.
  destruct (fle (predicted_kw a.2) (predicted_kw b.2)) eqn:E.
  - right. split; [by apply feqb_fle|by apply H2].
  - left. by rewrite flt_fle_false, E.
Qed.

Lemma table_finite_notna (t : list PredRow) :
  table_finite t = true →
  Forall (λ r, isfinite (predicted_kw r) = true) t ∧
  Forall (λ r, isnan (predicted_kw r) = false) t.
Proof.
  intros H. unfold table_finite in H. rewrite forallb_forall in H.
  split; apply Forall_forall; intros r Hr; apply list_elem_of_In in Hr;
    specialize (H r Hr); apply andb_true_iff in H as [_ H];
    by destruct (predicted_kw r).
Qed.

Lemma flt_fle (x y : pyfloat) : flt x y = true → fle x y = true.
Proof.
  destruct x as [a| | |], y as [b| | |]; simpl; try done.
  intros H. apply Qlt_bool_iff in H. apply Qle_bool_iff. lra.
Qed.

Lemma feqb_fle_sym (x y : pyfloat) : feqb x y = true → fle y x = true.
Proof.
  destruct x as [a| | |], y as [b| | |]; simpl; try done.
  intros H. apply Qeq_bool_iff in H. apply Qle_bool_iff. lra.
Qed.


Lemma sorted_ranks_before (t : list PredRow) :
  Forall (λ r, isnan (predicted_kw r) = false) t →
  StronglySorted Spec.ranks_before
    (Pandas.stable_sort (Pandas.by_descending predicted_kw) (Pandas.indexed t)).
Proof.
  intros Hna.
  pose proof (sorted_by_col predicted_kw t Hna) as Hs.
  rewrite <- (list_fmap_id (Pandas.stable_sort _ _)).
  eapply (StronglySorted_fmap_dom id _ _
            (λ a : nat * PredRow, isnan (predicted_kw a.2) = false));
    [|intros x y Hx Hy; by apply stable_order_ranks_before|exact Hs].
  rewrite stable_sort_perm. by apply indexed_notna.
Qed.



(** The positions picked from the sample table: 13 kW first, the two 7 kW
    rows and the three 5 kW rows in table order, the 0 kW row left out. *)
Example top10_sample_positions :
  fst <$> Pandas.nlargest_index 10 predicted_kw Example.small_table
  = [8; 2; 7; 1; 3; 10; 5; 6; 11; 0]%nat.
Proof. vm_compute. reflexivity. Qed.

(** ** The median *)

Lemma filter_length_le {A} (P : A → bool) (l : list A) :
  (length (List.filter P l) ≤ length l)%nat.
Proof. induction l as [|x l IH]; simpl; [done|]. destruct (P x); simpl; lia. Qed.

Lemma filter_length_mono {A} (P Q : A → bool) (l : list A) :
  (∀ x, P x = true → Q x = true) →
  (length (List.filter P l) ≤ length (List.filter Q l))%nat.
Proof.
  intros H. induction l as [|x l IH]; simpl; [done|].
  destruct (P x) eqn:E.
  - rewrite (H x E). simpl. lia.
  - destruct (Q x); simpl; lia.
Qed.

Lemma filter_length_perm {A} (P : A → bool) (l l' : list A) :
  l ≡ₚ l' → length (List.filter P l) = length (List.filter P l').
Proof.
  induction 1 as [|x l l' _ IH|x y l|l l' l'' _ IH1 _ IH2]; simpl.
  - done.
  - destruct (P x); simpl; by rewrite IH.
  - destruct (P x), (P y); done.
  - congruence.
Qed.

Lemma fle_refl (x : pyfloat) : isnan x = false → fle x x = true.
Proof.
  destruct x as [a| | |]; simpl; try done. intros _. apply Qle_bool_iff. lra.
Qed.

Lemma sorted_count_le (s : list pyfloat) (k : nat) (v : pyfloat) :
  StronglySorted Spec.ascending s → isnan v = false → s !! k = Some v →
  (k + 1 ≤ length (List.filter (λ x, fle x v) s))%nat.
Proof.
  intros Hs Hv Hk.
  pose proof (lookup_lt_Some _ _ _ Hk) as Hlt.
  rewrite <- (take_drop_middle s k v Hk) in Hs |- *.
  rewrite List.filter_app, length_app.
  rewrite filter_all.
  - rewrite length_take. cbn [List.filter]. rewrite fle_refl by done.
    cbn [length]. lia.
  - apply Forall_forall. intros x Hx.
    apply (StronglySorted_app_1_elem_of _ _ _ x v Hs Hx). by left.
Qed.

Lemma sorted_count_ge (s : list pyfloat) (k : nat) (v : pyfloat) :
  StronglySorted Spec.ascending s → isnan v = false → s !! k = Some v →
  (length s - k ≤ length (List.filter (λ x, fle v x) s))%nat.
Proof.
  intros Hs Hv Hk.
  pose proof (lookup_lt_Some _ _ _ Hk) as Hlt.
  rewrite <- (take_drop_middle s k v Hk) in Hs |- *.
  rewrite List.filter_app, !length_app, length_take.
  cbn [List.filter]. rewrite fle_refl by done.
  apply StronglySorted_app_1_r, StronglySorted_cons in Hs as [Hs _].
  rewrite (filter_all _ (drop (S k) s)) by exact Hs.
  cbn [length]. rewrite length_drop. lia.
Qed.

Lemma odd_half (n : nat) : Nat.odd n = true → n = (2 * (n / 2) + 1)%nat.
Proof.
  intros H. apply Nat.odd_spec in H as [m ->].
  pose proof (Nat.div_mod_eq (2 * m + 1) 2).
  pose proof (Nat.mod_upper_bound (2 * m + 1) 2). lia.
Qed.

Lemma even_half (n : nat) : Nat.odd n = false → n = (2 * (n / 2))%nat.
Proof.
  intros H. rewrite <- Nat.negb_even in H. apply negb_false_iff in H.
  apply Nat.even_spec in H as [m ->].
  pose proof (Nat.div_mod_eq (2 * m) 2).
  pose proof (Nat.mod_upper_bound (2 * m) 2). lia.
Qed.

Lemma midpoint_between (lo hi : pyfloat) :
  isfinite lo = true → isfinite hi = true → fle lo hi = true →
  let m := fdiv (fadd hi lo) (of_Z 2) in
  isfinite m = true ∧ fle lo m = true ∧ fle m hi = true.
Proof.
  destruct lo as [a| | |], hi as [b| | |]; try discriminate.
  intros _ _ H. simpl in *. apply Qle_bool_iff in H.
  repeat split; apply Qle_bool_iff.
  - assert (E : ((b + a) / inject_Z 2 == (b + a) * (1 # 2))%Q) by (field; done).
    rewrite E. lra.
  - assert (E : ((b + a) / inject_Z 2 == (b + a) * (1 # 2))%Q) by (field; done).
    rewrite E. lra.
Qed.

Lemma StronglySorted_True {A} (l : list A) : StronglySorted (λ _ _ : A, True) l.
Proof.
  induction l as [|x l IH]; constructor; [done|].
  by apply Forall_true.
Qed.

Lemma stable_sort_ascending (l : list pyfloat) :
  Forall (λ x, isnan x = false) l →
  StronglySorted Spec.ascending (Pandas.stable_sort fle l).
Proof.
  intros Hl.
  pose proof (stable_sort_stable fle (λ x, isnan x = false) fle_total fle_trans
                (λ _ _, True) l Hl (StronglySorted_True l)) as Hs.
  rewrite <- (list_fmap_id (Pandas.stable_sort fle l)).
  eapply (StronglySorted_fmap_dom id _ _ (λ _, True));
    [by apply Forall_true| |exact Hs].
  intros x y _ _ [H _]. exact H.
Qed.

Lemma finite_notna (l : list pyfloat) :
  Forall (λ x, isfinite x = true) l → Forall (λ x, isnan x = false) l.
Proof.
  intros H. eapply Forall_impl; [exact H|]. intros x. by destruct x.
Qed.

(** On a non-empty list of finite values, [Series.median()] is a finite
    value with at least half of the values on either side. *)
Lemma median_is_median (l : list pyfloat) :
  Forall (λ x, isfinite x = true) l → l ≠ [] →
  isfinite (Pandas.median l) = true ∧ Spec.is_median (Pandas.median l) l.
Proof.
  intros Hfin Hne.
  pose proof (finite_notna l Hfin) as Hna.
  set (s := Pandas.stable_sort fle l).
  assert (Hperm : s ≡ₚ l) by apply stable_sort_perm.
  assert (Hs : StronglySorted Spec.ascending s) by by apply stable_sort_ascending.
  assert (Hsfin : Forall (λ x, isfinite x = true) s) by by rewrite Hperm.
  assert (Hlen : length s = length l) by by rewrite Hperm.
  assert (Hpos : (0 < length l)%nat) by (destruct l; [done|simpl; lia]).
  assert (Hcount : ∀ P : pyfloat → bool,
             length (List.filter P l) = length (List.filter P s)).
  { intros P. by apply filter_length_perm. }
  assert (Hget : ∀ k, (k < length l)%nat →
             ∃ v, s !! k = Some v ∧ isfinite v = true ∧ isnan v = false).
  { intros k Hk. destruct (lookup_lt_is_Some_2 s k) as [v Hv]; [lia|].
    exists v. rewrite Forall_lookup in Hsfin. specialize (Hsfin _ _ Hv).
    repeat split; [done|done|by destruct v]. }
  unfold Pandas.median, Spec.is_median, Pandas.kth_smallest.
  rewrite (filter_all _ l) by (eapply Forall_impl; [exact Hna|]; intros x ->; done).
  fold s. rewrite !Hcount.
  destruct (Nat.eqb_spec (length l) 0) as [H0 | _]; [lia|].
  destruct (Nat.odd (length l)) eqn:Hodd.
  - apply odd_half in Hodd.
    destruct (Hget (length l / 2)%nat) as (v & Hv & Hvf & Hvn); [lia|].
    rewrite Hv. simpl. split; [done|].
    pose proof (sorted_count_le s _ v Hs Hvn Hv).
    pose proof (sorted_count_ge s _ v Hs Hvn Hv). lia.
  - apply even_half in Hodd.
    destruct (Hget (length l / 2)%nat) as (hi & Hhi & Hhf & Hhn); [lia|].
    destruct (Hget (length l / 2 - 1)%nat) as (lo & Hlo & Hlf & Hln); [lia|].
    rewrite Hhi, Hlo. simpl default.
    assert (Hlohi : fle lo hi = true).
    { destruct (decide (length l / 2 - 1 = length l / 2)%nat) as [E | E]; [lia|].
      rewrite <- (take_drop_middle s _ hi Hhi) in Hs.
      apply (StronglySorted_app_1_elem_of _ _ _ lo hi Hs); [|by left].
      apply list_elem_of_lookup. exists (length l / 2 - 1)%nat.
      rewrite lookup_take_lt by lia. done. }
    destruct (midpoint_between lo hi Hlf Hhf Hlohi) as (Hmf & Hlm & Hmh).
    split; [done|].
    pose proof (sorted_count_le s _ lo Hs Hln Hlo) as Hcl.
    pose proof (sorted_count_ge s _ hi Hs Hhn Hhi) as Hch.
    pose proof (filter_length_mono (λ x, fle x lo)
                  (λ x, fle x (fdiv (fadd hi lo) (of_Z 2))) s) as Hm1.
    pose proof (filter_length_mono (λ x, fle hi x)
                  (λ x, fle (fdiv (fadd hi lo) (of_Z 2)) x) s) as Hm2.
    split.
    + etrans; [|apply Nat.mul_le_mono_l, Hm1].
      * lia.
      * intros x Hx. by eapply fle_trans.
    + etrans; [|apply Nat.mul_le_mono_l, Hm2].
      * lia.
      * intros x Hx. by eapply fle_trans.
Qed.

(** ** The next-day profile of [/forecast] *)

Lemma groupby_lookup {A} (key : A → Z) (df : list A) (k : Z) :
  Pandas.groupby key df !! k
  = match List.filter (λ r, key r =? k) df with
    | [] => None
    | g => Some g
    end.
Proof.
  induction df as [|r df IH]; [done|].
  unfold Pandas.groupby in *. cbn [foldr List.filter].
  destruct (Z.eqb_spec (key r) k) as [-> | Hne].
  - rewrite lookup_insert_eq, IH. by destruct (List.filter _ df).
  - by rewrite lookup_insert_ne.
Qed.

Lemma loc_reindex {V} (index : list Z) (fill : V) (s : gmap Z V) (k : Z) :
  k ∈ index →
  Pandas.loc k (Pandas.reindex index fill s) = Some (default fill (s !! k)).
Proof.
  unfold Pandas.loc, Pandas.reindex.
  induction index as [|i index IH]; intros Hk.
  - by apply elem_of_nil in Hk.
  - rewrite fmap_cons. cbn [List.find fst].
    destruct (decide (i = k)) as [-> | Hne].
    + by rewrite bool_decide_eq_true_2.
    + rewrite bool_decide_eq_false_2 by done.
      apply IH. apply elem_of_cons in Hk as [Hk | Hk]; [congruence|done].
Qed.

Lemma dow_rows_selected (now_weekday : Z) (t : list PredRow) :
  dow_rows now_weekday t = Spec.selected now_weekday t.
Proof.
  unfold dow_rows, Spec.selected, tomorrow_dow.
  change (λ r, dayofweek (row r) =? (now_weekday + 1) mod 7)
    with (Spec.is_tomorrow now_weekday).
  induction t as [|r t IH]; [done|]. simpl.
  destruct (Spec.is_tomorrow now_weekday r); [done|]. simpl.
  destruct (existsb _ t) eqn:E.
  - destruct (List.filter _ t) eqn:F; [|done].
    apply existsb_exists in E as (x & Hx & Hd).
    assert (Hin : In x (List.filter (Spec.is_tomorrow now_weekday) t))
      by (apply filter_In; done).
    rewrite F in Hin. destruct Hin.
  - destruct (List.filter _ t) as [|y l] eqn:F; [done|].
    assert (Hin : In y (List.filter (Spec.is_tomorrow now_weekday) t))
      by (rewrite F; by left).
    apply filter_In in Hin as [Hin Hy].
    assert (existsb (Spec.is_tomorrow now_weekday) t = true)
      by (apply existsb_exists; eauto).
    congruence.
Qed.

Lemma dow_hourly_loc (now_weekday : Z) (t : list PredRow) (h : Z) :
  0 <= h < 24 →
  Pandas.loc h (dow_hourly now_weekday t)
  = Some (match Spec.values_at now_weekday t h with
          | [] => NaN
          | vs => Pandas.median vs
          end).
Proof.
  intros Hh. unfold dow_hourly.
  rewrite loc_reindex by (apply elem_of_seqZ; lia).
  rewrite lookup_fmap, groupby_lookup, dow_rows_selected.
  unfold Spec.values_at, hour_of.
  by destruct (List.filter _ _).
Qed.

Lemma selected_subset (now_weekday : Z) (t : list PredRow) (r : PredRow) :
  In r (Spec.selected now_weekday t) → In r t.
Proof.
  unfold Spec.selected. destruct (existsb _ t); [|done].
  intros H. by apply filter_In in H as [H _].
Qed.

Lemma values_at_finite (now_weekday : Z) (t : list PredRow) (h : Z) :
  table_finite t = true →
  Forall (λ x, isfinite x = true) (Spec.values_at now_weekday t h).
Proof.
  intros Hfin. apply table_finite_notna in Hfin as [Hfin _].
  unfold Spec.values_at. apply Forall_fmap, Forall_forall. intros r Hr.
  apply list_elem_of_In, filter_In in Hr as [Hr _].
  apply selected_subset, list_elem_of_In in Hr.
  rewrite Forall_forall in Hfin. by apply Hfin.
Qed.

(** C5.  For a cached table of finite values and an hour [h] of the day,
    entry [h] of the next-day profile is computed from the rows whose
    [dayofweek] is tomorrow's, or from the whole table when no row has it;
    it reports the median of the predictions of those rows at hour [h]
    (rounded to 4 decimals), and 0, not null, when
    there is no such row. *)
Theorem next_day_profile_median (now_weekday : Z) (table : list PredRow) (h : Z) :
  table_finite table = true →
  0 <= h < 24 →
  ∃ e : TomorrowEntry,
    forecastTomorrow now_weekday table !! Z.to_nat h = Some e ∧
    te_hour e = h ∧
    match Spec.values_at now_weekday table h with
    | [] => te_predicted e = Some (of_Z 0)
    | vs => te_predicted e = Some (Py.round (Pandas.median vs) 4) ∧
            Spec.is_median (Pandas.median vs) vs
    end.
Proof.
  intros Hfin Hh. eexists. split; [by apply forecastTomorrow_lookup|].
  split; [done|].
  unfold tomorrow_entry. cbn [te_predicted].
  rewrite dow_hourly_loc by done.
  pose proof (values_at_finite now_weekday table h Hfin) as Hvs.
  destruct (Spec.values_at now_weekday table h) as [|v vs] eqn:E; [done|].
  destruct (median_is_median (v :: vs) Hvs) as [Hm Hmed]; [done|].
  split; [|exact Hmed].
  destruct (Pandas.median (v :: vs)); try discriminate. done.
Qed.

Lemma next_day_profile_median_witness :
  ∃ e : TomorrowEntry,
    forecastTomorrow 0 Example.small_table !! Z.to_nat 0 = Some e ∧
    te_hour e = 0 ∧
    match Spec.values_at 0 Example.small_table 0 with
    | [] => te_predicted e = Some (of_Z 0)
    | vs => te_predicted e = Some (Py.round (Pandas.median vs) 4) ∧
            Spec.is_median (Pandas.median vs) vs
    end.
Proof.
  apply (next_day_profile_median 0 Example.small_table 0).
  - vm_compute. reflexivity.
  - lia.
Defined.

(** On the sample table, on a Monday: hour 0 has the Tuesday predictions
    2, 5, 1/3, 3 and 0, whose median is 2; hour 1 has 7, 7 and 2.1; hour 4
    has no Tuesday row and reports 0, although Wednesday rows exist. *)
Example next_day_profile_sample :
  Spec.values_at 0 Example.small_table 0
  = [Finite 2; Finite 5; Finite (1 # 3); Finite 3; Finite 0] ∧
  te_predicted <$> take 5 (forecastTomorrow 0 Example.small_table)
  = [Some (Finite 2); Some (Finite 7); Some (of_Z 0); Some (of_Z 0); Some (of_Z 0)].
Proof. split; vm_compute; reflexivity. Qed.

(** On a Thursday no row of the sample table has Friday's weekday, and
    the profile falls back to all rows: hour 4 has 3 and 13, median 8. *)
Example next_day_profile_fallback :
  Spec.selected 3 Example.small_table = Example.small_table ∧
  te_predicted <$> forecastTomorrow 3 Example.small_table !! 4%nat
  = Some (Some (Finite 8)).
Proof. split; vm_compute; reflexivity. Qed.

(** ** Start-up: what a cache holds, and when start-up fails *)

Lemma predict_rows (model : Row → pyfloat) (test : list Row) :
  row <$> predict model test = test.
Proof.
  unfold predict. rewrite <- list_fmap_compose. apply list_fmap_id.
Qed.

Lemma check_reg_targets_error (t : list PredRow) :
  Sklearn.check_reg_targets (y_test t) (y_pred_all t) = ValueError ↔
  t = [] ∨ table_finite t = false.
Proof.
  split.
  - intros H. destruct t as [|r t]; [by left|]. right.
    destruct (table_finite (r :: t)) eqn:E; [|done].
    destruct (check_reg_targets_ok (r :: t)) as (a & p & _ & _ & Hc); [done|done|].
    congruence.
  - intros H.
    destruct (Sklearn.check_reg_targets _ _) as [[a p]|] eqn:E; [|done].
    apply check_reg_targets_inv in E as (_ & _ & Hne & Hfin).
    destruct H; congruence.
Qed.

Lemma metrics_ok (fsqrt : Q → Q) (t : list PredRow) (a p : list Q) :
  Sklearn.check_reg_targets (y_test t) (y_pred_all t) = Ok (a, p) →
  ∃ mae rmse r2 : pyfloat,
    MAE_VAL t = Ok mae ∧ RMSE_VAL fsqrt t = Ok rmse ∧ R2_VAL t = Ok r2.
Proof.
  intros H.
  unfold MAE_VAL, RMSE_VAL, R2_VAL, Sklearn.mean_absolute_error,
    Sklearn.mean_squared_error, Sklearn.r2_score, Sklearn.bind.
  rewrite H.
  destruct (_ <? 2)%nat; [by do 3 eexists|].
  destruct (negb _); [by do 3 eexists|].
  destruct (negb _); by do 3 eexists.
Qed.

Lemma metrics_error (t : list PredRow) :
  Sklearn.check_reg_targets (y_test t) (y_pred_all t) = ValueError →
  MAE_VAL t = ValueError.
Proof.
  intros H. unfold MAE_VAL, Sklearn.mean_absolute_error, Sklearn.bind.
  by rewrite H.
Qed.

Lemma MAE_VAL_ok_inv (t : list PredRow) (mae : pyfloat) :
  MAE_VAL t = Ok mae → t ≠ [] ∧ table_finite t = true.
Proof.
  unfold MAE_VAL, Sklearn.mean_absolute_error, Sklearn.bind.
  destruct (Sklearn.check_reg_targets _ _) as [[a p]|] eqn:E; [|discriminate].
  intros _. by apply check_reg_targets_inv in E as (_ & _ & Hne & Hfin).
Qed.

Lemma startup_ok_rows (fsqrt : Q → Q) (model : Row → pyfloat)
    (csv : list Reading) (c : Cache) :
  startup fsqrt model csv = Ok c →
  cache_train c = df_train (df_raw fsqrt csv) ∧
  cache_test c = predict model (df_test (df_raw fsqrt csv)).
Proof.
  unfold startup, Serve.split. cbn [Sklearn.bind].
  destruct (MAE_VAL _) as [mae|]; [|discriminate]. cbn [Sklearn.bind].
  destruct (RMSE_VAL _ _) as [rmse|]; [|discriminate]. cbn [Sklearn.bind].
  destruct (R2_VAL _) as [r2|]; [|discriminate]. cbn [Sklearn.bind].
  intros [= <-]. by split.
Qed.

Lemma startup_empty_test (fsqrt : Q → Q) (model : Row → pyfloat)
    (csv : list Reading) :
  df_test (df_raw fsqrt csv) = [] → startup fsqrt model csv = ValueError.
Proof.
  intros H. unfold startup, Serve.split. cbn [Sklearn.bind].
  rewrite H. reflexivity.
Qed.

Section Startup.

Variable fsqrt : Q → Q.
Variable model : Row → pyfloat.

(** A cache that start-up returns holds the serving split of the
    engineered frame: the train rows, and the test rows each with the
    model's prediction for it; train and test rows together are the frame,
    in order.  Its table is never empty, and every actual and every
    predicted value in it is a finite number, because the metrics reject
    anything else. *)
Theorem startup_cache_invariant (csv : list Reading) (c : Cache) :
  startup fsqrt model csv = Ok c →
  cache_train c = df_train (df_raw fsqrt csv) ∧
  row <$> cache_test c = df_test (df_raw fsqrt csv) ∧
  Forall (λ r, predicted_kw r = model (row r)) (cache_test c) ∧
  cache_train c ++ (row <$> cache_test c) = df_raw fsqrt csv ∧
  cache_test c ≠ [] ∧
  table_finite (cache_test c) = true ∧
  R2_VAL (cache_test c) = Ok (cache_r2 c).
Proof.
  unfold startup, Serve.split. cbn [Sklearn.bind].
  set (frame := df_raw fsqrt csv).
  set (table := predict model (df_test frame)).
  destruct (MAE_VAL table) as [mae|] eqn:Emae; [|discriminate].
  cbn [Sklearn.bind].
  destruct (RMSE_VAL fsqrt table) as [rmse|] eqn:Ermse; [|discriminate].
  cbn [Sklearn.bind].
  destruct (R2_VAL table) as [r2|] eqn:Er2; [|discriminate].
  cbn [Sklearn.bind]. intros [= <-]. cbn [cache_train cache_test cache_r2].
  apply MAE_VAL_ok_inv in Emae as [Hne Hfin].
  assert (Hrows : row <$> table = df_test frame) by apply predict_rows.
  repeat split; try done.
  - unfold table, predict. apply Forall_fmap, Forall_true. done.
  - rewrite Hrows. unfold df_train, df_test, Pandas.iloc_to, Pandas.iloc_from.
    apply take_drop.
Qed.

(** Start-up fails, with the [ValueError] of the first metric, exactly
    when the test part of the frame is empty or some actual or predicted
    value of the table is not a finite number; otherwise it returns a
    cache. *)
Theorem startup_fails_iff (csv : list Reading) :
  startup fsqrt model csv = ValueError ↔
  df_test (df_raw fsqrt csv) = [] ∨
  table_finite (predict model (df_test (df_raw fsqrt csv))) = false.
Proof.
  unfold startup, Serve.split. cbn [Sklearn.bind].
  set (frame := df_raw fsqrt csv).
  set (table := predict model (df_test frame)).
  assert (Hempty : table = [] ↔ df_test frame = []).
  { unfold table, predict. split; [apply fmap_nil_inv|by intros ->]. }
  rewrite <- Hempty, <- check_reg_targets_error.
  destruct (Sklearn.check_reg_targets (y_test table) (y_pred_all table))
    as [[a p]|] eqn:Ec.
  - destruct (metrics_ok fsqrt table a p Ec) as (mae & rmse & r2 & -> & -> & ->).
    cbn [Sklearn.bind]. split; discriminate.
  - rewrite (metrics_error table Ec). done.
Qed.

End Startup.

Lemma startup_cache_invariant_witness :
  ∃ c : Cache,
    startup Example.sqrt8 Example.lag_model Example.csv20 = Ok c ∧
    length (cache_train c) = 12%nat ∧
    length (cache_test c) = 4%nat ∧
    cache_test c ≠ [] ∧
    table_finite (cache_test c) = true.
Proof.
  destruct (startup Example.sqrt8 Example.lag_model Example.csv20) as [c|] eqn:E;
    [|vm_compute in E; discriminate E].
  exists c.
  pose proof (startup_cache_invariant Example.sqrt8 Example.lag_model
                Example.csv20 c E) as (Htr & Hte & _ & _ & Hne & Hfin & _).
  split; [reflexivity|]. split; [by rewrite Htr|].
  split; [|done].
  rewrite <- (length_fmap row), Hte. reflexivity.
Defined.

(** ** Feature engineering: what a row holds, and missing values *)

Lemma filter_sublist {A} (P : A → bool) (l : list A) :
  List.filter P l `sublist_of` l.
Proof.
  induction l as [|x l IH]; simpl; [constructor|].
  destruct (P x); by constructor.
Qed.

Lemma filter_drop_rejected {A} (P : A → bool) (k : nat) (l : list A) :
  (∀ i x, (i < k)%nat → l !! i = Some x → P x = false) →
  List.filter P l = List.filter P (drop k l).
Proof.
  revert l. induction k as [|k IH]; intros l H; [done|].
  destruct l as [|x l]; [done|]. simpl.
  rewrite (H 0%nat x) by (done || lia).
  apply IH. intros i y Hi Hy. apply (H (S i) y); [lia|done].
Qed.

Lemma Forall_filter_true {A} (P : A → bool) (l : list A) :
  Forall (λ x, P x = true) (List.filter P l).
Proof.
  apply Forall_forall. intros x Hx.
  by apply list_elem_of_In, filter_In in Hx as [_ Hx].
Qed.

Section FeatureRows.

Variable fsqrt : Q → Q.

Lemma add_features_lookup (df : list Reading) (i : nat) (r : Row) :
  add_features fsqrt df !! i = Some r →
  df !! i = Some (reading r) ∧
  hour r = dt_hour (Timestamp (reading r)) ∧
  dayofweek r = dt_dayofweek (Timestamp (reading r)) ∧
  month r = dt_month (Timestamp (reading r)) ∧
  is_weekend r = isin_5_6 (dayofweek r) ∧
  power_lag_1 r = default NaN (Pandas.shift 1 (Power_Consumption_kW <$> df) !! i) ∧
  power_lag_2 r = default NaN (Pandas.shift 2 (Power_Consumption_kW <$> df) !! i) ∧
  power_lag_4 r = default NaN (Pandas.shift 4 (Power_Consumption_kW <$> df) !! i) ∧
  power_roll_mean_1h r
  = default NaN (Pandas.rolling 4 Pandas.agg_mean (Power_Consumption_kW <$> df) !! i) ∧
  power_roll_std_1h r
  = default NaN (Pandas.rolling 4 (Pandas.agg_std fsqrt) (Power_Consumption_kW <$> df) !! i) ∧
  power_roll_max_1h r
  = default NaN (Pandas.rolling 4 Pandas.agg_max (Power_Consumption_kW <$> df) !! i).
Proof.
  unfold add_features. rewrite list_lookup_imap.
  destruct (df !! i) as [x|]; [|discriminate].
  intros [= <-]. repeat split.
Qed.

Lemma warm_up_rejected (df : list Reading) (i : nat) (r : Row) :
  (i < 4)%nat → add_features fsqrt df !! i = Some r →
  Pandas.notna_row row_cells r = false.
Proof.
  intros Hi Hr.
  assert (Hlen : (i < length (Power_Consumption_kW <$> df))%nat).
  { apply lookup_lt_Some in Hr. by rewrite add_features_length in Hr;
      rewrite length_fmap. }
  apply add_features_lookup in Hr as (_ & _ & _ & _ & _ & _ & _ & H4 & _).
  rewrite shift_lookup_lt in H4 by done. simpl in H4.
  unfold Pandas.notna_row, row_cells. rewrite forallb_app.
  cbn [forallb]. rewrite H4. simpl.
  by rewrite !andb_false_r.
Qed.

Lemma feature_engineering_sublist (raw : list Reading) :
  reading <$> feature_engineering fsqrt raw `sublist_of` drop 4 raw.
Proof.
  unfold feature_engineering, Pandas.dropna.
  rewrite (filter_drop_rejected _ 4)
    by (intros i x Hi Hx; by eapply warm_up_rejected).
  rewrite <- (add_features_reading fsqrt raw) at 2.
  rewrite <- fmap_drop. apply fmap_sublist, filter_sublist.
Qed.

(** Whatever the data, missing values included: the first 4 rows are
    always dropped, the rows that are kept stay in their order, no kept row
    has a NaN cell, and at most [len − 4] rows are returned. *)
Theorem feature_engineering_keeps_complete_rows (raw : list Reading) :
  reading <$> feature_engineering fsqrt raw `sublist_of` drop 4 raw ∧
  Forall (λ r, Forall (λ c, isnan c = false) (row_cells r))
         (feature_engineering fsqrt raw) ∧
  (length (feature_engineering fsqrt raw) ≤ length raw - 4)%nat.
Proof.
  pose proof (feature_engineering_sublist raw) as Hsub.
  split; [exact Hsub|]. split.
  - unfold feature_engineering, Pandas.dropna.
    eapply Forall_impl; [apply Forall_filter_true|].
    intros r Hr. unfold Pandas.notna_row in Hr.
    rewrite forallb_forall in Hr. apply Forall_forall. intros c Hc.
    apply list_elem_of_In in Hc. specialize (Hr c Hc).
    by apply negb_true_iff in Hr.
  - apply sublist_length in Hsub.
    by rewrite length_fmap, length_drop in Hsub.
Qed.

(** The features are causal.  For a series without missing values whose
    power readings are all finite, of magnitude at most 1e150, row [k] of
    the engineered frame is raw reading [k + 4]; its three lags are the
    power readings 1, 2 and 4 places before it, and its rolling mean,
    standard deviation and maximum are taken over the four power readings
    that end with its own: no later reading enters a row. *)
Theorem engineered_row_is_causal (raw : list Reading) (k : nat) (r : Row) :
  forallb Spec.reading_present raw = true →
  forallb Spec.power_in_range raw = true →
  feature_engineering fsqrt raw !! k = Some r →
  raw !! (k + 4)%nat = Some (reading r) ∧
  Power_Consumption_kW <$> raw !! (k + 3)%nat = Some (power_lag_1 r) ∧
  Power_Consumption_kW <$> raw !! (k + 2)%nat = Some (power_lag_2 r) ∧
  Power_Consumption_kW <$> raw !! k = Some (power_lag_4 r) ∧
  ∃ obs : list Q,
    Finite <$> obs = Power_Consumption_kW <$> take 4 (drop (k + 1) raw) ∧
    length obs = 4%nat ∧
    power_roll_mean_1h r = Finite (Pandas.Qmean obs) ∧
    power_roll_std_1h r = Finite (fsqrt (Pandas.Qvar obs)) ∧
    power_roll_max_1h r = Pandas.agg_max obs.
Proof.
  intros Hraw Hpw Hr.
  rewrite feature_engineering_drop, lookup_drop in Hr by done.
  replace (4 + k)%nat with (k + 4)%nat in Hr by lia.
  assert (Hlen : (k + 4 < length raw)%nat).
  { apply lookup_lt_Some in Hr. by rewrite add_features_length in Hr. }
  set (power := Power_Consumption_kW <$> raw).
  assert (Hplen : length power = length raw) by apply length_fmap.
  apply add_features_lookup in Hr
    as (Hrd & _ & _ & _ & _ & H1 & H2 & H4 & Hmean & Hstd & Hmax).
  fold power in H1, H2, H4, Hmean, Hstd, Hmax.
  rewrite shift_lookup_ge in H1, H2, H4 by lia.
  rewrite rolling_lookup in Hmean, Hstd, Hmax by lia.
  destruct (window_complete 4 power (k + 4)) as (obs & Hw & Hobs);
    [by apply power_finite|lia|lia|].
  rewrite Hw in Hmean, Hstd, Hmax. simpl in Hmean, Hstd, Hmax.
  assert (Hget : ∀ j, (j < length raw)%nat → ∀ x,
            x = default NaN (power !! j) → power !! j = Some x).
  { intros j Hj x ->.
    destruct (lookup_lt_is_Some_2 power j) as [y ->]; [lia|done]. }
  split; [exact Hrd|].
  rewrite <- !list_lookup_fmap. fold power.
  split; [apply Hget; [lia|]; rewrite H1; f_equal; f_equal; lia|].
  split; [apply Hget; [lia|]; rewrite H2; f_equal; f_equal; lia|].
  split; [apply Hget; [lia|]; rewrite H4; f_equal; f_equal; lia|].
  exists obs.
  unfold Pandas.window in Hw.
  destruct (k + 4 + 1 <? 4)%nat eqn:E; [discriminate|].
  replace (k + 4 + 1 - 4)%nat with (k + 1)%nat in Hw by lia.
  apply mapM_finite_value_Some in Hw.
  split; [rewrite <- Hw; unfold power; by rewrite fmap_take, fmap_drop|].
  split; [exact Hobs|].
  destruct obs as [|o1 [|o2 obs]]; simpl in Hobs; try lia.
  done.
Qed.

(** Fewer than 5 readings leave no row, and start-up then fails (on the
    empty test set) instead of serving an empty cache. *)
Theorem short_series_fails_fast (model : Row → pyfloat) (raw : list Reading) :
  (length raw ≤ 4)%nat →
  feature_engineering fsqrt raw = [] ∧
  startup fsqrt model raw = ValueError.
Proof.
  intros Hlen.
  assert (Hnil : feature_engineering fsqrt raw = []).
  { pose proof (sublist_length _ _ (feature_engineering_sublist raw)) as H.
    rewrite length_fmap, length_drop in H.
    apply length_zero_iff_nil. lia. }
  split; [exact Hnil|].
  apply startup_empty_test.
  unfold df_raw. rewrite Hnil. reflexivity.
Qed.

End FeatureRows.

Lemma engineered_row_is_causal_witness :
  ∃ r : Row,
    feature_engineering Example.sqrt8 Example.csv20 !! 0%nat = Some r ∧
    Example.csv20 !! 4%nat = Some (reading r) ∧
    Power_Consumption_kW <$> Example.csv20 !! 3%nat = Some (power_lag_1 r) ∧
    Power_Consumption_kW <$> Example.csv20 !! 0%nat = Some (power_lag_4 r).
Proof.
  destruct (feature_engineering Example.sqrt8 Example.csv20 !! 0%nat)
    as [r|] eqn:E; [|vm_compute in E; discriminate E].
  exists r. split; [reflexivity|].
  assert (Hraw : forallb Spec.reading_present Example.csv20 = true)
    by (vm_compute; reflexivity).
  assert (Hpw : forallb Spec.power_in_range Example.csv20 = true)
    by (vm_compute; reflexivity).
  destruct (engineered_row_is_causal Example.sqrt8 Example.csv20 0 r Hraw Hpw E)
    as (H0 & H1 & _ & H4 & _).
  split; [exact H0|]. split; [exact H1|exact H4].
Defined.

(** Twenty readings of 1.0 to 20.0 kW: the first engineered row is raw
    reading 4 (5.0 kW) and its lag-1 power is raw reading 3 (4.0 kW). *)
Example engineered_sample :
  length Example.frame20 = 16%nat ∧
  (Power_Consumption_kW ∘ reading) <$> Example.frame20 !! 0%nat = Some (of_Z 5) ∧
  power_lag_1 <$> Example.frame20 !! 0%nat = Some (of_Z 4).
Proof. repeat split; vm_compute; reflexivity. Qed.

Lemma short_series_fails_fast_witness :
  feature_engineering Example.sqrt8 (take 4 Example.csv20) = [] ∧
  startup Example.sqrt8 Example.lag_model (take 4 Example.csv20) = ValueError.
Proof.
  apply (short_series_fails_fast Example.sqrt8 Example.lag_model
           (take 4 Example.csv20)).
  vm_compute. lia.
Defined.

(** ** The service scores the model on the rows training held out *)

(** When start-up returns a cache and the training script's split of the
    same engineered frame succeeds, the cache's train rows are training's
    train rows and the rows of the cached table are training's test rows. *)
Theorem cache_matches_training_split (fsqrt : Q → Q) (model : Row → pyfloat)
    (csv : list Reading) (c : Cache) (X_train X_test : list Row) :
  startup fsqrt model csv = Ok c →
  Train.split (Train.df fsqrt csv) = Ok (X_train, X_test) →
  cache_train c = X_train ∧ row <$> cache_test c = X_test.
Proof.
  intros Hc Ht.
  apply startup_ok_rows in Hc as [Htr Hte].
  rewrite train_split_cases in Ht.
  destruct (_ =? 0); [discriminate|].
  injection Ht as <- <-. by rewrite Htr, Hte, predict_rows.
Qed.

Lemma cache_matches_training_split_witness :
  ∃ (c : Cache) (X_train X_test : list Row),
    startup Example.sqrt8 Example.lag_model Example.csv20 = Ok c ∧
    Train.split (Train.df Example.sqrt8 Example.csv20) = Ok (X_train, X_test) ∧
    cache_train c = X_train ∧ row <$> cache_test c = X_test.
Proof.
  destruct (startup Example.sqrt8 Example.lag_model Example.csv20) as [c|] eqn:Ec;
    [|vm_compute in Ec; discriminate Ec].
  destruct (Train.split (Train.df Example.sqrt8 Example.csv20))
    as [[X_train X_test]|] eqn:Et; [|vm_compute in Et; discriminate Et].
  exists c, X_train, X_test. split; [reflexivity|]. split; [reflexivity|].
  exact (cache_matches_training_split Example.sqrt8 Example.lag_model
           Example.csv20 c X_train X_test Ec Et).
Defined.

(** ** The metrics of the cache *)

Lemma Qsum_nonneg (l : list Q) :
  Forall (λ x, (0 <= x)%Q) l → (0 <= Pandas.Qsum l)%Q.
Proof.
  induction 1 as [|x l Hx _ IH]; unfold Pandas.Qsum in *; cbn [foldr]; lra.
Qed.

Lemma Qsum_zero_iff (l : list Q) :
  Forall (λ x, (0 <= x)%Q) l →
  (Pandas.Qsum l == 0)%Q ↔ Forall (λ x, (x == 0)%Q) l.
Proof.
  induction 1 as [|x l Hx Hl IH].
  - split; [constructor|reflexivity].
  - pose proof (Qsum_nonneg l Hl) as Hs.
    change (Pandas.Qsum (x :: l)) with (x + Pandas.Qsum l)%Q.
    split.
    + intros H. constructor; [lra|]. apply IH. lra.
    + intros H. apply Forall_cons in H as [H1 H2]. apply IH in H2. lra.
Qed.

Lemma Qlen_pos (l : list Q) : l ≠ [] → (0 < Pandas.Qlen l)%Q.
Proof.
  intros Hne. unfold Pandas.Qlen. destruct l as [|x l]; [done|].
  unfold Qlt. simpl. lia.
Qed.

Lemma Qmean_nonneg (l : list Q) :
  l ≠ [] → Forall (λ x, (0 <= x)%Q) l → (0 <= Pandas.Qmean l)%Q.
Proof.
  intros Hne Hl. unfold Pandas.Qmean.
  pose proof (Qsum_nonneg l Hl). pose proof (Qlen_pos l Hne) as Hp.
  apply Qle_shift_div_l; [done|lra].
Qed.

Lemma Qmean_zero_iff (l : list Q) :
  l ≠ [] → (Pandas.Qmean l == 0)%Q ↔ (Pandas.Qsum l == 0)%Q.
Proof.
  intros Hne. unfold Pandas.Qmean. pose proof (Qlen_pos l Hne) as Hp.
  split; intros H.
  - assert (E : (Pandas.Qsum l == Pandas.Qsum l / Pandas.Qlen l * Pandas.Qlen l)%Q)
      by (field; lra).
    rewrite E, H. lra.
  - rewrite H. field. lra.
Qed.

Lemma Qsq_nonneg (x : Q) : (0 <= Pandas.Qsq x)%Q.
Proof. unfold Pandas.Qsq. nra. Qed.

Lemma Qsq_zero_iff (x : Q) : (Pandas.Qsq x == 0)%Q ↔ (x == 0)%Q.
Proof. unfold Pandas.Qsq. split; intros H; nra. Qed.

Lemma Qabs_zero_iff (x : Q) : (Qabs x == 0)%Q ↔ (x == 0)%Q.
Proof.
  split; intros H.
  - revert H. apply Qabs_case; intros; lra.
  - rewrite H. reflexivity.
Qed.

Lemma SS_res_nonneg (a p : list Q) : (0 <= Sklearn.SS_res a p)%Q.
Proof.
  apply Qsum_nonneg, Forall_fmap, Forall_true. intros ap. apply Qsq_nonneg.
Qed.

Lemma SS_tot_nonneg (a : list Q) : (0 <= Sklearn.SS_tot a)%Q.
Proof.
  apply Qsum_nonneg, Forall_fmap, Forall_true. intros x. apply Qsq_nonneg.
Qed.

(** The targets the metrics see are the table's columns, row by row. *)
Lemma targets_zip (t : list PredRow) (a p : list Q) :
  y_test t = Finite <$> a → y_pred_all t = Finite <$> p →
  Forall2 (λ r ap, actual_kw r = Finite ap.1 ∧ predicted_kw r = Finite ap.2)
          t (zip a p).
Proof.
  unfold y_test, y_pred_all. revert a p.
  induction t as [|r t IH]; intros [|x a] [|y p] Ha Hp; try discriminate.
  - constructor.
  - rewrite !fmap_cons in Ha, Hp. injection Ha as Hx Ha. injection Hp as Hy Hp.
    simpl. constructor; [done|]. by apply IH.
Qed.

Lemma errors_zero_iff (t : list PredRow) (aps : list (Q * Q)) :
  Forall2 (λ r ap, actual_kw r = Finite ap.1 ∧ predicted_kw r = Finite ap.2) t aps →
  Forall (λ ap : Q * Q, (ap.1 - ap.2 == 0)%Q) aps ↔
  Forall (λ r, feqb (actual_kw r) (predicted_kw r) = true) t.
Proof.
  induction 1 as [|r ap t aps [Ha Hp] _ IH].
  - split; constructor.
  - rewrite !Forall_cons, IH, Ha, Hp. simpl.
    rewrite Qeq_bool_iff. split; intros [H1 H2]; (split; [lra|done]).
Qed.

(** The mean absolute error is never negative, and it is zero exactly
    when every prediction of the table equals the actual value. *)
Theorem MAE_zero_iff_exact (t : list PredRow) (mae : pyfloat) :
  MAE_VAL t = Ok mae →
  fle (of_Z 0) mae = true ∧
  (feqb mae (of_Z 0) = true ↔
   Forall (λ r, feqb (actual_kw r) (predicted_kw r) = true) t).
Proof.
  unfold MAE_VAL, Sklearn.mean_absolute_error, Sklearn.bind.
  destruct (Sklearn.check_reg_targets _ _) as [[a p]|] eqn:Ec; [|discriminate].
  intros [= <-].
  apply check_reg_targets_inv in Ec as (Ea & Ep & Hne & _).
  apply mapM_finite_value_Some in Ea, Ep.
  pose proof (targets_zip t a p Ea Ep) as Hz.
  assert (Hzne : Sklearn.Qabs_diff <$> zip a p ≠ []).
  { destruct t; [done|]. inversion Hz; subst. by rewrite fmap_cons. }
  assert (Hpos : Forall (λ x, (0 <= x)%Q) (Sklearn.Qabs_diff <$> zip a p)).
  { apply Forall_fmap, Forall_true. intros ap. apply Qabs_nonneg. }
  split.
  - simpl. apply Qle_bool_iff. by apply Qmean_nonneg.
  - rewrite <- (errors_zero_iff t (zip a p) Hz). simpl.
    rewrite Qeq_bool_iff. change (inject_Z 0) with 0%Q.
    rewrite Qmean_zero_iff, Qsum_zero_iff by done.
    rewrite Forall_fmap. apply Forall_iff. intros ap.
    unfold Sklearn.Qabs_diff, compose. apply Qabs_zero_iff.
Qed.

Lemma r2_ratio_le_1 (num den : Q) :
  (0 <= num)%Q → (0 <= den)%Q → ¬ (den == 0)%Q → (1 - num / den <= 1)%Q.
Proof.
  intros Hn Hd Hne.
  assert (Hpos : (0 < den)%Q) by (apply Qle_lteq in Hd as [H | H]; [done|]; exfalso; apply Hne; by symmetry).
  assert (H : (0 <= num / den)%Q) by (apply Qle_shift_div_l; [done|lra]).
  lra.
Qed.

(** The r2 the service holds always lies between 0 and 1. *)
Theorem R2_VAL_between_0_and_1 (t : list PredRow) (r2 : pyfloat) :
  R2_VAL t = Ok r2 →
  fle (of_Z 0) r2 = true ∧ fle r2 (of_Z 1) = true.
Proof.
  unfold R2_VAL, Sklearn.r2_score, Sklearn.bind.
  destruct (Sklearn.check_reg_targets _ _) as [[a p]|] eqn:Ec; [|discriminate].
  destruct (_ <? 2)%nat; [intros [= <-]; by split|].
  destruct (Qeq_bool (Sklearn.SS_tot a) 0) eqn:Ed; cbn [negb].
  - destruct (Qeq_bool (Sklearn.SS_res a p) 0); cbn [negb];
      intros [= <-]; by split.
  - apply Qeq_bool_neq in Ed.
    pose proof (r2_ratio_le_1 _ _ (SS_res_nonneg a p) (SS_tot_nonneg a) Ed) as Hle.
    unfold Py.max. cbn [flt of_Z].
    destruct (Qlt_bool (inject_Z 0) _) eqn:El; intros [= <-]; [|by split].
    apply Qlt_bool_iff in El. change (inject_Z 0) with 0%Q in El.
    split; apply Qle_bool_iff.
    + change (inject_Z 0) with 0%Q. lra.
    + change (inject_Z 1) with 1%Q. exact Hle.
Qed.

Lemma R2_VAL_between_0_and_1_witness :
  ∃ r2 : pyfloat,
    R2_VAL (predict Example.lag_model (df_test Example.frame20)) = Ok r2 ∧
    fle (of_Z 0) r2 = true ∧ fle r2 (of_Z 1) = true.
Proof.
  destruct (R2_VAL (predict Example.lag_model (df_test Example.frame20)))
    as [r2|] eqn:E; [|vm_compute in E; discriminate E].
  exists r2. split; [reflexivity|].
  exact (R2_VAL_between_0_and_1 _ r2 E).
Defined.

Lemma MAE_zero_iff_exact_witness :
  ∃ mae : pyfloat,
    MAE_VAL (predict Example.lag_model (df_test Example.frame20)) = Ok mae ∧
    fle (of_Z 0) mae = true.
Proof.
  destruct (MAE_VAL (predict Example.lag_model (df_test Example.frame20)))
    as [mae|] eqn:E; [|vm_compute in E; discriminate E].
  exists mae. split; [reflexivity|].
  exact (proj1 (MAE_zero_iff_exact _ mae E)).
Defined.

(** Predictions that equal the actual values on a table of two rows or
    more score an r2 of 1. *)
Theorem exact_predictions_score_1 (t : list PredRow) :
  (2 ≤ length t)%nat →
  table_finite t = true →
  Forall (λ r, feqb (actual_kw r) (predicted_kw r) = true) t →
  ∃ r2 : pyfloat, R2_VAL t = Ok r2 ∧ feqb r2 (of_Z 1) = true.
Proof.
  intros Hlen Hfin Hexact.
  destruct (check_reg_targets_ok t) as (a & p & Ea & Ep & Hc);
    [intros ->; simpl in Hlen; lia|done|].
  apply mapM_finite_value_Some in Ea, Ep.
  pose proof (targets_zip t a p Ea Ep) as Hz.
  assert (Hla : length a = length t).
  { apply (f_equal length) in Ea. unfold y_test in Ea.
    by rewrite !length_fmap in Ea. }
  assert (Hres : (Sklearn.SS_res a p == 0)%Q).
  { unfold Sklearn.SS_res. apply Qsum_zero_iff.
    - apply Forall_fmap, Forall_true. intros ap. apply Qsq_nonneg.
    - rewrite Forall_fmap. apply (errors_zero_iff t (zip a p) Hz) in Hexact.
      eapply Forall_impl; [exact Hexact|]. intros ap H.
      unfold compose, Sklearn.Qsq_diff. by apply Qsq_zero_iff. }
  unfold R2_VAL, Sklearn.r2_score, Sklearn.bind. rewrite Hc.
  destruct (Nat.ltb_spec (length a) 2) as [H|_]; [lia|].
  destruct (Qeq_bool (Sklearn.SS_tot a) 0) eqn:Ed; cbn [negb].
  - rewrite (Qeq_eq_bool _ _ Hres). cbn [negb]. by eexists.
  - apply Qeq_bool_neq in Ed.
    assert (Hone : (1 - Sklearn.SS_res a p / Sklearn.SS_tot a == 1)%Q).
    { rewrite Hres. field. exact Ed. }
    eexists. split; [reflexivity|].
    unfold Py.max. cbn [flt of_Z].
    rewrite (proj2 (Qlt_bool_iff _ _)).
    + cbn [feqb]. apply Qeq_bool_iff. change (inject_Z 1) with 1%Q. exact Hone.
    + change (inject_Z 0) with 0%Q. rewrite Hone. reflexivity.
Qed.

Lemma exact_predictions_score_1_witness :
  ∃ r2 : pyfloat,
    R2_VAL [Example.cached 0 0 0 3 3; Example.cached 1 0 0 5 5;
            Example.cached 2 0 1 4 4] = Ok r2 ∧
    feqb r2 (of_Z 1) = true.
Proof.
  apply (exact_predictions_score_1
           [Example.cached 0 0 0 3 3; Example.cached 1 0 0 5 5;
            Example.cached 2 0 1 4 4]).
  - vm_compute. lia.
  - vm_compute. reflexivity.
  - repeat constructor.
Defined.

(** ** [safe_float]: rounding twice, and order *)

Lemma round_half_even_comp (a b : Q) :
  (a == b)%Q → Py.round_half_even a = Py.round_half_even b.
Proof.
  intros H. unfold Py.round_half_even.
  rewrite (Qfloor_comp _ _ H).
  assert (E : (a - inject_Z (Qfloor b) ?= 1 # 2)%Q
              = (b - inject_Z (Qfloor b) ?= 1 # 2)%Q)
    by (apply Qcompare_comp; [by rewrite H|reflexivity]).
  by rewrite E.
Qed.

Lemma round_half_even_Z (n : Z) : Py.round_half_even (inject_Z n) = n.
Proof.
  unfold Py.round_half_even. rewrite Qfloor_Z.
  assert (E : (inject_Z n - inject_Z n ?= 1 # 2)%Q = Lt)
    by (apply Qlt_alt;
        assert (Hz : (inject_Z n - inject_Z n == 0)%Q) by ring;
        rewrite Hz; reflexivity).
  by rewrite E.
Qed.

Lemma round4_comp (a b : Q) :
  (a == b)%Q → Py.round (Finite a) 4 = Py.round (Finite b) 4.
Proof.
  intros H. unfold Py.round. f_equal.
  rewrite (round_half_even_comp (a * _) (b * inject_Z (10 ^ Z.of_nat 4)));
    [done|by rewrite H].
Qed.

Lemma round4_idempotent (x : pyfloat) :
  Py.round (Py.round x 4) 4 = Py.round x 4.
Proof.
  destruct x as [q| | |]; try reflexivity.
  unfold Py.round. f_equal.
  set (n := Py.round_half_even (q * _)).
  change (Z.to_pos (10 ^ Z.of_nat 4)) with 10000%positive.
  change (10 ^ Z.of_nat 4) with 10000.
  rewrite (round_half_even_comp _ (inject_Z n)); [by rewrite round_half_even_Z|].
  rewrite Qred_correct, Qmake_Qdiv. field.
Qed.

(** A value that went through [safe_float] is unchanged by going through
    it again, with one exception: a NaN that is not an instance of [float]
    (a [numpy.float32] NaN) is returned as NaN by the first call and turned
    into [None] by the second. *)
Theorem safe_float_idempotent (val : pyval) :
  (safe_float (returned (safe_float val)) = safe_float val ↔ val ≠ NpFloat32 NaN) ∧
  safe_float (NpFloat32 NaN) = Some NaN ∧
  safe_float (returned (safe_float (NpFloat32 NaN))) = None.
Proof.
  split; [|by split].
  destruct val as [|is_float x]; [by split|].
  destruct x as [q| | |].
  - unfold safe_float at 2 3. cbn [isnan]. rewrite andb_false_r.
    cbn [returned safe_float andb].
    change (isnan (Py.round (Finite q) 4)) with false. cbn iota.
    rewrite round4_idempotent. split; [discriminate|reflexivity].
  - unfold safe_float at 2 3. cbn [isnan]. rewrite andb_false_r.
    split; [discriminate|reflexivity].
  - unfold safe_float at 2 3. cbn [isnan]. rewrite andb_false_r.
    split; [discriminate|reflexivity].
  - destruct is_float.
    + split; [discriminate|reflexivity].
    + split; [discriminate|]. intros H. by destruct H.
Qed.

(** [safe_float] keeps the order of two values, whatever their classes:
    when [x <= y] (so neither is NaN), both come out as numbers, in the
    same order. *)
Theorem safe_float_monotone (x_is_float y_is_float : bool) (x y : pyfloat) :
  fle x y = true →
  ∃ rx ry : pyfloat,
    safe_float (PyNum x_is_float x) = Some rx ∧
    safe_float (PyNum y_is_float y) = Some ry ∧
    fle rx ry = true.
Proof.
  intros H.
  destruct x as [a| | |], y as [b| | |]; try discriminate;
    unfold safe_float; cbn [isnan]; rewrite !andb_false_r;
    try (do 2 eexists; repeat split; fail).
  exists (Py.round (Finite a) 4), (Py.round (Finite b) 4).
  repeat split. by apply round4_mono.
Qed.

Lemma safe_float_monotone_witness :
  ∃ rx ry : pyfloat,
    safe_float (PyFloat (Finite (12344 # 100000))) = Some rx ∧
    safe_float (NpFloat32 (Finite (12346 # 100000))) = Some ry ∧
    fle rx ry = true.
Proof.
  apply (safe_float_monotone true false
           (Finite (12344 # 100000)) (Finite (12346 # 100000))).
  reflexivity.
Defined.

(** ** The sizes of the two parts *)

(** For a frame of any length the reported sizes add up to the length of
    the frame, the test size is [ceil(len / 5)], the test part is empty
    only for an empty frame, and the train part is empty only for a frame
    of at most one row. *)
Theorem split_sizes {A} (df : list A) :
  (trainSize df + testSize df)%nat = length df ∧
  testRows df = testSize df ∧
  Z.of_nat (testSize df) = Qceiling (inject_Z (Z.of_nat (length df)) / 5) ∧
  (testSize df = 0%nat ↔ df = []) ∧
  (trainSize df = 0%nat ↔ (length df ≤ 1)%nat).
Proof.
  unfold trainSize, testSize, testRows, df_train, df_test,
    Pandas.iloc_to, Pandas.iloc_from.
  rewrite length_take, length_drop, split_idx_div.
  assert (Hc : Qceiling (inject_Z (Z.of_nat (length df)) / 5)
               = Z.of_nat (length df) - 4 * Z.of_nat (length df) / 5).
  { unfold Qceiling, Qfloor. simpl. rewrite Z.mul_1_r.
    change (Z.pos (1 * 5)%positive) with 5.
    Z.div_mod_to_equations. lia. }
  rewrite Hc, <- length_zero_iff_nil.
  repeat split; try (Z.div_mod_to_equations; lia).
Qed.

(** ** Feature importance *)

Lemma StronglySorted_lookup_2 {A} (R : relation A) (l : list A) :
  (∀ i j x y, (i < j)%nat → l !! i = Some x → l !! j = Some y → R x y) →
  StronglySorted R l.
Proof.
  induction l as [|x l IH]; intros H; constructor.
  - apply IH. intros i j a b Hij Ha Hb. by apply (H (S i) (S j) a b); [lia|..].
  - apply Forall_forall. intros y Hy.
    apply list_elem_of_lookup in Hy as [j Hj].
    by apply (H 0%nat (S j) x y); [lia|..].
Qed.

Lemma fst_zip_take {A B} (l : list A) (k : list B) :
  fst <$> zip l k = take (length k) l.
Proof.
  revert k. induction l as [|x l IH]; intros [|y k]; simpl; try done.
  by rewrite IH.
Qed.

(** The importance list holds each of the first [len(importances)]
    features once, with its importance, in descending order of importance;
    features of equal importance stay in the order of [FEATURES]. *)
Theorem feat_imp_sorted (feature_importances : list Q) :
  feat_imp feature_importances ≡ₚ zip FEATURES feature_importances ∧
  fst <$> feat_imp feature_importances
    ≡ₚ take (length feature_importances) FEATURES ∧
  StronglySorted Spec.importance_order (feat_imp feature_importances).
Proof.
  assert (Hperm : feat_imp feature_importances ≡ₚ zip FEATURES feature_importances)
    by apply stable_sort_perm.
  split; [exact Hperm|]. split; [by rewrite Hperm, fst_zip_take|].
  assert (Htotal : ∀ x y : string * Q, True → True →
            by_importance_desc x y = true ∨ by_importance_desc y x = true).
  { intros x y _ _. unfold by_importance_desc.
    destruct (Qle_bool y.2 x.2) eqn:E; [by left|right].
    apply Qle_bool_false_iff in E. apply Qle_bool_iff. lra. }
  assert (Htrans : ∀ x y z : string * Q,
            by_importance_desc x y = true → by_importance_desc y z = true →
            by_importance_desc x z = true).
  { intros x y z. unfold by_importance_desc. rewrite !Qle_bool_iff. lra. }
  assert (Hin : StronglySorted Spec.listed_before (zip FEATURES feature_importances)).
  { apply StronglySorted_lookup_2. intros i j x y Hij Hx Hy.
    apply lookup_zip_with_Some in Hx as (a & b & -> & Ha & _).
    apply lookup_zip_with_Some in Hy as (a' & b' & -> & Ha' & _).
    by exists i, j. }
  pose proof (stable_sort_stable by_importance_desc (λ _, True) Htotal Htrans
                Spec.listed_before (zip FEATURES feature_importances)
                (Forall_true _ _ (λ _, I)) Hin) as Hs.
  rewrite <- (list_fmap_id (feat_imp feature_importances)).
  eapply (StronglySorted_fmap_dom id _ _ (λ _, True));
    [by apply Forall_true| |exact Hs].
  intros x y _ _ [H1 H2]. unfold by_importance_desc, id in *. split.
  - by apply Qle_bool_iff.
  - intros E. apply H2, Qle_bool_iff. rewrite E. apply Qle_refl.
Qed.

(** With two features of the same importance, the one listed first stays
    first: "Current (A)" before "hour". *)
Example feat_imp_sample :
  feat_imp [1 # 10; 3 # 10; 0 # 1; 2 # 10; 3 # 10]
  = [("Current (A)"%string, 3 # 10); ("hour"%string, 3 # 10);
     ("Power Factor"%string, 2 # 10); ("Voltage (V)"%string, 1 # 10);
     ("Reactive Power (kVAR)"%string, 0 # 1)].
Proof. vm_compute. reflexivity. Qed.

(** ** The share of low power factors *)

Lemma filter_length_zero {A} (P : A → bool) (l : list A) :
  length (List.filter P l) = 0%nat ↔ Forall (λ x, P x = false) l.
Proof.
  induction l as [|x l IH]; simpl.
  - split; [constructor|done].
  - rewrite Forall_cons. destruct (P x); simpl; [|by rewrite IH; intuition].
    split; [lia|intros [? _]; discriminate].
Qed.

Lemma filter_length_full {A} (P : A → bool) (l : list A) :
  length (List.filter P l) = length l ↔ Forall (λ x, P x = true) l.
Proof.
  induction l as [|x l IH]; simpl.
  - split; [constructor|done].
  - rewrite Forall_cons. pose proof (filter_length_le P l).
    destruct (P x); simpl.
    + rewrite <- IH. split; [intros; split; [done|lia]|intros [_ ->]; done].
    + split; [lia|intros [? _]; discriminate].
Qed.

(** On an empty frame the share is NaN.  On any other frame it is a
    percentage between 0 and 100, which is 0 exactly when no row has a
    power factor below 0.85 and 100 exactly when every row has. *)
Theorem low_pf_pct_range (df : list Row) :
  Train.low_pf_pct [] = NaN ∧
  (df ≠ [] →
   ∃ q : Q, Train.low_pf_pct df = Finite q ∧
     (0 <= q <= 100)%Q ∧
     ((q == 0)%Q ↔ Forall (λ r, Train.Low_PF_Flag r = false) df) ∧
     ((q == 100)%Q ↔ Forall (λ r, Train.Low_PF_Flag r = true) df)).
Proof.
  split; [reflexivity|]. intros Hne.
  unfold Train.low_pf_pct.
  setoid_rewrite <- filter_length_zero. setoid_rewrite <- filter_length_full.
  pose proof (filter_length_le Train.Low_PF_Flag df) as Hle.
  set (c := length (List.filter Train.Low_PF_Flag df)) in *.
  assert (Hn : (0 < length df)%nat) by (destruct df; [done|simpl; lia]).
  set (n := length df) in *.
  assert (Hn0 : Qeq_bool (inject_Z (Z.of_nat n)) 0 = false).
  { apply not_true_iff_false. intros E. apply Qeq_bool_iff in E.
    unfold Qeq in E. simpl in E. lia. }
  unfold fdiv, of_Z. rewrite Hn0.
  eexists. split; [reflexivity|].
  assert (HnQ : (0 < inject_Z (Z.of_nat n))%Q) by (unfold Qlt; simpl; lia).
  assert (HcQ : (0 <= inject_Z (Z.of_nat c))%Q) by (unfold Qle; simpl; lia).
  assert (HcnQ : (inject_Z (Z.of_nat c) <= inject_Z (Z.of_nat n))%Q)
    by (unfold Qle; simpl; lia).
  set (cq := inject_Z (Z.of_nat c)) in *. set (nq := inject_Z (Z.of_nat n)) in *.
  assert (Hdiv : (cq / nq * nq == cq)%Q) by (field; lra).
  assert (Hr0 : (0 <= cq / nq)%Q) by (apply Qle_shift_div_l; lra).
  assert (Hr1 : (cq / nq <= 1)%Q) by (apply Qle_shift_div_r; lra).
  split; [lra|]. split.
  - split; intros H.
    + assert (Hc0 : (cq == 0)%Q) by nra.
      unfold cq, Qeq in Hc0. simpl in Hc0. lia.
    + assert (Hc0 : (cq == 0)%Q) by (unfold cq; rewrite H; reflexivity).
      rewrite Hc0. field. lra.
  - split; intros H.
    + assert (Hc0 : (cq == nq)%Q) by nra.
      unfold cq, nq, Qeq in Hc0. simpl in Hc0. lia.
    + assert (Hc0 : (cq == nq)%Q) by (unfold cq, nq; rewrite H; reflexivity).
      rewrite Hc0. field. lra.
Qed.

Lemma low_pf_pct_range_witness :
  ∃ q : Q, Train.low_pf_pct Example.frame20 = Finite q ∧ (0 <= q <= 100)%Q.
Proof.
  destruct (proj2 (low_pf_pct_range Example.frame20)) as (q & Hq & Hr & _).
  - vm_compute. discriminate.
  - by exists q.
Defined.

(** ** Mean, maximum and minimum of finite values *)

Lemma notna_values_finite (l : list pyfloat) :
  Forall (λ x, isfinite x = true) l → Pandas.notna_values l = l.
Proof.
  intros H. apply filter_all. eapply Forall_impl; [exact H|].
  intros x Hx. by destruct x.
Qed.

Lemma finite_list (l : list pyfloat) :
  Forall (λ x, isfinite x = true) l → ∃ qs : list Q, l = Finite <$> qs.
Proof.
  induction 1 as [|x l Hx _ [qs ->]]; [by exists []|].
  destruct x as [q| | |]; try discriminate. by exists (q :: qs).
Qed.


Lemma fsum_finite (qs : list Q) :
  ∃ s : Q, Pandas.fsum (Finite <$> qs) = Finite s ∧ (s == Pandas.Qsum qs)%Q.
Proof.
  unfold Pandas.fsum, Pandas.Qsum.
  induction qs as [|q qs (s & IH & Hs)].
  - exists (inject_Z 0). split; reflexivity.
  - rewrite fmap_cons. cbn [foldr]. rewrite IH.
    exists (q + s)%Q. split; [reflexivity|]. by rewrite Hs.
Qed.

Lemma Qsum_bounds (lo hi : Q) (qs : list Q) :
  Forall (λ q, (lo <= q <= hi)%Q) qs →
  (Pandas.Qlen qs * lo <= Pandas.Qsum qs <= Pandas.Qlen qs * hi)%Q.
Proof.
  unfold Pandas.Qlen, Pandas.Qsum.
  induction 1 as [|q qs Hq _ IH]; cbn [foldr length].
  - change (inject_Z (Z.of_nat 0)) with 0%Q. lra.
  - rewrite Nat2Z.inj_succ, <- Z.add_1_r, inject_Z_plus.
    change (inject_Z 1) with 1%Q. lra.
Qed.

Lemma mean_finite_eq (qs : list Q) :
  qs ≠ [] →
  Pandas.mean (Finite <$> qs)
  = fdiv (Pandas.fsum (Finite <$> qs)) (of_Z (Z.of_nat (length qs))).
Proof.
  intros Hne. unfold Pandas.mean.
  rewrite notna_values_finite by (apply Forall_fmap, Forall_true; done).
  destruct qs as [|q qs]; [done|].
  rewrite fmap_cons. cbn [length]. by rewrite length_fmap.
Qed.

Lemma mean_between (l : list pyfloat) (lo hi : Q) :
  l ≠ [] →
  Forall (λ x, fle (Finite lo) x = true ∧ fle x (Finite hi) = true) l →
  Forall (λ x, isfinite x = true) l →
  ∃ m : Q, Pandas.mean l = Finite m ∧ (lo <= m <= hi)%Q.
Proof.
  intros Hne Hb Hfin.
  destruct (finite_list l Hfin) as [qs ->].
  assert (Hqne : qs ≠ []) by (intros ->; done).
  rewrite mean_finite_eq by done.
  destruct (fsum_finite qs) as (s & -> & Hs).
  pose proof (Qlen_pos qs Hqne) as Hpos. unfold Pandas.Qlen in Hpos.
  assert (Hbq : Forall (λ q, (lo <= q <= hi)%Q) qs).
  { rewrite Forall_fmap in Hb. eapply Forall_impl; [exact Hb|].
    intros q [H1 H2]. simpl in *. apply Qle_bool_iff in H1, H2. done. }
  apply Qsum_bounds in Hbq. unfold Pandas.Qlen in Hbq.
  unfold fdiv, of_Z.
  set (n := inject_Z (Z.of_nat (length qs))) in *.
  assert (Hn0 : Qeq_bool n 0 = false).
  { apply not_true_iff_false. intros H. apply Qeq_bool_iff in H. lra. }
  rewrite Hn0. eexists. split; [reflexivity|].
  split.
  - apply Qle_shift_div_l; [done|]. lra.
  - apply Qle_shift_div_r; [done|]. lra.
Qed.

Lemma fmax_cases (a b : pyfloat) :
  isnan a = false → isnan b = false →
  (Pandas.fmax a b = a ∨ Pandas.fmax a b = b) ∧
  fle a (Pandas.fmax a b) = true ∧ fle b (Pandas.fmax a b) = true.
Proof.
  intros Ha Hb. unfold Pandas.fmax.
  rewrite flt_fle_false by done.
  destruct (fle b a) eqn:E; simpl.
  - repeat split; [by left|by apply fle_refl|done].
  - destruct (fle_total a b Ha Hb) as [H | H]; [|congruence].
    repeat split; [by right|done|by apply fle_refl].
Qed.

Lemma fmin_cases (a b : pyfloat) :
  isnan a = false → isnan b = false →
  (Pandas.fmin a b = a ∨ Pandas.fmin a b = b) ∧
  fle (Pandas.fmin a b) a = true ∧ fle (Pandas.fmin a b) b = true.
Proof.
  intros Ha Hb. unfold Pandas.fmin.
  rewrite flt_fle_false by done.
  destruct (fle a b) eqn:E; simpl.
  - repeat split; [by left|by apply fle_refl|done].
  - destruct (fle_total a b Ha Hb) as [H | H]; [congruence|].
    repeat split; [by right|done|by apply fle_refl].
Qed.

Lemma foldl_fmax_spec (a : list pyfloat) (x : pyfloat) :
  isnan x = false → Forall (λ y, isnan y = false) a →
  foldl Pandas.fmax x a ∈ x :: a ∧
  Forall (λ y, fle y (foldl Pandas.fmax x a) = true) (x :: a).
Proof.
  revert x. induction a as [|y a IH]; intros x Hx Ha.
  - simpl. split; [by left|]. constructor; [by apply fle_refl|constructor].
  - apply Forall_cons in Ha as [Hy Ha]. cbn [foldl].
    destruct (fmax_cases x y Hx Hy) as (Hor & Hxm & Hym).
    assert (Hm : isnan (Pandas.fmax x y) = false) by (destruct Hor as [-> | ->]; done).
    destruct (IH (Pandas.fmax x y) Hm Ha) as [Hin Hall].
    apply Forall_cons in Hall as [Hmm Hall].
    split.
    + apply elem_of_cons in Hin as [-> | Hin].
      * destruct Hor as [-> | ->]; [by left|right; by left].
      * right. by right.
    + constructor; [by eapply fle_trans|].
      constructor; [by eapply fle_trans|done].
Qed.

Lemma foldl_fmin_spec (a : list pyfloat) (x : pyfloat) :
  isnan x = false → Forall (λ y, isnan y = false) a →
  foldl Pandas.fmin x a ∈ x :: a ∧
  Forall (λ y, fle (foldl Pandas.fmin x a) y = true) (x :: a).
Proof.
  revert x. induction a as [|y a IH]; intros x Hx Ha.
  - simpl. split; [by left|]. constructor; [by apply fle_refl|constructor].
  - apply Forall_cons in Ha as [Hy Ha]. cbn [foldl].
    destruct (fmin_cases x y Hx Hy) as (Hor & Hxm & Hym).
    assert (Hm : isnan (Pandas.fmin x y) = false) by (destruct Hor as [-> | ->]; done).
    destruct (IH (Pandas.fmin x y) Hm Ha) as [Hin Hall].
    apply Forall_cons in Hall as [Hmm Hall].
    split.
    + apply elem_of_cons in Hin as [-> | Hin].
      * destruct Hor as [-> | ->]; [by left|right; by left].
      * right. by right.
    + constructor; [by eapply fle_trans|].
      constructor; [by eapply fle_trans|done].
Qed.

Lemma max_spec (l : list pyfloat) :
  l ≠ [] → Forall (λ x, isfinite x = true) l →
  Pandas.max l ∈ l ∧ Forall (λ y, fle y (Pandas.max l) = true) l.
Proof.
  intros Hne Hfin. unfold Pandas.max. rewrite notna_values_finite by done.
  apply finite_notna in Hfin.
  destruct l as [|x a]; [done|].
  apply Forall_cons in Hfin as [Hx Ha]. by apply foldl_fmax_spec.
Qed.

Lemma min_spec (l : list pyfloat) :
  l ≠ [] → Forall (λ x, isfinite x = true) l →
  Pandas.min l ∈ l ∧ Forall (λ y, fle (Pandas.min l) y = true) l.
Proof.
  intros Hne Hfin. unfold Pandas.min. rewrite notna_values_finite by done.
  apply finite_notna in Hfin.
  destruct l as [|x a]; [done|].
  apply Forall_cons in Hfin as [Hx Ha]. by apply foldl_fmin_spec.
Qed.

(** On a non-empty list of finite values the minimum and the maximum are
    values of the list, and the mean is a finite value between them. *)
Lemma min_mean_max (l : list pyfloat) :
  l ≠ [] → Forall (λ x, isfinite x = true) l →
  isfinite (Pandas.min l) = true ∧ isfinite (Pandas.mean l) = true ∧
  isfinite (Pandas.max l) = true ∧
  fle (Pandas.min l) (Pandas.mean l) = true ∧
  fle (Pandas.mean l) (Pandas.max l) = true.
Proof.
  intros Hne Hfin.
  destruct (max_spec l Hne Hfin) as [Hmax_in Hmax].
  destruct (min_spec l Hne Hfin) as [Hmin_in Hmin].
  rewrite Forall_forall in Hfin.
  pose proof (Hfin _ Hmax_in) as Hfmax. pose proof (Hfin _ Hmin_in) as Hfmin.
  destruct (Pandas.max l) as [hi| | |] eqn:Emax; try discriminate.
  destruct (Pandas.min l) as [lo| | |] eqn:Emin; try discriminate.
  destruct (mean_between l lo hi Hne) as (m & -> & Hlo & Hhi).
  - rewrite Forall_forall in Hmax, Hmin |- *. intros x Hx. split; auto.
  - by apply Forall_forall.
  - repeat split; by apply Qle_bool_iff.
Qed.

(** ** [/forecast]: today's hourly profile *)

Lemma table_finite_actual (t : list PredRow) :
  table_finite t = true → Forall (λ r, isfinite (actual_kw r) = true) t.
Proof.
  intros H. unfold table_finite in H. rewrite forallb_forall in H.
  apply Forall_forall. intros r Hr. apply list_elem_of_In in Hr.
  specialize (H r Hr). by apply andb_true_iff in H as [H _].
Qed.

Lemma table_finite_sublist (t t' : list PredRow) :
  (∀ r, In r t' → In r t) → table_finite t = true → table_finite t' = true.
Proof.
  intros Hsub H. unfold table_finite in *. rewrite forallb_forall in *.
  intros r Hr. by apply H, Hsub.
Qed.

Lemma hourly_loc (t : list PredRow) (h : Z) :
  0 <= h < 24 →
  Pandas.loc h (hourly t)
  = Some (match Spec.recent_at t h with
          | [] => (NaN, NaN)
          | g => (Pandas.mean (actual_kw <$> g), Pandas.mean (predicted_kw <$> g))
          end).
Proof.
  intros Hh. unfold hourly.
  rewrite loc_reindex by (apply elem_of_seqZ; lia).
  rewrite lookup_fmap, groupby_lookup.
  unfold Spec.recent_at, recent_96, Pandas.tail, hour_of.
  by destruct (List.filter _ _).
Qed.

Lemma safe_float_finite (is_float : bool) (x : pyfloat) :
  isfinite x = true → safe_float (PyNum is_float x) = Some (Py.round x 4).
Proof. destruct x, is_float; done. Qed.

(** For a cached table of finite values and an hour [h] of the day, entry
    [h] of today's profile is computed from the rows of hour [h] among the
    last 96 rows of the table: without such a row, [actual] and
    [predicted] are both null; otherwise they are the means of the actual
    and of the predicted values of these rows, rounded to 4 decimals.
    Rows before the last 96 never matter. *)
Theorem forecast24h_hourly_means (table : list PredRow) (h : Z) :
  table_finite table = true →
  0 <= h < 24 →
  forecast24h table = forecast24h (Pandas.tail 96 table) ∧
  ∃ e : TodayEntry,
    forecast24h table !! Z.to_nat h = Some e ∧
    fe_hour e = h ∧
    match Spec.recent_at table h with
    | [] => fe_actual e = None ∧ fe_predicted e = None
    | g => fe_actual e = Some (Py.round (Pandas.mean (actual_kw <$> g)) 4) ∧
           fe_predicted e = Some (Py.round (Pandas.mean (predicted_kw <$> g)) 4) ∧
           isfinite (Pandas.mean (actual_kw <$> g)) = true ∧
           isfinite (Pandas.mean (predicted_kw <$> g)) = true
    end.
Proof.
  intros Hfin Hh. split.
  { unfold forecast24h, hourly, recent_96, Pandas.tail.
    rewrite length_drop, drop_drop.
    by replace (length table - 96 + (length table - (length table - 96) - 96))%nat
      with (length table - 96)%nat by lia. }
  exists (today_entry (hourly table) h). split.
  { unfold forecast24h. rewrite list_lookup_fmap.
    rewrite (lookup_seqZ_lt 0 24 (Z.to_nat h)) by lia.
    simpl. do 2 f_equal. lia. }
  split; [done|].
  unfold today_entry. cbn [fe_actual fe_predicted].
  rewrite hourly_loc by done.
  destruct (Spec.recent_at table h) as [|r g] eqn:E; [done|].
  assert (Hsub : ∀ x, In x (r :: g) → In x table).
  { intros x Hx. rewrite <- E in Hx. unfold Spec.recent_at in Hx.
    apply filter_In in Hx as [Hx _].
    apply list_elem_of_In. apply list_elem_of_In in Hx.
    eapply (subseteq_drop (length table - 96)). exact Hx. }
  pose proof (table_finite_sublist table (r :: g) Hsub Hfin) as Hg.
  destruct (min_mean_max (actual_kw <$> r :: g)) as (_ & Ha & _); [done|..].
  { apply Forall_fmap. by apply table_finite_actual. }
  destruct (min_mean_max (predicted_kw <$> r :: g)) as (_ & Hp & _); [done|..].
  { apply Forall_fmap. by apply table_finite_notna. }
  cbn [fst snd]. rewrite !safe_float_finite by done. done.
Qed.

Lemma forecast24h_hourly_means_witness :
  ∃ e : TodayEntry,
    forecast24h Example.small_table !! Z.to_nat 1 = Some e ∧
    fe_hour e = 1 ∧
    fe_actual e = Some (Finite 7) ∧
    fe_predicted e = Some (Finite (53667 # 10000)).
Proof.
  destruct (proj2 (forecast24h_hourly_means Example.small_table 1 eq_refl
                     (conj (Z.le_0_1) eq_refl)))
    as (e & He & Hhour & Hrest).
  exists e. split; [exact He|]. split; [exact Hhour|].
  vm_compute in He. injection He as <-. split; vm_compute; reflexivity.
Defined.

(** ** [/forecast]: the 7-day forecast *)

Lemma weeklyForecast_lookup (now_weekday : Z) (t : list PredRow) (i : Z) :
  1 <= i <= 7 →
  weeklyForecast now_weekday t !! Z.to_nat (i - 1)
  = Some (week_entry now_weekday t i).
Proof.
  intros Hi. unfold weeklyForecast. rewrite list_lookup_fmap.
  rewrite (lookup_seqZ_lt 1 7 (Z.to_nat (i - 1))) by lia.
  simpl. do 2 f_equal. lia.
Qed.

(** The seven entries are the next seven days in order, starting with
    tomorrow: their labels are the day names rotated to tomorrow's weekday,
    so that every weekday appears exactly once, and an entry is flagged as
    weekend exactly when its label is "Sat" or "Sun". *)
Theorem weeklyForecast_covers_week (now_weekday : Z) (t : list PredRow) :
  0 <= now_weekday < 7 →
  wf_days_ahead <$> weeklyForecast now_weekday t = seqZ 1 7 ∧
  wf_dayLabel <$> weeklyForecast now_weekday t
  = rotate (Z.to_nat now_weekday + 1) day_names ∧
  wf_dayLabel <$> weeklyForecast now_weekday t ≡ₚ day_names ∧
  Forall (λ e, wf_isWeekend e = true ↔
               (wf_dayLabel e = "Sat"%string ∨ wf_dayLabel e = "Sun"%string))
         (weeklyForecast now_weekday t).
Proof.
  intros Hnw.
  assert (Hcases : now_weekday = 0 ∨ now_weekday = 1 ∨ now_weekday = 2 ∨
                   now_weekday = 3 ∨ now_weekday = 4 ∨ now_weekday = 5 ∨
                   now_weekday = 6) by lia.
  assert (Hlabels : wf_dayLabel <$> weeklyForecast now_weekday t
                    = rotate (Z.to_nat now_weekday + 1) day_names).
  { destruct Hcases as [-> | [-> | [-> | [-> | [-> | [-> | ->]]]]]]; reflexivity. }
  split; [reflexivity|]. split; [exact Hlabels|]. split.
  - rewrite Hlabels. unfold rotate. rewrite Permutation_app_comm.
    by rewrite take_drop.
  - unfold weeklyForecast. apply Forall_fmap, Forall_forall. intros i Hi.
    apply elem_of_seqZ in Hi. unfold compose.
    assert (Hi' : i = 1 ∨ i = 2 ∨ i = 3 ∨ i = 4 ∨ i = 5 ∨ i = 6 ∨ i = 7) by lia.
    destruct Hcases as [-> | [-> | [-> | [-> | [-> | [-> | ->]]]]]];
      destruct Hi' as [-> | [-> | [-> | [-> | [-> | [-> | ->]]]]]];
      cbn [wf_isWeekend wf_dayLabel week_entry];
      (split; [intros H; vm_compute in H; try discriminate H;
               vm_compute; auto
              |intros [H | H]; vm_compute in H; try discriminate H;
               vm_compute; reflexivity]).
Qed.

Lemma weeklyForecast_covers_week_witness :
  wf_dayLabel <$> weeklyForecast 4 Example.small_table
  = ["Sat"; "Sun"; "Mon"; "Tue"; "Wed"; "Thu"; "Fri"]%string.
Proof.
  refine (proj1 (proj2 (weeklyForecast_covers_week 4 Example.small_table _))).
  lia.
Defined.

Lemma filter_table_finite (P : PredRow → bool) (t : list PredRow) :
  table_finite t = true → table_finite (List.filter P t) = true.
Proof.
  apply table_finite_sublist. intros r Hr. by apply filter_In in Hr as [Hr _].
Qed.

Lemma preds_finite (t : list PredRow) :
  table_finite t = true →
  Forall (λ x, isfinite x = true) (predicted_kw <$> t).
Proof. intros H. apply Forall_fmap. by apply table_finite_notna. Qed.

(** On a non-empty group of rows with finite values in a column: the
    maximum of the column is finite, its rounded value is the rounded
    value of one of the rows, and no rounded value exceeds it. *)
Lemma peak_of_group (col : PredRow → pyfloat) (g : list PredRow) :
  g ≠ [] → Forall (λ r, isfinite (col r) = true) g →
  isfinite (Pandas.max (col <$> g)) = true ∧
  Forall (λ r, fle (Py.round (col r) 4) (Py.round (Pandas.max (col <$> g)) 4) = true) g ∧
  Exists (λ r, Py.round (col r) 4 = Py.round (Pandas.max (col <$> g)) 4) g.
Proof.
  intros Hne Hfin.
  assert (Hl : Forall (λ x, isfinite x = true) (col <$> g)) by by apply Forall_fmap.
  assert (Hlne : col <$> g ≠ []) by (by destruct g).
  destruct (min_mean_max _ Hlne Hl) as (_ & _ & Hmax & _).
  destruct (max_spec _ Hlne Hl) as [Hin Hall].
  split; [exact Hmax|]. split.
  - rewrite Forall_fmap in Hall.
    rewrite Forall_forall in Hall, Hfin |- *. intros r Hr.
    apply round4_mono; [by apply Hfin|done|by apply Hall].
  - apply list_elem_of_fmap in Hin as (r & Hr & Hin).
    apply Exists_exists. exists r. split; [done|]. by rewrite Hr.
Qed.

(** The same for the minimum. *)
Lemma low_of_group (col : PredRow → pyfloat) (g : list PredRow) :
  g ≠ [] → Forall (λ r, isfinite (col r) = true) g →
  isfinite (Pandas.min (col <$> g)) = true ∧
  Forall (λ r, fle (Py.round (Pandas.min (col <$> g)) 4) (Py.round (col r) 4) = true) g.
Proof.
  intros Hne Hfin.
  assert (Hl : Forall (λ x, isfinite x = true) (col <$> g)) by by apply Forall_fmap.
  assert (Hlne : col <$> g ≠ []) by (by destruct g).
  destruct (min_mean_max _ Hlne Hl) as (Hmin & _).
  destruct (min_spec _ Hlne Hl) as [Hin Hall].
  split; [exact Hmin|].
  rewrite Forall_fmap in Hall.
  rewrite Forall_forall in Hall, Hfin |- *. intros r Hr.
  apply round4_mono; [done|by apply Hfin|by apply Hall].
Qed.

(** For a cached table of finite values, entry [i] of the 7-day forecast
    ([1 <= i <= 7]) is computed from the rows whose weekday is that of the
    day [i] days ahead.  Without such a row the peak and the average are
    both 0.  Otherwise the peak is the largest of the predictions of these
    rows, rounded to 4 decimals: the rounded prediction of one of them,
    which no rounded prediction of these rows exceeds. *)
Theorem weeklyForecast_peak (now_weekday : Z) (t : list PredRow) (i : Z) :
  table_finite t = true →
  1 <= i <= 7 →
  ∃ e : WeekEntry,
    weeklyForecast now_weekday t !! Z.to_nat (i - 1) = Some e ∧
    wf_days_ahead e = i ∧
    match Spec.rows_on t ((now_weekday + i) mod 7) with
    | [] => wf_peakPredicted e = Some (of_Z 0) ∧
            wf_avgPredicted e = Some (of_Z 0)
    | g => ∃ pk : pyfloat,
             wf_peakPredicted e = Some pk ∧
             Forall (λ r, fle (Py.round (predicted_kw r) 4) pk = true) g ∧
             Exists (λ r, Py.round (predicted_kw r) 4 = pk) g
    end.
Proof.
  intros Hfin Hi. eexists. split; [by apply weeklyForecast_lookup|].
  split; [done|].
  unfold week_entry, weekday_after, day_rows.
  cbn [wf_peakPredicted wf_avgPredicted].
  fold (Spec.rows_on t ((now_weekday + i) mod 7)).
  pose proof (filter_table_finite (λ r, dayofweek (row r) =? (now_weekday + i) mod 7)
                t Hfin) as Hg.
  fold (Spec.rows_on t ((now_weekday + i) mod 7)) in Hg.
  destruct (Spec.rows_on t ((now_weekday + i) mod 7)) as [|r g] eqn:E.
  - split; reflexivity.
  - destruct (peak_of_group predicted_kw (r :: g)) as (Hmax & Hall & Hex);
      [done|by apply table_finite_notna|].
    eexists. split; [by apply safe_float_finite|]. by split.
Qed.

Lemma weeklyForecast_peak_witness :
  ∃ e : WeekEntry,
    weeklyForecast 0 Example.small_table !! Z.to_nat (2 - 1) = Some e ∧
    wf_dayLabel e = "Wed"%string ∧
    wf_peakPredicted e = Some (Finite 13).
Proof.
  destruct (weeklyForecast_peak 0 Example.small_table 2 eq_refl)
    as (e & He & _); [lia|].
  exists e. split; [exact He|].
  vm_compute in He. injection He as <-. repeat split.
Defined.

(** ** [/peak]: the overall statistics *)

Lemma first_ranked (t : list PredRow) :
  t ≠ [] → table_finite t = true →
  ∃ a : nat * PredRow,
    Pandas.nlargest_index 10 predicted_kw t !! 0%nat = Some a ∧
    a.2 ∈ t ∧
    Forall (λ r, fle (predicted_kw r) (predicted_kw a.2) = true) t.
Proof.
  intros Hne Hfin.
  destruct (table_finite_notna t Hfin) as [Hfinite Hna].
  rewrite (nlargest_index_notna predicted_kw 10 t Hna).
  pose proof (sorted_ranks_before t Hna) as Hs.
  set (s := Pandas.stable_sort (Pandas.by_descending predicted_kw) (Pandas.indexed t)) in *.
  assert (Hperm : s ≡ₚ Pandas.indexed t) by apply stable_sort_perm.
  destruct s as [|a s'] eqn:Es.
  { apply Permutation_nil_l in Hperm. destruct t; [done|discriminate]. }
  exists a. split; [reflexivity|].
  assert (Hmem : ∀ b, b ∈ a :: s' ↔ t !! b.1 = Some b.2).
  { intros [j r]. rewrite Hperm. apply elem_of_indexed. }
  apply StronglySorted_cons in Hs as [Hhead _].
  split.
  - apply list_elem_of_lookup. exists a.1. apply Hmem. by left.
  - apply Forall_forall. intros r Hr.
    apply list_elem_of_lookup in Hr as [j Hj].
    assert (Hjr : (j, r) ∈ a :: s') by (by apply Hmem).
    apply elem_of_cons in Hjr as [<- | Hjr].
    + simpl. apply fle_refl. rewrite Forall_lookup in Hna. by eapply Hna.
    + rewrite Forall_forall in Hhead.
      destruct (Hhead _ Hjr) as [H | [H _]]; [by apply flt_fle|by apply feqb_fle_sym].
Qed.

Lemma round4_feq (x y : pyfloat) :
  isfinite x = true → isfinite y = true →
  fle x y = true → fle y x = true → Py.round x 4 = Py.round y 4.
Proof.
  destruct x as [a| | |], y as [b| | |]; try discriminate.
  intros _ _ H1 H2. simpl in H1, H2. apply Qle_bool_iff in H1, H2.
  apply round4_comp. lra.
Qed.

(** For a non-empty cached table of finite values, whatever the class of
    the prediction column: [minPredKW], [maxPredKW] and [maxActKW] are
    numbers; every prediction, rounded to 4 decimals, lies between
    [minPredKW] and [maxPredKW], and no rounded actual value exceeds
    [maxActKW]; and [maxPredKW] is the [predictedKW] of the first entry of
    the top-10 list. *)
Theorem stats_ordered (pred_is_float : bool) (t : list PredRow) :
  t ≠ [] → table_finite t = true →
  ∃ mn mx amx : pyfloat,
    minPredKW (stats pred_is_float t) = Some mn ∧
    maxPredKW (stats pred_is_float t) = Some mx ∧
    maxActKW (stats pred_is_float t) = Some amx ∧
    fle mn mx = true ∧
    Forall (λ r, fle mn (Py.round (predicted_kw r) 4) = true ∧
                 fle (Py.round (predicted_kw r) 4) mx = true ∧
                 fle (Py.round (actual_kw r) 4) amx = true) t ∧
    predictedKW <$> top10 t !! 0%nat = Some (Some mx).
Proof.
  intros Hne Hfin.
  pose proof (preds_finite t Hfin) as Hp.
  assert (Hpne : predicted_kw <$> t ≠ []) by (by destruct t).
  destruct (table_finite_notna t Hfin) as [Hpf _].
  pose proof (table_finite_actual t Hfin) as Haf.
  destruct (peak_of_group predicted_kw t Hne Hpf) as (Hmax & Hmax_all & _).
  destruct (low_of_group predicted_kw t Hne Hpf) as (Hmin & Hmin_all).
  destruct (peak_of_group actual_kw t Hne Haf) as (Hamax & Hamax_all & _).
  unfold stats. cbn [minPredKW maxPredKW maxActKW].
  rewrite !safe_float_finite by done.
  do 3 eexists. do 3 (split; [reflexivity|]).
  split.
  { destruct t as [|r0 t']; [done|].
    apply Forall_cons in Hmin_all as [Hlo _].
    apply Forall_cons in Hmax_all as [Hhi _].
    by eapply fle_trans. }
  split.
  { rewrite Forall_forall in Hmax_all, Hmin_all, Hamax_all |- *.
    intros r Hr. repeat split; auto. }
  destruct (first_ranked t Hne Hfin) as (a & Hfirst & Hin & Hall).
  destruct (max_spec _ Hpne Hp) as [Hmax_in Hmax_le].
  unfold top10, top10_df, Pandas.nlargest.
  rewrite !list_lookup_fmap, Hfirst. cbn [fmap option_fmap option_map].
  unfold top10_entry. cbn [predictedKW].
  assert (Hfa : isfinite (predicted_kw a.2) = true).
  { rewrite Forall_fmap, Forall_forall in Hp. by apply Hp. }
  rewrite safe_float_finite by done.
  do 2 f_equal. apply round4_feq; [done|done|..].
  - rewrite Forall_fmap, Forall_forall in Hmax_le. by apply Hmax_le.
  - apply list_elem_of_fmap in Hmax_in as (r & -> & Hr).
    rewrite Forall_forall in Hall. by apply Hall.
Qed.

Lemma stats_ordered_witness :
  ∃ mn mx : pyfloat,
    minPredKW (stats false Example.small_table) = Some mn ∧
    maxPredKW (stats false Example.small_table) = Some mx ∧
    fle mn mx = true ∧
    predictedKW <$> top10 Example.small_table !! 0%nat = Some (Some mx).
Proof.
  destruct (stats_ordered false Example.small_table)
    as (mn & mx & amx & H1 & H2 & _ & H4 & _ & H6).
  - discriminate.
  - vm_compute. reflexivity.
  - exists mn, mx. repeat split; assumption.
Defined.

(** ** [/peak]: the daily peak table *)

Ltac date_bools :=
  unfold date_leb;
  rewrite ?orb_true_iff, ?andb_true_iff, ?Z.ltb_lt, ?Z.eqb_eq, ?Z.leb_le.

Lemma date_leb_total (a b : Z * Z * Z) :
  date_leb a b = true ∨ date_leb b a = true.
Proof. destruct a as [[y1 m1] d1], b as [[y2 m2] d2]. date_bools. lia. Qed.

Lemma date_leb_trans (a b c : Z * Z * Z) :
  date_leb a b = true → date_leb b c = true → date_leb a c = true.
Proof.
  destruct a as [[y1 m1] d1], b as [[y2 m2] d2], c as [[y3 m3] d3].
  date_bools. lia.
Qed.

Lemma date_leb_antisym (a b : Z * Z * Z) :
  date_leb a b = true → date_leb b a = true → a = b.
Proof.
  destruct a as [[y1 m1] d1], b as [[y2 m2] d2]. date_bools.
  intros H1 H2. assert (y1 = y2 ∧ m1 = m2 ∧ d1 = d2) as (-> & -> & ->) by lia.
  done.
Qed.

Lemma StronglySorted_NoDup_strict {A} (R : relation A) (l : list A) :
  StronglySorted R l → NoDup l → StronglySorted (λ x y, R x y ∧ x ≠ y) l.
Proof.
  induction 1 as [|x l Hs IH Hx]; intros Hnd; [constructor|].
  apply NoDup_cons in Hnd as [Hnin Hnd]. constructor; [by apply IH|].
  rewrite Forall_forall in Hx |- *. intros y Hy. split; [by apply Hx|].
  intros ->. done.
Qed.

Lemma sorted_dates_spec (t : list PredRow) :
  StronglySorted Spec.date_before (Spec.sorted_dates t) ∧
  ∀ d, d ∈ Spec.sorted_dates t ↔ ∃ r, r ∈ t ∧ date_of r = d.
Proof.
  unfold Spec.sorted_dates. split.
  - apply StronglySorted_NoDup_strict.
    + pose proof (stable_sort_stable date_leb (λ _, True)
                    (λ x y _ _, date_leb_total x y) date_leb_trans
                    (λ _ _, True) (remove_dups (date_of <$> t))
                    (Forall_true _ _ (λ _, I)) (StronglySorted_True _)) as Hs.
      rewrite <- (list_fmap_id (Pandas.stable_sort _ _)).
      eapply (StronglySorted_fmap_dom id _ _ (λ _, True));
        [by apply Forall_true| |exact Hs].
      intros x y _ _ [H _]. exact H.
    + rewrite stable_sort_perm. apply NoDup_remove_dups.
  - intros d. rewrite stable_sort_perm, elem_of_remove_dups, list_elem_of_fmap.
    split; intros (r & H1 & H2); exists r; by split.
Qed.

Lemma daily_dates (t : list PredRow) :
  dp_date <$> daily_peak_list t
  = drop (length (Spec.sorted_dates t) - 30) (Spec.sorted_dates t).
Proof.
  unfold daily_peak_list, daily_30, daily, Pandas.tail, Pandas.groupby_sorted.
  fold (Spec.sorted_dates t).
  rewrite length_fmap, <- list_fmap_compose, fmap_drop, <- list_fmap_compose.
  f_equal. apply list_fmap_id.
Qed.

(** The daily peak table lists at most 30 dates, in strictly increasing
    order; each is the date of some row of the table, and they are the
    latest ones: the date of a row that is not listed is earlier than
    every date listed. *)
Theorem daily_peak_latest_dates (t : list PredRow) :
  (length (daily_peak_list t) ≤ 30)%nat ∧
  StronglySorted Spec.date_before (dp_date <$> daily_peak_list t) ∧
  (∀ d, d ∈ dp_date <$> daily_peak_list t → ∃ r, r ∈ t ∧ date_of r = d) ∧
  (∀ r, r ∈ t → date_of r ∉ dp_date <$> daily_peak_list t →
        Forall (Spec.date_before (date_of r)) (dp_date <$> daily_peak_list t)).
Proof.
  destruct (sorted_dates_spec t) as [Hs Hmem].
  rewrite <- (length_fmap dp_date), daily_dates.
  set (ds := Spec.sorted_dates t) in *.
  assert (Hsplit : ds = take (length ds - 30) ds ++ drop (length ds - 30) ds)
    by (by rewrite take_drop).
  repeat split.
  - rewrite length_drop. lia.
  - rewrite Hsplit in Hs. by apply StronglySorted_app_1_r in Hs.
  - intros d Hd. apply Hmem. by eapply subseteq_drop.
  - intros r Hr Hout. apply Forall_forall. intros d Hd.
    assert (Hin : date_of r ∈ ds) by (apply Hmem; by exists r).
    rewrite Hsplit in Hin, Hs.
    apply elem_of_app in Hin as [Hin | Hin]; [|done].
    by apply (StronglySorted_app_1_elem_of _ _ _ _ _ Hs).
Qed.

(** For a cached table of finite values, every entry of the daily peak
    table stands for a date with at least one row; its two peaks are
    numbers, each the rounded value of one of the rows of that date, and no
    actual or predicted value of that date, rounded to 4 decimals, exceeds
    the corresponding peak. *)
Theorem daily_peak_values (t : list PredRow) :
  table_finite t = true →
  Forall (λ e,
    Spec.rows_of_date t (dp_date e) ≠ [] ∧
    ∃ pk apk : pyfloat,
      dp_peakPredKW e = Some pk ∧ dp_peakKW e = Some apk ∧
      Forall (λ r, fle (Py.round (predicted_kw r) 4) pk = true ∧
                   fle (Py.round (actual_kw r) 4) apk = true)
             (Spec.rows_of_date t (dp_date e)) ∧
      Exists (λ r, Py.round (predicted_kw r) 4 = pk)
             (Spec.rows_of_date t (dp_date e)) ∧
      Exists (λ r, Py.round (actual_kw r) 4 = apk)
             (Spec.rows_of_date t (dp_date e)))
    (daily_peak_list t).
Proof.
  intros Hfin.
  destruct (sorted_dates_spec t) as [_ Hmem].
  unfold daily_peak_list, daily_30, daily, Pandas.tail, Pandas.groupby_sorted.
  fold (Spec.sorted_dates t).
  apply Forall_fmap, Forall_drop, Forall_fmap, Forall_forall.
  intros d Hd. unfold compose. cbn [daily_entry dp_date fst snd
    dp_peakPredKW dp_peakKW].
  fold (Spec.rows_of_date t d).
  assert (Hne : Spec.rows_of_date t d ≠ []).
  { apply Hmem in Hd as (r & Hr & Hdate).
    assert (Hin : In r (Spec.rows_of_date t d)).
    { apply filter_In. split; [by apply list_elem_of_In|].
      by apply bool_decide_eq_true_2. }
    intros E. by rewrite E in Hin. }
  split; [exact Hne|].
  pose proof (filter_table_finite (λ r, bool_decide (date_of r = d)) t Hfin) as Hg.
  fold (Spec.rows_of_date t d) in Hg.
  destruct (peak_of_group predicted_kw _ Hne) as (H1 & H2 & H3).
  { by apply table_finite_notna. }
  destruct (peak_of_group actual_kw _ Hne) as (H4 & H5 & H6).
  { by apply table_finite_actual. }
  do 2 eexists.
  split; [by apply safe_float_finite|]. split; [by apply safe_float_finite|].
  split; [|by split].
  rewrite Forall_forall in H2, H5 |- *. intros r Hr. split; auto.
Qed.

Lemma daily_peak_values_witness :
  Forall (λ e, Spec.rows_of_date Example.small_table (dp_date e) ≠ [])
         (daily_peak_list Example.small_table).
Proof.
  eapply Forall_impl.
  - apply (daily_peak_values Example.small_table). vm_compute. reflexivity.
  - intros e [He _]. exact He.
Defined.

(** ** The numbers of the two responses *)

Lemma four_decimals_round (q : Q) :
  ∃ r : Q, Py.round (Finite q) 4 = Finite r ∧ Spec.four_decimals r.
Proof.
  destruct (round4_near q) as (n & Hn & _).
  eexists. split; [exact Hn|]. exists n. apply Qred_correct.
Qed.

Lemma round4_shape (x : pyfloat) :
  isnan x = false → Spec.null_infinite_or_rounded (Some (Py.round x 4)).
Proof.
  destruct x as [q| | |]; try done. intros _.
  destruct (four_decimals_round q) as (r & -> & Hr). exact Hr.
Qed.

Lemma safe_float_shape (x : pyfloat) :
  Spec.null_infinite_or_rounded (safe_float (PyFloat x)).
Proof.
  unfold safe_float. cbn [andb].
  destruct (isnan x) eqn:E; [done|]. by apply round4_shape.
Qed.

Lemma safe_float_shape_notna (is_float : bool) (x : pyfloat) :
  isnan x = false → Spec.null_infinite_or_rounded (safe_float (PyNum is_float x)).
Proof.
  intros H. unfold safe_float. rewrite H, andb_false_r. by apply round4_shape.
Qed.

Lemma zero_shape : Spec.null_infinite_or_rounded (Some (of_Z 0)).
Proof. by exists 0. Qed.

Lemma Forall_bind {A B} (P : B → Prop) (f : A → list B) (l : list A) :
  Forall (λ x, Forall P (f x)) l → Forall P (l ≫= f).
Proof.
  induction 1 as [|x l Hx _ IH]; [constructor|].
  cbn. apply Forall_app. by split.
Qed.

Lemma startup_metrics_finite (fsqrt : Q → Q) (model : Row → pyfloat)
    (csv : list Reading) (c : Cache) :
  startup fsqrt model csv = Ok c →
  isfinite (cache_mae c) = true ∧ isfinite (cache_rmse c) = true ∧
  isfinite (cache_r2 c) = true ∧
  cache_test c ≠ [] ∧ table_finite (cache_test c) = true.
Proof.
  unfold startup, Serve.split. cbn [Sklearn.bind].
  set (table := predict model _).
  destruct (MAE_VAL table) as [mae|] eqn:Emae; [|discriminate].
  cbn [Sklearn.bind].
  destruct (RMSE_VAL fsqrt table) as [rmse|] eqn:Ermse; [|discriminate].
  cbn [Sklearn.bind].
  destruct (R2_VAL table) as [r2|] eqn:Er2; [|discriminate].
  cbn [Sklearn.bind]. intros [= <-].
  cbn [cache_mae cache_rmse cache_r2 cache_test].
  destruct (MAE_VAL_ok_inv table mae Emae) as [Hne Hfin].
  split; [|split; [|split; [|by split]]].
  - unfold MAE_VAL, Sklearn.mean_absolute_error, Sklearn.bind in Emae.
    destruct (Sklearn.check_reg_targets _ _) as [[a p]|]; [|discriminate].
    by injection Emae as <-.
  - unfold RMSE_VAL, Sklearn.mean_squared_error, Sklearn.bind in Ermse.
    destruct (Sklearn.check_reg_targets _ _) as [[a p]|]; [|discriminate].
    by injection Ermse as <-.
  - by apply R2_VAL_inv in Er2 as [-> | (q & -> & _)].
Qed.

Lemma finite_notnan (x : pyfloat) : isfinite x = true → isnan x = false.
Proof. by destruct x. Qed.

(** C3 (as amended).  [safe_float] turns [None] and a NaN that is an
    instance of [float] into null, and rounds a finite value to the
    nearest multiple of 0.0001; it returns an infinite value unchanged,
    and a NaN that is not an instance of [float] (a [numpy.float32]) as
    NaN; it never turns a value that is not finite into a finite number
    such as 0.  In the two responses of a service that started, every
    float other than the feature importances is null, an infinity, or a
    number with at most 4 decimals, and never NaN; the feature importances
    are the model's own, reported without rounding. *)
Theorem response_numbers (fsqrt : Q → Q) (model : Row → pyfloat)
    (csv : list Reading) (c : Cache) (now_weekday : Z)
    (feature_importances : list Q) (pred_is_float : bool) :
  startup fsqrt model csv = Ok c →
  (safe_float PyNone = None ∧
   safe_float (PyFloat NaN) = None ∧
   safe_float (NpFloat32 NaN) = Some NaN ∧
   (∀ (is_float : bool) (x : pyfloat),
       isinf x = true → safe_float (PyNum is_float x) = Some x) ∧
   (∀ (is_float : bool) (q : Q), ∃ n : Z,
       safe_float (PyNum is_float (Finite q)) = Some (Finite (Qred (n # 10000))) ∧
       (Qabs (q - (n # 10000)) <= 1 # 20000)%Q) ∧
   (∀ (is_float : bool) (x r : pyfloat),
       isfinite x = false → safe_float (PyNum is_float x) = Some r →
       isfinite r = false)) ∧
  Forall Spec.null_infinite_or_rounded
         (Spec.forecast_floats (forecast c now_weekday feature_importances)) ∧
  Forall Spec.null_infinite_or_rounded
         (Spec.peak_floats (peak pred_is_float c)) ∧
  Spec.importances (forecast c now_weekday feature_importances)
    ≡ₚ take (length FEATURES) feature_importances.
Proof.
  intros Hc.
  destruct (startup_metrics_finite fsqrt model csv c Hc)
    as (Hmae & Hrmse & Hr2 & Hne & Hfin).
  split; [|split; [|split]].
  - split; [done|]. split; [done|]. split; [done|]. split; [|split].
    + intros is_float [q| | |] Hx; try discriminate; by destruct is_float.
    + intros is_float q. destruct (round4_near q) as (n & Hn & Hq).
      exists n. unfold safe_float. cbn [isnan]. rewrite andb_false_r.
      by rewrite Hn.
    + intros is_float [q| | |] r Hx; try discriminate;
        destruct is_float; cbn; intros [= <-]; done.
  - unfold Spec.forecast_floats, forecast.
    cbn [fr_forecast24h fr_forecastTomorrow fr_modelStats fr_weeklyForecast].
    apply Forall_app_2; [|apply Forall_app_2; [|apply Forall_app_2]].
    + apply Forall_bind. unfold forecast24h.
      apply Forall_fmap, Forall_true. intros h. unfold compose, today_entry.
      destruct (Pandas.loc h _) as [r|];
        cbn [Spec.today_floats fe_actual fe_predicted];
        repeat constructor; apply safe_float_shape.
    + unfold forecastTomorrow. rewrite <- list_fmap_compose.
      apply Forall_fmap, Forall_true. intros h.
      unfold compose, tomorrow_entry. cbn [te_predicted].
      destruct (Pandas.loc h _) as [p|]; [|apply zero_shape].
      destruct (negb (isnan p)); [apply safe_float_shape|apply zero_shape].
    + unfold Spec.model_stats_floats, modelStats, modelStats_r2.
      cbn [ms_mae ms_rmse ms_r2 ms_learningRate].
      repeat constructor; try (apply round4_shape; by apply finite_notnan).
      by exists 500.
    + apply Forall_bind. unfold weeklyForecast.
      apply Forall_fmap, Forall_true. intros i. unfold compose, week_entry.
      cbn [Spec.week_floats wf_peakPredicted wf_avgPredicted].
      repeat constructor; apply safe_float_shape.
  - unfold Spec.peak_floats, peak.
    cbn [pr_dailyPeak pr_stats pr_top10].
    apply Forall_app_2; [|apply Forall_app_2].
    + apply Forall_bind. unfold daily_peak_list.
      apply Forall_fmap, Forall_true. intros dg. unfold compose, daily_entry.
      cbn [Spec.daily_floats dp_peakKW dp_peakPredKW dp_avgKW dp_avgPredKW].
      repeat constructor; apply safe_float_shape.
    + assert (Hp : Forall (λ x, isfinite x = true) (predicted_kw <$> cache_test c))
        by (by apply preds_finite).
      assert (Hpne : predicted_kw <$> cache_test c ≠ [])
        by (by destruct (cache_test c)).
      destruct (min_mean_max _ Hpne Hp) as (Hmin & Hmean & Hmax & _).
      unfold Spec.stats_floats, stats.
      cbn [maxPredKW avgPredKW minPredKW maxActKW avgActKW].
      repeat constructor;
        try apply safe_float_shape;
        apply safe_float_shape_notna; by apply finite_notnan.
    + apply Forall_bind. unfold top10.
      apply Forall_fmap, Forall_true. intros r. unfold compose, top10_entry.
      cbn [Spec.top10_floats actualKW predictedKW voltage current powerFactor].
      repeat constructor; apply safe_float_shape.
  - unfold Spec.importances, forecast. cbn [fr_featureImportance].
    unfold feat_imp. rewrite stable_sort_perm.
    replace (snd <$> zip FEATURES feature_importances)
      with (take (length FEATURES) feature_importances); [done|].
    generalize FEATURES. intros l. revert l.
    induction feature_importances as [|x k IH]; intros [|y l]; cbn; try done.
    by rewrite <- IH.
Qed.

Lemma response_numbers_witness :
  ∃ c : Cache,
    startup Example.sqrt8 Example.lag_model Example.csv20 = Ok c ∧
    Forall Spec.null_infinite_or_rounded
           (Spec.forecast_floats (forecast c 0 Example.importances)) ∧
    Forall Spec.null_infinite_or_rounded (Spec.peak_floats (peak false c)) ∧
    Spec.importances (forecast c 0 Example.importances)
      ≡ₚ take (length FEATURES) Example.importances.
Proof.
  destruct (startup Example.sqrt8 Example.lag_model Example.csv20) as [c|] eqn:E;
    [|vm_compute in E; discriminate E].
  exists c. split; [reflexivity|].
  exact (proj2 (response_numbers Example.sqrt8 Example.lag_model Example.csv20
                  c 0 Example.importances false E)).
Defined.

(** C3, counterexample.  Positive infinity is not finite, and [safe_float]
    returns it as it is instead of null; it returns the NaN of a
    [numpy.float32] as NaN; and an importance of 0.123456 is reported with
    its six decimals in the response of a service that started. *)
Lemma response_infinite_and_unrounded :
  isfinite PosInf = false ∧
  safe_float (PyFloat PosInf) = Some PosInf ∧
  safe_float (PyFloat PosInf) ≠ None ∧
  safe_float (NpFloat32 NaN) = Some NaN ∧
  safe_float (NpFloat32 NaN) ≠ None ∧
  ∃ c : Cache,
    startup Example.sqrt8 Example.lag_model Example.csv20 = Ok c ∧
    ("Voltage (V)"%string, 123456 # 1000000)
      ∈ fr_featureImportance (forecast c 0 Example.importances) ∧
    ¬ Spec.four_decimals (123456 # 1000000).
Proof.
  do 5 (split; [done|]).
  destruct (startup Example.sqrt8 Example.lag_model Example.csv20) as [c|] eqn:E;
    [|vm_compute in E; discriminate E].
  exists c. split; [reflexivity|]. split.
  - unfold forecast. cbn [fr_featureImportance].
    apply list_elem_of_In. vm_compute. tauto.
  - intros [n Hn]. unfold Qeq in Hn. cbn in Hn. lia.
Qed.

(** ** The split index as binary64 computes it *)

Lemma agree_from_spec (k : nat) (n0 n : Z) :
  Binary64.agree_from k n0 = true →
  n0 <= n < n0 + Z.of_nat k →
  Binary64.split_idx n = 4 * n / 5 ∧ Binary64.n_test n = n - 4 * n / 5.
Proof.
  revert n0. induction k as [|k IH]; intros n0 H Hn; [lia|].
  cbn [Binary64.agree_from] in H.
  apply andb_true_iff in H as [H Hrest]. apply andb_true_iff in H as [H1 H2].
  destruct (decide (n = n0)) as [-> | Hne].
  - split; by apply Z.eqb_eq.
  - apply (IH (n0 + 1)); [done|lia].
Qed.

Lemma agree_from_0_65537 : Binary64.agree_from 65537 0 = true.
Proof. vm_compute. reflexivity. Qed.

(** For every frame of at most 65536 rows, the cut index computed in
    binary64 floating point, as the script computes it, is the
    [split_idx] of this development, and the test size that
    [train_test_split] computes in binary64 is the number of test rows. *)
Theorem split_idx_binary64 {A} (df : list A) :
  Z.of_nat (length df) <= 65536 →
  Binary64.split_idx (Z.of_nat (length df)) = split_idx df ∧
  Binary64.n_test (Z.of_nat (length df)) = Z.of_nat (length (df_test df)).
Proof.
  intros Hlen.
  assert (Hk : Z.of_nat 65537 = 65537) by (vm_compute; reflexivity).
  destruct (agree_from_spec 65537 0 (Z.of_nat (length df)) agree_from_0_65537)
    as [H1 H2]; [rewrite Hk; lia|].
  rewrite H1, H2, split_idx_div. split; [done|].
  unfold df_test, Pandas.iloc_from. rewrite length_drop, split_idx_div.
  Z.div_mod_to_equations. lia.
Qed.

Lemma split_idx_binary64_witness :
  Binary64.split_idx (Z.of_nat (length Example.frame20)) = split_idx Example.frame20 ∧
  Binary64.n_test (Z.of_nat (length Example.frame20))
  = Z.of_nat (length (df_test Example.frame20)).
Proof.
  apply (split_idx_binary64 Example.frame20). vm_compute. discriminate.
Defined.
